(** * project_to_md: a shallow embedding of [src/project_to_md.py]

    The script walks the working directory, honours a root-level
    [.gitignore], renders the directory tree as a Markdown bullet list,
    inlines the text files in fenced code blocks and wraps the result in
    [<project>] tags.

    Modelling choices, all stated where they are made:
    - a Python [str] is a Rocq [string] (the bytes of its UTF-8 encoding,
      whose lexicographic order is the code-point order used by [sorted]);
    - the filesystem below the working directory is a finite tree
      ([fsnode]); a directory is its listing, in the arbitrary order in
      which [os.listdir] enumerates it; a file has its bytes or cannot
      be opened; [os.listdir] may raise on a directory ([listdir_error]),
      and nothing in the script catches that exception;
    - the tree built by [build_file_tree] is a Python [dict], modelled as
      an association list in insertion order;
    - the third-party [pathspec] matcher and the UTF-8 codec of the Python
      runtime are Section variables;
    - [os.path] is modelled after CPython's [posixpath];
    - [main] is the text handed to the clipboard or the exception that
      ends the run; [main_run] adds the token count, the clipboard and
      the printed lines;
    - [os.getcwd] returns, and the tree is shallower than the recursion
      limit of the interpreter. *)

From Stdlib Require Import List String Ascii Bool Arith Lia.
From Stdlib Require Import Permutation Sorted Orders Mergesort.
From Stdlib Require Import Strings.Byte.
From Stdlib Require OrderedTypeEx.
Import ListNotations.

Set Warnings "-register-all".

Local Open Scope string_scope.
Local Open Scope list_scope.
Local Open Scope nat_scope.

(** ** Python [str] methods *)

Module pystr.

(** [sep.join(ls)] *)
Definition join (sep : string) (ls : list string) : string :=
  String.concat sep ls.

(** [s.split(sep)] for a one-character separator. *)
Fixpoint split (sep : ascii) (s : string) : list string :=
  match s with
  | EmptyString => [EmptyString]
  | String c s' =>
      if Ascii.eqb c sep then EmptyString :: split sep s'
      else match split sep s' with
           | [] => [String c EmptyString]
           | x :: xs => String c x :: xs
           end
  end.

(** [s.startswith(p)] *)
Definition startswith (s p : string) : bool := String.prefix p s.

(** [s.endswith(c)] for a one-character suffix. *)
Fixpoint endswith (s : string) (c : ascii) : bool :=
  match s with
  | EmptyString => false
  | String a EmptyString => Ascii.eqb a c
  | String _ s' => endswith s' c
  end.

(** [s.lstrip(c)] for a one-character set. *)
Fixpoint lstrip (c : ascii) (s : string) : string :=
  match s with
  | String a s' => if Ascii.eqb a c then lstrip c s' else s
  | EmptyString => EmptyString
  end.

(** [s.rfind(c)]: the index of the last occurrence of [c], if any. *)
Fixpoint rfind (c : ascii) (s : string) : option nat :=
  match s with
  | EmptyString => None
  | String a s' =>
      match rfind c s' with
      | Some i => Some (S i)
      | None => if Ascii.eqb a c then Some 0 else None
      end
  end.

Definition lower_ascii (a : ascii) : ascii :=
  let n := nat_of_ascii a in
  if (65 <=? n) && (n <=? 90) then ascii_of_nat (n + 32) else a.

(** [s.lower()], on the ASCII letters.  The only use is the lookup of a
    file extension in a table of ASCII keys none of whose letters is the
    lower case of a non-ASCII character. *)
Fixpoint lower (s : string) : string :=
  match s with
  | EmptyString => EmptyString
  | String a s' => String (lower_ascii a) (lower s')
  end.

(** [c in s] *)
Fixpoint contains (c : ascii) (s : string) : bool :=
  match s with
  | EmptyString => false
  | String a s' => Ascii.eqb a c || contains c s'
  end.

End pystr.

(** ** [os.path] on POSIX *)

Module os_path.

Definition sep : ascii := "/"%char.

(** [os.path.join(a, b)] *)
Definition join (a b : string) : string :=
  if pystr.startswith b "/" then b
  else if (a =? "")%string || pystr.endswith a sep then (a ++ b)%string
  else (a ++ "/" ++ b)%string.

Definition isabs (p : string) : bool := pystr.startswith p "/".

(** One step of the loop of [normpath] over the components. *)
Definition normpath_step (initial_slashes : nat) (new_comps : list string)
    (comp : string) : list string :=
  if (comp =? "")%string || (comp =? ".")%string then new_comps
  else if negb (comp =? "..")%string
          || ((initial_slashes =? 0) && (List.length new_comps =? 0))
          || ((negb (List.length new_comps =? 0))
              && (last new_comps "" =? "..")%string)
       then new_comps ++ [comp]
       else removelast new_comps.

(** [os.path.normpath(path)] *)
Definition normpath (path : string) : string :=
  if (path =? "")%string then "."
  else
    let initial_slashes :=
      if pystr.startswith path "/" then
        if pystr.startswith path "//" && negb (pystr.startswith path "///")
        then 2 else 1
      else 0 in
    let comps := pystr.split sep path in
    let new_comps := fold_left (normpath_step initial_slashes) comps [] in
    let path' :=
      (pystr.join "" (repeat "/" initial_slashes) ++ pystr.join "/" new_comps)%string in
    if (path' =? "")%string then "." else path'.

(** [os.path.abspath(path)] in a process whose working directory is [cwd]. *)
Definition abspath (cwd path : string) : string :=
  normpath (if isabs path then path else join cwd path).

(** The components of an absolute path, as [relpath] takes them. *)
Definition components (p : string) : list string :=
  let tail := pystr.lstrip sep p in
  if (tail =? "")%string then [] else pystr.split sep tail.

(** Length of the longest common prefix: [len(commonprefix([l1, l2]))]. *)
Fixpoint common_prefix_len (l1 l2 : list string) : nat :=
  match l1, l2 with
  | x :: l1', y :: l2' =>
      if (x =? y)%string then S (common_prefix_len l1' l2') else 0
  | _, _ => 0
  end.

(** The list [rel_list] that [os.path.relpath(path, start)] joins, in a
    process whose working directory is [cwd]. *)
Definition rel_list (cwd path start : string) : list string :=
  let start_list := components (abspath cwd start) in
  let path_list := components (abspath cwd path) in
  let i := common_prefix_len start_list path_list in
  repeat ".." (List.length start_list - i) ++ skipn i path_list.

(** [os.path.relpath(path, start)].  The [ValueError] that CPython raises
    for the empty [path] is left out: the script only passes
    [os.path.join(root, entry)] for an [entry] returned by [os.listdir],
    which is never empty. *)
Definition relpath (cwd path start : string) : string :=
  match rel_list cwd path start with
  | [] => "."
  | rl => pystr.join "/" rl
  end.

(** [os.path.splitext(p)], after [genericpath._splitext]: the extension
    starts at the last dot of the last component, unless only dots
    precede it there. *)
Definition splitext (p : string) : string * string :=
  let no_ext := (p, EmptyString) in
  match pystr.rfind "."%char p with
  | None => no_ext
  | Some dotIndex =>
      let filenameIndex :=
        match pystr.rfind sep p with Some i => S i | None => 0 end in
      if dotIndex <? filenameIndex then no_ext
      else
        let stem := String.substring filenameIndex (dotIndex - filenameIndex) p in
        if forallb (Ascii.eqb "."%char) (list_ascii_of_string stem)
        then no_ext
        else (String.substring 0 dotIndex p,
              String.substring dotIndex (String.length p - dotIndex) p)
  end.

End os_path.

(** ** The filesystem and the Python values *)

(** A regular file: its bytes, or the message of the [OSError] that
    opening it raises. *)
Inductive file : Type :=
| Readable (data : list byte)
| Unreadable (err : string).

(** An entry of the filesystem.  A directory is its listing, in the order
    in which [os.listdir] returns it. *)
Inductive fsnode : Type :=
| FFile (f : file)
| FDir (entries : list (string * fsnode)).

Definition listing : Type := list (string * fsnode).

(** [os.listdir] *)
Definition listdir (entries : listing) : list string := map fst entries.

(** [os.path.isdir] *)
Definition isdir (n : fsnode) : bool :=
  match n with FDir _ => true | FFile _ => false end.

(** The values stored in the tree of [build_file_tree]: the strings
    ['FILE'] and ['BINARY'], or a nested [dict]. *)
Inductive pyvalue : Type :=
| FILE
| BINARY
| Dict (items : list (string * pyvalue)).

(** A Python [dict] with [str] keys, in insertion order. *)
Definition dict : Type := list (string * pyvalue).

(** [d[k] = v]: an existing key keeps its place, a new key goes last. *)
Fixpoint dict_set (d : dict) (k : string) (v : pyvalue) : dict :=
  match d with
  | [] => [(k, v)]
  | (k', v') :: d' =>
      if (k' =? k)%string then (k', v) :: d' else (k', v') :: dict_set d' k v
  end.

Definition keys (d : dict) : list string := map fst d.

(** The outcome of code that may raise: a value, or the [str()] of the
    exception. *)
Inductive result (A : Type) : Type :=
| Ok (a : A)
| Raise (msg : string).
Arguments Ok {A} a.
Arguments Raise {A} msg.

(** [sorted] on a list of [str]. *)
Module StringOrder <: TotalLeBool.
Definition t := string.
Definition leb := String.leb.
Theorem leb_total : forall a1 a2, leb a1 a2 = true \/ leb a2 a1 = true.
Proof. exact String.leb_total. Qed.
End StringOrder.

Module StringSort := Sort StringOrder.

Definition sorted (l : list string) : list string := StringSort.sort l.

(** Line feed, the Python literal ["\n"]. *)
Definition LF : string := String (ascii_of_nat 10) EmptyString.

(** The matcher of [pathspec]: a [PathSpec] is used through
    [match_file] only. *)
Definition PathSpec : Type := string -> bool.

Section Script.

(** Whether [chunk.decode("utf-8")] succeeds. *)
Variable utf8_decodable : list byte -> bool.

(** What [f.read()] returns on a file with these bytes opened with
    [open(path, "r", encoding="utf-8")], or the message of the
    [UnicodeDecodeError]. *)
Variable read_text : list byte -> result string.

(** [str.splitlines] *)
Variable splitlines : string -> list string.

(** [PathSpec.from_lines("gitwildmatch", lines)]; it raises on a pattern
    that is not valid. *)
Variable from_lines : list string -> result PathSpec.

(** *** Lines 44-51 *)
Definition is_ignored (cwd : string) (filepath : string)
    (spec : option PathSpec) : bool :=
  match spec with
  | None => false
  | Some match_file =>
      let rel_path := os_path.relpath cwd filepath cwd in
      match_file rel_path
  end.

(** *** Lines 54-70.  The argument is the file found at [filepath]. *)
Definition is_binary_file (f : file) (check_bytes : nat) : bool :=
  match f with
  | Unreadable _ => true
  | Readable data =>
      let chunk := firstn check_bytes data in
      if existsb (Byte.eqb x00) chunk then true
      else if negb (utf8_decodable chunk) then true
      else false
  end.

(** *** Lines 73-112

    The walk is given twice: [build_file_tree] is the [dict] that the
    function returns when no [os.listdir] raises, and
    [build_file_tree_or_raise] below is the outcome of the call when
    [os.listdir] may raise; the second returns the first whenever it
    returns. *)

Definition skip_dirs : list string := [".git"; "__pycache__"].

(** Lines 93-111, the body of the loop.  [stat entry] is what the
    filesystem holds at [os.path.join(root, entry)]: whether it is a
    directory, and the value that lines 103-111 compute for it. *)
Definition build_step (cwd : string) (spec : option PathSpec) (root : string)
    (stat : string -> bool * pyvalue) (tree : dict) (entry : string) : dict :=
  let path := os_path.join root entry in
  let '(is_dir, value) := stat entry in
  if existsb (String.eqb entry) skip_dirs && is_dir then tree
  else if is_ignored cwd path spec then tree
  else dict_set tree entry value.

(** Lines 103-111: the value stored for the entry [n] found at [path],
    the recursive call for a directory and the classification for a file.
    The child of a directory is found by its name, as the operating system
    resolves [os.path.join(root, entry)]; a name that resolves to nothing
    is not a directory and cannot be opened. *)
Fixpoint entry_value (cwd : string) (spec : option PathSpec) (path : string)
    (n : fsnode) {struct n} : pyvalue :=
  match n with
  | FFile f => if is_binary_file f 1024 then BINARY else FILE
  | FDir entries =>
      let stat :=
        fix stat (es : listing) (entry : string) : bool * pyvalue :=
          match es with
          | [] => (false, BINARY)
          | (name, child) :: es' =>
              if (name =? entry)%string
              then (isdir child,
                    entry_value cwd spec (os_path.join path entry) child)
              else stat es' entry
          end in
      Dict (fold_left (build_step cwd spec path (stat entries))
                      (sorted (listdir entries)) [])
  end.

(** [build_file_tree(root, spec)], where [entries] is the directory found
    at [root]. *)
Definition build_file_tree (cwd root : string) (spec : option PathSpec)
    (entries : listing) : dict :=
  match entry_value cwd spec root (FDir entries) with
  | Dict tree => tree
  | _ => []
  end.

(** *** Lines 73-112, with the exception of line 92

    [listdir_error path] is the message of the exception that
    [os.listdir(path)] raises (a directory without read permission,
    say), if it raises.  Neither [build_file_tree] nor [main] catches
    it: it leaves the loop and every enclosing call. *)

(** Lines 93-111, the body of the loop, when the passes before it or the
    recursive call of line 105 may have raised. *)
Definition build_step_or_raise (cwd : string) (spec : option PathSpec)
    (root : string) (stat : string -> bool * result pyvalue)
    (acc : result dict) (entry : string) : result dict :=
  match acc with
  | Raise e => Raise e
  | Ok tree =>
      let path := os_path.join root entry in
      let '(is_dir, value) := stat entry in
      if existsb (String.eqb entry) skip_dirs && is_dir then Ok tree
      else if is_ignored cwd path spec then Ok tree
      else match value with
           | Raise e => Raise e
           | Ok v => Ok (dict_set tree entry v)
           end
  end.

(** Lines 92 and 103-111: the outcome for the entry [n] found at [path]. *)
Fixpoint entry_value_or_raise (listdir_error : string -> option string)
    (cwd : string) (spec : option PathSpec) (path : string)
    (n : fsnode) {struct n} : result pyvalue :=
  match n with
  | FFile f => Ok (if is_binary_file f 1024 then BINARY else FILE)
  | FDir entries =>
      match listdir_error path with
      | Some e => Raise e
      | None =>
          let stat :=
            fix stat (es : listing) (entry : string)
                : bool * result pyvalue :=
              match es with
              | [] => (false, Ok BINARY)
              | (name, child) :: es' =>
                  if (name =? entry)%string
                  then (isdir child,
                        entry_value_or_raise listdir_error cwd spec
                          (os_path.join path entry) child)
                  else stat es' entry
              end in
          match fold_left (build_step_or_raise cwd spec path (stat entries))
                          (sorted (listdir entries)) (Ok []) with
          | Raise e => Raise e
          | Ok tree => Ok (Dict tree)
          end
      end
  end.

(** The call [build_file_tree(root, spec)], where [entries] is the
    directory found at [root]: the tree, or the exception of the first
    [os.listdir] that raises. *)
Definition build_file_tree_or_raise (listdir_error : string -> option string)
    (cwd root : string) (spec : option PathSpec) (entries : listing)
    : result dict :=
  match entry_value_or_raise listdir_error cwd spec root (FDir entries) with
  | Raise e => Raise e
  | Ok (Dict tree) => Ok tree
  | Ok _ => Ok []
  end.

(** *** Lines 115-128 *)

(** The lines that one pass of the loop appends for the item
    [name, value]. *)
Fixpoint render_item (prefix name : string) (value : pyvalue)
    {struct value} : list string :=
  match value with
  | Dict sub =>
      [(prefix ++ "- **" ++ name ++ "/**")%string;
       pystr.join LF
         (flat_map (fun '(n, v) => render_item (prefix ++ "  ")%string n v) sub)]
  | _ => [(prefix ++ "- " ++ name)%string]
  end.

Definition render_tree_markdown (tree : dict) (prefix : string) : string :=
  pystr.join LF (flat_map (fun '(n, v) => render_item prefix n v) tree).

(** *** Lines 131-170 *)

Definition fence_table : list (string * string) :=
  [(".py", "python"); (".js", "javascript"); (".ts", "typescript");
   (".json", "json"); (".html", "html"); (".css", "css")].

(** [fence_table.get(extension, "")] *)
Definition fence_get (extension : string) : string :=
  match find (fun kv => (fst kv =? extension)%string) fence_table with
  | Some (_, lang) => lang
  | None => ""
  end.

(** Lines 145-150: the text of the file, or the placeholder. *)
Definition file_text_of (r : result string) : string :=
  match r with
  | Ok text => text
  | Raise e => ("Could not read file: " ++ e)%string
  end.

Section Gather.

(** [open(full_path, "r", encoding="utf-8")] followed by [f.read()], in
    the filesystem at hand. *)
Variable open_read : string -> result string.

(** The strings that one pass of the loop appends for the item
    [name, value]. *)
Fixpoint gather_item (parent_path name : string) (value : pyvalue)
    {struct value} : list string :=
  let full_path := os_path.join parent_path name in
  match value with
  | Dict sub =>
      [pystr.join LF
         (flat_map (fun '(n, v) => gather_item full_path n v) sub)]
  | FILE =>
      let file_text := file_text_of (open_read full_path) in
      let extension := pystr.lower (snd (os_path.splitext name)) in
      let fence_lang := fence_get extension in
      [("## " ++ full_path ++ LF)%string;
       ("```" ++ fence_lang)%string;
       file_text;
       ("```" ++ LF)%string]
  | BINARY =>
      [("## " ++ full_path ++ LF)%string;
       ("_(binary file, not included)_" ++ LF)%string]
  end.

Definition gather_file_contents (tree : dict) (parent_path : string) : string :=
  pystr.join LF (flat_map (fun '(n, v) => gather_item parent_path n v) tree).

End Gather.

(** *** The process: working directory and filesystem below it *)

Record os_state : Type := {
  getcwd : string;
  cwd_entries : listing;
  listdir_error : string -> option string
}.

Fixpoint assoc {A : Type} (k : string) (l : list (string * A)) : option A :=
  match l with
  | [] => None
  | (k', a) :: l' => if (k' =? k)%string then Some a else assoc k l'
  end.

(** The entry reached from [n] along the names [comps]. *)
Fixpoint walk (n : fsnode) (comps : list string) : option fsnode :=
  match comps with
  | [] => Some n
  | c :: comps' =>
      match n with
      | FDir es =>
          match assoc c es with
          | Some child => walk child comps'
          | None => None
          end
      | FFile _ => None
      end
  end.

(** Path resolution: an entry is reached from the working directory along
    its relative path; nothing outside the working directory exists. *)
Definition resolve (st : os_state) (path : string) : option fsnode :=
  walk (FDir (cwd_entries st))
       (os_path.rel_list (getcwd st) path (getcwd st)).

(** [os.path.exists] *)
Definition os_path_exists (st : os_state) (path : string) : bool :=
  match resolve st path with Some _ => true | None => false end.

(** [open(path, "r", encoding="utf-8")] followed by [f.read()]. *)
Definition open_text (st : os_state) (path : string) : result string :=
  match resolve st path with
  | Some (FFile (Readable data)) => read_text data
  | Some (FFile (Unreadable err)) => Raise err
  | Some (FDir _) => Raise ("[Errno 21] Is a directory: '" ++ path ++ "'")%string
  | None =>
      Raise ("[Errno 2] No such file or directory: '" ++ path ++ "'")%string
  end.

(** *** Lines 31-41.  Nothing catches what [open], [read] or
    [from_lines] raise. *)
Definition load_gitignore_patterns (st : os_state) (gitignore_path : string)
    : result (option PathSpec) :=
  if negb (os_path_exists st gitignore_path) then Ok None
  else
    match open_text st gitignore_path with
    | Raise e => Raise e
    | Ok gitignore_content =>
        match from_lines (splitlines gitignore_content) with
        | Raise e => Raise e
        | Ok spec => Ok (Some spec)
        end
    end.

(** *** Lines 173-191: the text handed to the clipboard, or the exception
    that ends the run: that of [load_gitignore_patterns] at line 177 or
    that of [os.listdir] during the walk of line 178.  A run reads the
    filesystem and writes to the clipboard and to the standard output
    only: the state is the same after it. *)
Definition main (st : os_state) : result string :=
  let root_dir := getcwd st in
  let gitignore_path := os_path.join root_dir ".gitignore" in
  match load_gitignore_patterns st gitignore_path with
  | Raise e => Raise e
  | Ok spec =>
      match build_file_tree_or_raise (listdir_error st) (getcwd st) root_dir
              spec (cwd_entries st) with
      | Raise e => Raise e
      | Ok project_tree =>
          let tree_section :=
            ("# Project Structure" ++ LF ++ LF
             ++ render_tree_markdown project_tree "")%string in
          let contents_section :=
            (LF ++ LF ++ "# File Contents" ++ LF ++ LF
             ++ gather_file_contents (open_text st) project_tree root_dir)%string in
          let final_markdown := (tree_section ++ contents_section)%string in
          Ok ("<project>" ++ LF ++ final_markdown ++ LF ++ "</project>" ++ LF)%string
      end
  end.

End Script.


(** ** Python text: [str.split()] and [str(int)] *)

From Stdlib Require Import DecimalString.

Module pytext.

(** The ASCII characters for which [str.isspace] holds: U+0009 to
    U+000D, U+001C to U+001F and the space. *)
Definition is_space1 (c : ascii) : bool :=
  let n := nat_of_ascii c in
  ((9 <=? n) && (n <=? 13)) || ((28 <=? n) && (n <=? 32)).

(** The two-byte encodings of U+0085 and U+00A0. *)
Definition is_space2 (c1 c2 : ascii) : bool :=
  let n1 := nat_of_ascii c1 in
  let n2 := nat_of_ascii c2 in
  (n1 =? 194) && ((n2 =? 133) || (n2 =? 160)).

(** The three-byte encodings of U+1680, U+2000 to U+200A, U+2028,
    U+2029, U+202F, U+205F and U+3000. *)
Definition is_space3 (c1 c2 c3 : ascii) : bool :=
  let n1 := nat_of_ascii c1 in
  let n2 := nat_of_ascii c2 in
  let n3 := nat_of_ascii c3 in
  ((n1 =? 225) && (n2 =? 154) && (n3 =? 128))
  || ((n1 =? 226) && (n2 =? 128)
      && (((128 <=? n3) && (n3 <=? 138))
          || (n3 =? 168) || (n3 =? 169) || (n3 =? 175)))
  || ((n1 =? 226) && (n2 =? 129) && (n3 =? 159))
  || ((n1 =? 227) && (n2 =? 128) && (n3 =? 128)).

(** The number of bytes of the whitespace character at the head of [s],
    [0] when [s] does not start with one. *)
Definition space_len (s : string) : nat :=
  match s with
  | EmptyString => 0
  | String c1 r1 =>
      if is_space1 c1 then 1
      else match r1 with
           | EmptyString => 0
           | String c2 r2 =>
               if is_space2 c1 c2 then 2
               else match r2 with
                    | EmptyString => 0
                    | String c3 _ => if is_space3 c1 c2 c3 then 3 else 0
                    end
           end
  end.

(** The word in progress, with one more character. *)
Definition push (cur : option string) (c : ascii) : option string :=
  match cur with
  | None => Some (String c EmptyString)
  | Some w => Some (w ++ String c EmptyString)%string
  end.

(** The word in progress, when it ends. *)
Definition flush (cur : option string) : list string :=
  match cur with
  | None => []
  | Some w => [w]
  end.

(** The scan of [str.split()]: [skip] bytes of a whitespace character
    are still to pass, [cur] is the word in progress. *)
Fixpoint split_go (s : string) (skip : nat) (cur : option string)
    : list string :=
  match s with
  | EmptyString => flush cur
  | String c s' =>
      match skip with
      | S k => split_go s' k cur
      | 0 =>
          match space_len s with
          | 0 => split_go s' 0 (push cur c)
          | S k => flush cur ++ split_go s' k None
          end
      end
  end.

(** [s.split()]: the words of [s], separated by runs of whitespace. *)
Definition split_ws (s : string) : list string := split_go s 0 None.

(** [str(n)] for a natural number. *)
Definition of_nat (n : nat) : string := NilEmpty.string_of_uint (Nat.to_uint n).

End pytext.

(** ** The rest of the script *)

(** What a run leaves behind: the text handed to [pbcopy], the lines
    printed, and the exception that ended it, if any. *)
Record run_outcome : Type := {
  copied : option string;
  stdout : list string;
  uncaught : option string
}.

Section Run.

Variable utf8_decodable : list byte -> bool.
Variable read_text : list byte -> result string.
Variable splitlines : string -> list string.
Variable from_lines : list string -> result PathSpec.

(** [tiktoken.get_encoding("cl100k_base").encode(text)] after
    [import tiktoken], or the exception of whichever step fails. *)
Variable tiktoken_encode : string -> result (list nat).

(** [subprocess.run(["pbcopy"], input=text, text=True)]; it raises when
    the program cannot be started. *)
Variable run_pbcopy : string -> result unit.

(** *** Lines 15-28 *)
Definition count_tokens (text : string) : nat :=
  match tiktoken_encode text with
  | Ok tokens => List.length tokens
  | Raise _ => List.length (pytext.split_ws text)
  end.

(** *** Lines 173-200: [main] with its effects. *)
Definition main_run (st : os_state) : run_outcome :=
  match main utf8_decodable read_text splitlines from_lines st with
  | Raise e => {| copied := None; stdout := []; uncaught := Some e |}
  | Ok final_markdown =>
      let token_count := count_tokens final_markdown in
      match run_pbcopy final_markdown with
      | Raise e => {| copied := None; stdout := []; uncaught := Some e |}
      | Ok _ =>
          {| copied := Some final_markdown;
             stdout :=
               ["Project has been converted to Markdown (wrapped in <project> tags) and copied to your clipboard."%string;
                ("Total tokens in output: " ++ pytext.of_nat token_count)%string];
             uncaught := None |}
      end
  end.

(** *** Lines 8-12 and 203-204: the script, in an environment where
    [pathspec] can be imported or not. *)
Definition script (pathspec_importable : bool) (st : os_state) : run_outcome :=
  if pathspec_importable then main_run st
  else {| copied := None;
          stdout := ["Missing 'pathspec' library. Install it with: pip install pathspec"%string];
          uncaught := Some "SystemExit: 1"%string |}.

End Run.
(** * Vocabulary of the properties *)

(** The order of [sorted]. *)
Definition str_le (a b : string) : Prop := String.leb a b = true.
Definition str_lt (a b : string) : Prop := String.ltb a b = true.


(** ** Well-formed filesystems: the names of a directory are distinct
    file names *)

Fixpoint nodupb (l : list string) : bool :=
  match l with
  | [] => true
  | x :: l' => negb (existsb (String.eqb x) l') && nodupb l'
  end.

(** A file name is not empty, is neither [.] nor [..], and has no
    slash. *)
Definition valid_name (n : string) : bool :=
  negb (n =? "")%string && negb (n =? ".")%string && negb (n =? "..")%string
  && negb (pystr.contains os_path.sep n).

Fixpoint wf_node (n : fsnode) : bool :=
  match n with
  | FFile _ => true
  | FDir es =>
      nodupb (map fst es)
      && forallb (fun e => valid_name (fst e) && wf_node (snd e)) es
  end.

Definition wf_listing (es : listing) : Prop := wf_node (FDir es) = true.


(** ** The entries that the walk keeps *)

(** Line 96: a directory whose name is in [skip_dirs]. *)
Definition is_skip_dir (entry : string) (n : fsnode) : bool :=
  existsb (String.eqb entry) skip_dirs && isdir n.

(** The entry [n], named [entry] in the directory at [root], passes the
    two filters of lines 96-101. *)
Definition kept (cwd : string) (spec : option PathSpec) (root entry : string)
    (n : fsnode) : bool :=
  negb (is_skip_dir entry n)
  && negb (is_ignored cwd (os_path.join root entry) spec).

(** What the filesystem holds at [os.path.join(root, entry)], for the
    loop of [build_file_tree]. *)
Definition stat_of (utf8_decodable : list byte -> bool) (cwd : string)
    (spec : option PathSpec) (root : string) (es : listing) (entry : string)
    : bool * pyvalue :=
  match assoc entry es with
  | Some child =>
      (isdir child,
       entry_value utf8_decodable cwd spec (os_path.join root entry) child)
  | None => (false, BINARY)
  end.

(** The test of the loop body on the name [entry]. *)
Definition keep_name (cwd : string) (spec : option PathSpec) (root : string)
    (stat : string -> bool * pyvalue) (entry : string) : bool :=
  negb (existsb (String.eqb entry) skip_dirs && fst (stat entry))
  && negb (is_ignored cwd (os_path.join root entry) spec).

(** An entry of the walk: where it is, how deep (as the indentation of its
    line), its name and whether it is a directory. *)
Record entry : Type := {
  e_path : string;
  e_prefix : string;
  e_name : string;
  e_isdir : bool
}.

(** The list line of an entry. *)
Definition line_of (e : entry) : string :=
  if e_isdir e then (e_prefix e ++ "- **" ++ e_name e ++ "/**")%string
  else (e_prefix e ++ "- " ++ e_name e)%string.

(** The entry [n] and, below it, the entries that the filters keep, in
    the order of the filesystem. *)
Fixpoint node_entries (cwd : string) (spec : option PathSpec)
    (root prefix name : string) (n : fsnode) {struct n} : list entry :=
  {| e_path := os_path.join root name; e_prefix := prefix;
     e_name := name; e_isdir := isdir n |}
  :: match n with
     | FDir es =>
         flat_map (fun '(k, c) =>
                     if kept cwd spec (os_path.join root name) k c
                     then node_entries cwd spec (os_path.join root name)
                            (prefix ++ "  ")%string k c
                     else []) es
     | FFile _ => []
     end.

(** The entries of the directory at [root] that are not ignored: the
    kept entries, each with the kept entries below it.  Nothing below an
    entry that is not kept is visited. *)
Definition surviving_entries (cwd : string) (spec : option PathSpec)
    (root prefix : string) (es : listing) : list entry :=
  flat_map (fun '(k, c) =>
              if kept cwd spec root k c
              then node_entries cwd spec root prefix k c else []) es.

Definition is_dict (v : pyvalue) : bool :=
  match v with Dict _ => true | _ => false end.

(** The nodes of a built tree, parents before children, in the order of
    the [dict]s. *)
Fixpoint value_entries (root prefix name : string) (v : pyvalue)
    {struct v} : list entry :=
  {| e_path := os_path.join root name; e_prefix := prefix;
     e_name := name; e_isdir := is_dict v |}
  :: match v with
     | Dict sub =>
         flat_map (fun '(k, c) =>
                     value_entries (os_path.join root name)
                       (prefix ++ "  ")%string k c) sub
     | _ => []
     end.

Definition tree_entries (root prefix : string) (tree : dict) : list entry :=
  flat_map (fun '(k, c) => value_entries root prefix k c) tree.

(** The lines of the rendering, one string per line: the join of no
    line at all is one empty line. *)
Definition or_blank (ls : list string) : list string :=
  match ls with [] => [EmptyString] | _ => ls end.

Fixpoint item_lines (prefix name : string) (v : pyvalue) {struct v}
    : list string :=
  match v with
  | Dict sub =>
      (prefix ++ "- **" ++ name ++ "/**")%string
      :: or_blank
           (flat_map (fun '(k, c) => item_lines (prefix ++ "  ")%string k c) sub)
  | _ => [(prefix ++ "- " ++ name)%string]
  end.

Definition tree_lines (tree : dict) (prefix : string) : list string :=
  flat_map (fun '(k, c) => item_lines prefix k c) tree.

Definition nonblank (s : string) : bool := negb (s =? "")%string.

(** At each level of the tree the names increase strictly. *)
Inductive levels_sorted : dict -> Prop :=
| levels_sorted_intro (d : dict) :
    StronglySorted str_lt (keys d) ->
    (forall name sub, In (name, Dict sub) d -> levels_sorted sub) ->
    levels_sorted d.

(** A node of a tree, at any depth: its name and its value. *)
Inductive tree_node : dict -> string -> pyvalue -> Prop :=
| tree_node_here (d : dict) (k : string) (v : pyvalue) :
    In (k, v) d -> tree_node d k v
| tree_node_below (d : dict) (k : string) (sub : dict) (k' : string)
    (v' : pyvalue) :
    In (k, Dict sub) d -> tree_node sub k' v' -> tree_node d k' v'.

(** ** The leaves of a tree and what the gathering emits *)

(** A leaf of a tree, by the names on the way to it. *)
Inductive leaf_at : dict -> list string -> pyvalue -> Prop :=
| leaf_here (tree : dict) (name : string) (v : pyvalue) :
    In (name, v) tree -> is_dict v = false -> leaf_at tree [name] v
| leaf_below (tree : dict) (k : string) (sub : dict) (comps : list string)
    (v : pyvalue) :
    In (k, Dict sub) tree -> leaf_at sub comps v -> leaf_at tree (k :: comps) v.

(** The [full_path] of the entry reached from [parent_path] along
    [comps]: one [os.path.join] per level. *)
Definition join_all (parent_path : string) (comps : list string) : string :=
  fold_left os_path.join comps parent_path.

(** The language tag of a file name. *)
Definition fence_lang_of (name : string) : string :=
  fence_get (pystr.lower (snd (os_path.splitext name))).

(** The text emitted for a text file: the heading line, an empty line,
    the opening fence, the body, the closing fence. *)
Definition text_block (full_path name body : string) : string :=
  (("## " ++ full_path ++ LF) ++ LF ++ ("```" ++ fence_lang_of name) ++ LF
   ++ body ++ LF ++ ("```" ++ LF))%string.

(** The text emitted for a binary file. *)
Definition binary_block (full_path : string) : string :=
  (("## " ++ full_path ++ LF) ++ LF
   ++ ("_(binary file, not included)_" ++ LF))%string.

(** The text emitted for a leaf. *)
Definition block_of (open_read : string -> result string)
    (full_path name : string) (v : pyvalue) : string :=
  match v with
  | FILE => text_block full_path name (file_text_of (open_read full_path))
  | BINARY => binary_block full_path
  | Dict _ => EmptyString
  end.

(** The strings that the gathering joins, the headings told apart. *)
Inductive part : Type :=
| Heading (path : string)
| Text (s : string).

Definition render_part (p : part) : string :=
  match p with
  | Heading path => ("## " ++ path ++ LF)%string
  | Text s => s
  end.

Definition or_blank_part (ps : list part) : list part :=
  match ps with [] => [Text EmptyString] | _ => ps end.

Fixpoint item_parts (open_read : string -> result string)
    (parent_path name : string) (v : pyvalue) {struct v} : list part :=
  let full_path := os_path.join parent_path name in
  match v with
  | Dict sub =>
      or_blank_part
        (flat_map (fun '(k, c) => item_parts open_read full_path k c) sub)
  | FILE =>
      [Heading full_path;
       Text ("```" ++ fence_lang_of name)%string;
       Text (file_text_of (open_read full_path));
       Text ("```" ++ LF)%string]
  | BINARY =>
      [Heading full_path; Text ("_(binary file, not included)_" ++ LF)%string]
  end.

Definition tree_parts (open_read : string -> result string) (tree : dict)
    (parent_path : string) : list part :=
  flat_map (fun '(k, c) => item_parts open_read parent_path k c) tree.

(** The paths of the headings, in the order of emission. *)
Definition headings (ps : list part) : list string :=
  flat_map (fun p => match p with Heading path => [path] | Text _ => [] end) ps.

(** The leaves of a tree, each by the names on the way to it, in the
    order of the [dict]s. *)
Fixpoint value_leaves (name : string) (v : pyvalue) {struct v}
    : list (list string) :=
  match v with
  | Dict sub => map (cons name) (flat_map (fun '(k, c) => value_leaves k c) sub)
  | _ => [[name]]
  end.

Definition leaves (tree : dict) : list (list string) :=
  flat_map (fun '(k, c) => value_leaves k c) tree.

(** ** Absolute paths *)

(** The normalized absolute path whose components are [cs]; [os.getcwd]
    returns such a path. *)
Definition abs_path (cs : list string) : string :=
  ("/" ++ pystr.join "/" cs)%string.

(** ** The same directory, whatever the order of its listings *)

(** Two entries with the same content: the same file, or directories
    with the same names, in any order, and the same content under each
    name. *)
Inductive fs_equiv : fsnode -> fsnode -> Prop :=
| fs_equiv_file (f : file) : fs_equiv (FFile f) (FFile f)
| fs_equiv_dir (es1 es2 : listing) :
    Permutation (listdir es1) (listdir es2) ->
    (forall k c1 c2, In (k, c1) es1 -> In (k, c2) es2 -> fs_equiv c1 c2) ->
    fs_equiv (FDir es1) (FDir es2).

(** Two states of the process with the same working directory, the
    same content below it and the same outcome of [os.listdir] on every
    path. *)
Definition same_directory (st1 st2 : os_state) : Prop :=
  getcwd st1 = getcwd st2
  /\ fs_equiv (FDir (cwd_entries st1)) (FDir (cwd_entries st2))
  /\ (forall path, listdir_error st1 path = listdir_error st2 path).

(** ** Auxiliary notions *)

(** Two lists of strings that any join takes for one another. *)
Definition same_join (a b : list string) : Prop :=
  forall pre post,
    pystr.join LF (pre ++ a ++ post) = pystr.join LF (pre ++ b ++ post).

(** A string without a slash. *)
Definition noslash (s : string) : Prop := pystr.contains os_path.sep s = false.

(** What [os.path.join] puts in front of a relative path. *)
Definition dir_prefix (parent : string) : string :=
  if (parent =? "")%string || pystr.endswith parent os_path.sep then parent
  else (parent ++ "/")%string.

(** Names that are all file names. *)
Definition names_valid (comps : list string) : Prop :=
  Forall (fun n => valid_name n = true) comps.

(** Two path resolutions that agree. *)
Definition walk_agree (r1 r2 : option fsnode) : Prop :=
  match r1, r2 with
  | Some a, Some b => fs_equiv a b
  | None, None => True
  | _, _ => False
  end.


(** The nodes of a tree, each by the names on the way to it, parents
    before children. *)
Fixpoint value_nodes (name : string) (v : pyvalue) {struct v}
    : list (list string) :=
  [name]
  :: match v with
     | Dict sub =>
         map (cons name) (flat_map (fun '(k, c) => value_nodes k c) sub)
     | _ => []
     end.

Definition tree_nodes (tree : dict) : list (list string) :=
  flat_map (fun '(k, c) => value_nodes k c) tree.

(** The keys of a tree satisfy [P], at every level. *)
Inductive keys_all (P : string -> Prop) : dict -> Prop :=
| keys_all_intro (d : dict) :
    Forall P (keys d) ->
    (forall name sub, In (name, Dict sub) d -> keys_all P sub) ->
    keys_all P d.

(** The names of a filesystem satisfy [p], at every level. *)
Fixpoint fs_names_all (p : string -> bool) (n : fsnode) : bool :=
  match n with
  | FFile _ => true
  | FDir es => forallb (fun e => p (fst e) && fs_names_all p (snd e)) es
  end.

(** A string without a line feed. *)
Definition no_lf (s : string) : bool :=
  negb (pystr.contains (ascii_of_nat 10) s).

(** ** Vocabulary of the further properties *)

(** The indentation of a line at depth [d]: two spaces per level. *)
Fixpoint indent (d : nat) : string :=
  match d with
  | 0 => EmptyString
  | S d' => ("  " ++ indent d')%string
  end.

(** The nodes of a tree with their kind: the names on the way to the node,
    and whether it is a [dict]. *)
Fixpoint value_kinds (name : string) (v : pyvalue) {struct v}
    : list (list string * bool) :=
  ([name], is_dict v)
  :: match v with
     | Dict sub =>
         map (fun nk => (name :: fst nk, snd nk))
             (flat_map (fun '(k, c) => value_kinds k c) sub)
     | _ => []
     end.

Definition tree_kinds (tree : dict) : list (list string * bool) :=
  flat_map (fun '(k, c) => value_kinds k c) tree.

(** The list line of the node reached along [comps]: the indentation of
    its depth, then its name as a file or as a directory. *)
Definition node_line (nk : list string * bool) : string :=
  let name := last (fst nk) EmptyString in
  (indent (List.length (fst nk) - 1)%nat
   ++ (if snd nk then "- **" ++ name ++ "/**" else "- " ++ name))%string.

(** A string in which no whitespace character starts. *)
Fixpoint has_space (s : string) : bool :=
  match s with
  | EmptyString => false
  | String _ s' => negb (pytext.space_len s =? 0) || has_space s'
  end.

(** A word: not empty, without whitespace. *)
Definition is_word (w : string) : Prop :=
  w <> EmptyString /\ has_space w = false.

(** [tiktoken] cannot be used: the import or the encoding raises,
    whatever the text. *)
Definition tiktoken_unavailable (tiktoken_encode : string -> result (list nat))
    : Prop :=
  forall text, exists e, tiktoken_encode text = Raise e.

(** A string without a dot. *)
Definition nodot (s : string) : Prop := pystr.contains "."%char s = false.

(** A string made of dots only. *)
Definition all_dots (s : string) : bool :=
  forallb (Ascii.eqb "."%char) (list_ascii_of_string s).

(** ** Vocabulary of the walk that may raise *)

(** What the filesystem holds at [os.path.join(root, entry)], for the
    loop of [build_file_tree] when [os.listdir] may raise. *)
Definition stat_of_or_raise (utf8_decodable : list byte -> bool)
    (listdir_error : string -> option string) (cwd : string)
    (spec : option PathSpec) (root : string) (es : listing) (entry : string)
    : bool * result pyvalue :=
  match assoc entry es with
  | Some child =>
      (isdir child,
       entry_value_or_raise utf8_decodable listdir_error cwd spec
         (os_path.join root entry) child)
  | None => (false, Ok BINARY)
  end.


(** Lines 181-191: the document, from the text of its two sections. *)
Definition document (tree_text contents_text : string) : string :=
  ("<project>" ++ LF
   ++ (("# Project Structure" ++ LF ++ LF ++ tree_text)
       ++ (LF ++ LF ++ "# File Contents" ++ LF ++ LF ++ contents_text))
   ++ LF ++ "</project>" ++ LF)%string.

(** The text [s] has no occurrence of [pattern]. *)
Definition absent (pattern s : string) : bool :=
  match String.index 0 pattern s with
  | Some _ => false
  | None => true
  end.

(** ** Vocabulary of the fenced blocks *)

(** The text emitted for a text file, with the tag written out: the
    heading line, an empty line, the opening fence with its tag, the
    body, the closing fence. *)
Definition fenced_block (full_path lang body : string) : string :=
  (("## " ++ full_path ++ LF) ++ LF ++ ("```" ++ lang) ++ LF
   ++ body ++ LF ++ ("```" ++ LF))%string.

(** The tag of a file name, read off the name: the extension starts at
    the last dot of the name, unless only dots precede it, and is looked
    up in the table with its letters in lower case. *)
Inductive tag_of : string -> string -> Prop :=
| tag_listed (stem e lang : string) :
    noslash stem -> noslash e -> nodot e -> all_dots stem = false ->
    In (pystr.lower (String "." e), lang) fence_table ->
    tag_of (stem ++ String "." e) lang
| tag_unlisted (stem e : string) :
    noslash stem -> noslash e -> nodot e -> all_dots stem = false ->
    ~ In (pystr.lower (String "." e)) (map fst fence_table) ->
    tag_of (stem ++ String "." e) EmptyString
| tag_leading_dots (dots e : string) :
    noslash e -> nodot e -> all_dots dots = true ->
    tag_of (dots ++ String "." e) EmptyString
| tag_no_dot (name : string) :
    noslash name -> nodot name ->
    tag_of name EmptyString.

(** ** A sample runtime and sample filesystems, for the examples *)

Module sample.

Definition is_ascii (data : list byte) : bool :=
  forallb (fun b => Byte.to_nat b <? 128) data.

(** The UTF-8 codec on ASCII data, where decoding is the identity; the
    sample files are ASCII and have no carriage return. *)
Definition utf8_decodable (chunk : list byte) : bool := is_ascii chunk.

Definition read_text (data : list byte) : result string :=
  if is_ascii data then Ok (string_of_list_byte data)
  else Raise "'utf-8' codec can't decode bytes".

(** [splitlines] on text whose only line boundary is the line feed. *)
Definition splitlines (s : string) : list string :=
  let ls := pystr.split (ascii_of_nat 10) s in
  if (last ls "" =? "")%string then removelast ls else ls.

(** A matcher for patterns that are anchored literal paths ([/a/b]). *)
Definition from_lines (lines : list string) : result PathSpec :=
  Ok (fun rel_path => existsb (String.eqb ("/" ++ rel_path)%string) lines).

Definition text (s : string) : fsnode := FFile (Readable (list_byte_of_string s)).

(** A project with a text file, a binary file, an empty directory, a
    repository directory and a nested directory with an unreadable
    file. *)
Definition project : listing :=
  [("b.bin", FFile (Readable [x00; x01]));
   ("a.py", text "print(1)");
   ("empty", FDir []);
   (".git", FDir [("config", text "x")]);
   ("sub", FDir [("z.JS", text "1");
                 ("k", FFile (Unreadable "[Errno 13] Permission denied"))])].

(** A checkout whose [.git] is a regular file, as in a Git worktree. *)
Definition worktree : listing :=
  [(".git", text "gitdir: /repo/.git/worktrees/w"); ("a.py", text "print(1)")].

(** A project whose ignore file exists and cannot be opened. *)
Definition locked : listing :=
  [(".gitignore", FFile (Unreadable "[Errno 13] Permission denied: '/w/.gitignore'"));
   ("a.py", text "print(1)")].

(** The project [project] as another enumeration of its directories
    would list it. *)
Definition project_reordered : listing :=
  [("sub", FDir [("k", FFile (Unreadable "[Errno 13] Permission denied"));
                 ("z.JS", text "1")]);
   (".git", FDir [("config", text "x")]);
   ("empty", FDir []);
   ("a.py", text "print(1)");
   ("b.bin", FFile (Readable [x00; x01]))].

(** The process started in [/w], where [project] is. *)
Definition state : os_state :=
  {| getcwd := "/w"; cwd_entries := project; listdir_error := fun _ => None |}.

Definition state_reordered : os_state :=
  {| getcwd := "/w"; cwd_entries := project_reordered;
     listdir_error := fun _ => None |}.




(** The tree of [project]. *)
Definition tree : dict := build_file_tree utf8_decodable "/w" "/w" None project.

(** A reader that opens nothing. *)
Definition read_text_at (path : string) : result string :=
  Raise ("[Errno 2] No such file or directory: '" ++ path ++ "'")%string.

End sample.

(** ** Further samples *)

Module sample2.

(** A reader that finds [/w/a.py] only. *)
Definition read_only_a (path : string) : result string :=
  if (path =? "/w/a.py")%string then Ok "print(1)"%string
  else Raise "[Errno 2] No such file or directory".

(** A tree with a text file and a binary file. *)
Definition two_files : dict := [("a.py"%string, FILE); ("b.bin"%string, BINARY)].

(** An environment without [tiktoken]. *)
Definition no_tiktoken (text : string) : result (list nat) :=
  Raise "No module named 'tiktoken'".

(** A [pbcopy] that runs. *)
Definition pbcopy (text : string) : result unit := Ok tt.

(** A directory with one file whose first 1024 bytes are ASCII letters
    and whose last byte is no UTF-8: it is classified as text, and
    reading it as text raises. *)
Definition late_byte : listing :=
  [("big.txt"%string, FFile (Readable (repeat x61 1024 ++ [xff])))].

Definition state_late_byte : os_state :=
  {| getcwd := "/w"; cwd_entries := late_byte;
     listdir_error := fun _ => None |}.

Definition late_tree : dict := [("big.txt"%string, FILE)].

End sample2.
Arguments gather_item open_read parent_path name value : rename.

(** * Properties *)

Example join_ex1 : os_path.join "/home/u/proj" "a.py" = "/home/u/proj/a.py".
Proof. reflexivity. Qed.
Example join_ex2 : os_path.join "/" "a.py" = "/a.py".
Proof. reflexivity. Qed.
Example join_ex3 : os_path.join "" "a.py" = "a.py".
Proof. reflexivity. Qed.
Example normpath_ex1 : os_path.normpath "/a//b/./c/../d" = "/a/b/d".
Proof. reflexivity. Qed.
Example normpath_ex2 : os_path.normpath "//a/.." = "//".
Proof. reflexivity. Qed.
Example normpath_ex3 : os_path.normpath "../a/../.." = "../..".
Proof. reflexivity. Qed.
Example relpath_ex1 : os_path.relpath "/w" "/w/sub/a.txt" "/w" = "sub/a.txt".
Proof. reflexivity. Qed.
Example relpath_ex2 : os_path.relpath "/w" "/x/a.txt" "/w" = "../x/a.txt".
Proof. reflexivity. Qed.
Example relpath_ex3 : os_path.relpath "/w" "/w" "/w" = ".".
Proof. reflexivity. Qed.
Example splitext_ex1 : os_path.splitext "main.PY" = ("main", ".PY").
Proof. reflexivity. Qed.
Example splitext_ex2 : os_path.splitext ".gitignore" = (".gitignore", "").
Proof. reflexivity. Qed.
Example splitext_ex3 : os_path.splitext "a.tar.gz" = ("a.tar", ".gz").
Proof. reflexivity. Qed.
Example splitext_ex4 : os_path.splitext "..." = ("...", "").
Proof. reflexivity. Qed.


(** ** The order of [sorted] *)

Lemma compare_refl a : String.compare a a = Eq.
Proof. exact (proj2 (OrderedTypeEx.String_as_OT.cmp_eq a a) eq_refl). Qed.

Lemma str_le_cases a b : str_le a b <-> a = b \/ str_lt a b.
Proof.
  unfold str_le, str_lt, String.leb, String.ltb.
  destruct (String.compare a b) eqn:E.
  - apply String.compare_eq_iff in E. intuition.
  - intuition.
  - split; [discriminate|]. intros [->|H]; [|discriminate].
    rewrite compare_refl in E. discriminate.
Qed.

Lemma str_lt_trans a b c : str_lt a b -> str_lt b c -> str_lt a c.
Proof.
  unfold str_lt, String.ltb. intros H1 H2.
  destruct (String.compare a b) eqn:E1; try discriminate.
  destruct (String.compare b c) eqn:E2; try discriminate.
  apply OrderedTypeEx.String_as_OT.cmp_lt in E1, E2.
  pose proof (OrderedTypeEx.String_as_OT.lt_trans _ _ _ E1 E2) as H.
  apply OrderedTypeEx.String_as_OT.cmp_lt in H.
  unfold OrderedTypeEx.String_as_OT.cmp in H. now rewrite H.
Qed.

Lemma str_lt_irrefl a : ~ str_lt a a.
Proof.
  unfold str_lt, String.ltb.
  rewrite compare_refl. discriminate.
Qed.

Lemma str_le_trans a b c : str_le a b -> str_le b c -> str_le a c.
Proof.
  rewrite !str_le_cases. intros [->|H1] [->|H2]; auto.
  right. eapply str_lt_trans; eauto.
Qed.

Lemma str_lt_asym a b : str_lt a b -> ~ str_lt b a.
Proof. intros H1 H2. exact (str_lt_irrefl a (str_lt_trans _ _ _ H1 H2)). Qed.

Lemma sorted_perm l : Permutation l (sorted l).
Proof. apply StringSort.Permuted_sort. Qed.

Lemma sorted_le l : StronglySorted str_le (sorted l).
Proof.
  apply (StringSort.StronglySorted_sort l).
  intros a b c. apply str_le_trans.
Qed.

Lemma StronglySorted_strict l :
  NoDup l -> StronglySorted str_le l -> StronglySorted str_lt l.
Proof.
  induction 2 as [|a l Hs IH Hall]; constructor.
  - apply IH. now inversion H.
  - inversion H as [|? ? Hnotin _]; subst.
    rewrite Forall_forall in *. intros x Hx.
    destruct (proj1 (str_le_cases a x) (Hall x Hx)) as [->|Hlt]; tauto.
Qed.

Lemma sorted_lt l : NoDup l -> StronglySorted str_lt (sorted l).
Proof.
  intros H. apply StronglySorted_strict; [|apply sorted_le].
  eapply Permutation_NoDup; [apply sorted_perm|exact H].
Qed.

Lemma StronglySorted_filter {A} (R : A -> A -> Prop) (p : A -> bool) l :
  StronglySorted R l -> StronglySorted R (filter p l).
Proof.
  induction 1 as [|a l Hs IH Hall]; simpl; [constructor|].
  destruct (p a); [|exact IH].
  constructor; [exact IH|].
  rewrite Forall_forall in *. intros x Hx.
  apply filter_In in Hx. apply Hall, Hx.
Qed.

(** A list sorted strictly is determined by its elements. *)
Lemma StronglySorted_lt_unique l1 l2 :
  StronglySorted str_lt l1 -> StronglySorted str_lt l2 ->
  (forall x, In x l1 <-> In x l2) -> l1 = l2.
Proof.
  intros H1. revert l2.
  induction H1 as [|a l1 Hs1 IH Ha]; intros l2 H2 Hin.
  - destruct l2 as [|b l2]; [reflexivity|].
    exfalso. apply (proj2 (Hin b)). now left.
  - destruct H2 as [|b l2 Hs2 Hb].
    + exfalso. apply (proj1 (Hin a)). now left.
    + rewrite Forall_forall in Ha, Hb.
      assert (a = b) as ->.
      { destruct (proj1 (Hin a) (or_introl eq_refl)) as [E|Hin2]; [auto|].
        destruct (proj2 (Hin b) (or_introl eq_refl)) as [E|Hin1]; [auto|].
        exfalso. exact (str_lt_asym _ _ (Ha _ Hin1) (Hb _ Hin2)). }
      f_equal. apply IH; [exact Hs2|].
      intros x. split; intros Hx.
      * destruct (proj1 (Hin x) (or_intror Hx)) as [E|Hx2]; [|exact Hx2].
        subst x. exfalso. exact (str_lt_irrefl _ (Ha _ Hx)).
      * destruct (proj2 (Hin x) (or_intror Hx)) as [E|Hx1]; [|exact Hx1].
        subst x. exfalso. exact (str_lt_irrefl _ (Hb _ Hx)).
Qed.

(** [sorted] does not depend on the order of its argument. *)
Lemma sorted_Permutation l1 l2 :
  NoDup l1 -> Permutation l1 l2 -> sorted l1 = sorted l2.
Proof.
  intros Hnd Hp.
  apply StronglySorted_lt_unique.
  - now apply sorted_lt.
  - apply sorted_lt. eapply Permutation_NoDup; eauto.
  - intros x. split; intros Hx.
    + eapply Permutation_in; [apply sorted_perm|].
      eapply Permutation_in; [exact Hp|].
      eapply Permutation_in; [apply Permutation_sym, sorted_perm|exact Hx].
    + eapply Permutation_in; [apply sorted_perm|].
      eapply Permutation_in; [apply Permutation_sym, Hp|].
      eapply Permutation_in; [apply Permutation_sym, sorted_perm|exact Hx].
Qed.

(** ** Induction over the nested trees *)

Lemma fsnode_induction (P : fsnode -> Prop) :
  (forall f, P (FFile f)) ->
  (forall es, Forall (fun e => P (snd e)) es -> P (FDir es)) ->
  forall n, P n.
Proof.
  intros Hf Hd. fix IH 1. intros [f|es]; [apply Hf|apply Hd].
  induction es as [|[k c] es IHes]; constructor; [apply IH|apply IHes].
Qed.

Lemma pyvalue_induction (P : pyvalue -> Prop) :
  P FILE -> P BINARY ->
  (forall items, Forall (fun e => P (snd e)) items -> P (Dict items)) ->
  forall v, P v.
Proof.
  intros Hf Hb Hd. fix IH 1. intros [| |items]; [exact Hf|exact Hb|apply Hd].
  induction items as [|[k c] items IHitems]; constructor;
    [apply IH|apply IHitems].
Qed.

(** ** Association lists *)

Lemma dict_set_fresh (d : dict) k v :
  ~ In k (keys d) -> dict_set d k v = d ++ [(k, v)].
Proof.
  induction d as [|[k' v'] d IH]; simpl; intros H; [reflexivity|].
  destruct (String.eqb_spec k' k) as [->|_]; [tauto|].
  rewrite IH; tauto.
Qed.

Lemma assoc_In {A} k (a : A) l :
  NoDup (map fst l) -> In (k, a) l -> assoc k l = Some a.
Proof.
  induction l as [|[k' a'] l IH]; simpl; intros Hnd Hin; [tauto|].
  inversion Hnd as [|? ? Hnotin Hnd']; subst.
  destruct Hin as [E|Hin].
  - inversion E; subst. now rewrite String.eqb_refl.
  - destruct (String.eqb_spec k' k) as [->|_]; [|auto].
    exfalso. apply Hnotin. apply (in_map fst) in Hin. exact Hin.
Qed.

Lemma assoc_Some_In {A} k (a : A) l : assoc k l = Some a -> In (k, a) l.
Proof.
  induction l as [|[k' a'] l IH]; simpl; [discriminate|].
  destruct (String.eqb_spec k' k) as [->|_].
  - intros [= ->]. now left.
  - auto.
Qed.

Lemma assoc_None {A} k (l : list (string * A)) :
  assoc k l = None -> ~ In k (map fst l).
Proof.
  induction l as [|[k' a'] l IH]; simpl; [tauto|].
  destruct (String.eqb_spec k' k) as [->|Hne]; [discriminate|].
  intros H [E|Hin]; [tauto|]. now apply IH.
Qed.

Lemma fold_left_ext {A B} (f g : A -> B -> A) l a :
  (forall a b, In b l -> f a b = g a b) -> fold_left f l a = fold_left g l a.
Proof.
  revert a. induction l as [|b l IH]; simpl; intros a H; [reflexivity|].
  rewrite H by now left. apply IH. intros; apply H; now right.
Qed.

(** ** Well-formed filesystems *)

Lemma nodupb_NoDup l : nodupb l = true <-> NoDup l.
Proof.
  induction l as [|x l IH]; simpl.
  - split; [constructor|reflexivity].
  - rewrite andb_true_iff, negb_true_iff, IH. split.
    + intros [Hx Hl]. constructor; [|exact Hl]. intros Hin.
      assert (existsb (String.eqb x) l = true) as E; [|congruence].
      apply existsb_exists. exists x. split; [exact Hin|apply String.eqb_refl].
    + intros H. inversion H as [|? ? Hnotin Hl]; subst. split; [|exact Hl].
      destruct (existsb (String.eqb x) l) eqn:E; [|reflexivity].
      apply existsb_exists in E. destruct E as [y [Hy E]].
      apply String.eqb_eq in E. subst. tauto.
Qed.

Lemma wf_listing_NoDup es : wf_listing es -> NoDup (listdir es).
Proof.
  unfold wf_listing. simpl. rewrite andb_true_iff.
  intros [H _]. now apply nodupb_NoDup.
Qed.

Lemma wf_listing_In es name c :
  wf_listing es -> In (name, c) es -> valid_name name = true /\ wf_node c = true.
Proof.
  unfold wf_listing. simpl wf_node at 1. rewrite andb_true_iff.
  intros [_ H] Hin. rewrite forallb_forall in H.
  apply andb_true_iff. exact (H _ Hin).
Qed.

(** ** [build_file_tree] as a filter of the sorted listing *)

Section Build.

Variable utf8_decodable : list byte -> bool.
Variable cwd : string.
Variable spec : option PathSpec.

Lemma entry_value_dir path es :
  entry_value utf8_decodable cwd spec path (FDir es)
  = Dict (build_file_tree utf8_decodable cwd path spec es).
Proof. reflexivity. Qed.

Lemma build_file_tree_unfold root es :
  build_file_tree utf8_decodable cwd root spec es
  = fold_left (build_step cwd spec root (stat_of utf8_decodable cwd spec root es))
              (sorted (listdir es)) [].
Proof.
  unfold build_file_tree. simpl.
  apply fold_left_ext. intros tree entry _.
  unfold build_step. f_equal.
  unfold stat_of. induction es as [|[name child] es IH]; simpl; [reflexivity|].
  destruct (name =? entry)%string; [reflexivity|exact IH].
Qed.

Lemma build_step_eq root stat tree e :
  build_step cwd spec root stat tree e
  = if keep_name cwd spec root stat e then dict_set tree e (snd (stat e))
    else tree.
Proof.
  unfold build_step, keep_name. destruct (stat e) as [is_dir value].
  cbn [fst snd].
  destruct (existsb (String.eqb e) skip_dirs && is_dir); [reflexivity|].
  destruct (is_ignored cwd (os_path.join root e) spec); reflexivity.
Qed.

Lemma fold_build_step root stat l acc :
  NoDup l -> (forall k, In k (keys acc) -> ~ In k l) ->
  fold_left (build_step cwd spec root stat) l acc
  = acc ++ map (fun e => (e, snd (stat e)))
               (filter (keep_name cwd spec root stat) l).
Proof.
  intros Hnd. revert acc.
  induction Hnd as [|e l Hnotin Hnd IH]; intros acc Hacc.
  - simpl. now rewrite app_nil_r.
  - cbn [fold_left filter]. rewrite build_step_eq.
    destruct (keep_name cwd spec root stat e).
    + rewrite dict_set_fresh.
      2:{ intros Hin. apply (Hacc e Hin). now left. }
      rewrite IH.
      * now rewrite <- app_assoc.
      * unfold keys. rewrite map_app. simpl. intros k Hk Hin.
        apply in_app_or in Hk. destruct Hk as [Hk|[<-|[]]].
        -- apply (Hacc k Hk). now right.
        -- tauto.
    + apply IH. intros k Hk Hin. apply (Hacc k Hk). now right.
Qed.

Lemma build_file_tree_filter root es :
  NoDup (listdir es) ->
  build_file_tree utf8_decodable cwd root spec es
  = map (fun e => (e, snd (stat_of utf8_decodable cwd spec root es e)))
        (filter (keep_name cwd spec root (stat_of utf8_decodable cwd spec root es))
                (sorted (listdir es))).
Proof.
  intros Hnd. rewrite build_file_tree_unfold, fold_build_step; [reflexivity| |].
  - eapply Permutation_NoDup; [apply sorted_perm|exact Hnd].
  - intros k [].
Qed.

Lemma keys_build_file_tree root es :
  NoDup (listdir es) ->
  keys (build_file_tree utf8_decodable cwd root spec es)
  = filter (keep_name cwd spec root (stat_of utf8_decodable cwd spec root es))
           (sorted (listdir es)).
Proof.
  intros Hnd. rewrite build_file_tree_filter by exact Hnd.
  unfold keys. rewrite map_map. simpl. apply map_id.
Qed.

Lemma stat_of_In root es k c :
  NoDup (listdir es) -> In (k, c) es ->
  stat_of utf8_decodable cwd spec root es k
  = (isdir c, entry_value utf8_decodable cwd spec (os_path.join root k) c).
Proof.
  intros Hnd Hin. unfold stat_of. now rewrite (assoc_In k c es Hnd Hin).
Qed.

Lemma keep_name_In root es k c :
  NoDup (listdir es) -> In (k, c) es ->
  keep_name cwd spec root (stat_of utf8_decodable cwd spec root es) k
  = kept cwd spec root k c.
Proof.
  intros Hnd Hin. unfold keep_name, kept, is_skip_dir.
  now rewrite (stat_of_In root es k c Hnd Hin).
Qed.

End Build.

(** ** The walk when [os.listdir] may raise *)

Section BuildOrRaise.

Variable utf8_decodable : list byte -> bool.
Variable listdir_error : string -> option string.
Variable cwd : string.
Variable spec : option PathSpec.

Lemma entry_value_or_raise_dir path es :
  entry_value_or_raise utf8_decodable listdir_error cwd spec path (FDir es)
  = match listdir_error path with
    | Some e => Raise e
    | None =>
        match fold_left
                (build_step_or_raise cwd spec path
                   (stat_of_or_raise utf8_decodable listdir_error cwd spec
                      path es))
                (sorted (listdir es)) (Ok []) with
        | Raise e => Raise e
        | Ok tree => Ok (Dict tree)
        end
    end.
Proof.
  cbn [entry_value_or_raise]. destruct (listdir_error path); [reflexivity|].
  match goal with
  | |- match ?a with _ => _ end = match ?b with _ => _ end =>
      replace a with b; [reflexivity|]
  end.
  apply fold_left_ext. intros acc entry _.
  unfold build_step_or_raise. destruct acc as [tree|e]; [|reflexivity].
  f_equal.
  unfold stat_of_or_raise. induction es as [|[name child] es IH];
    cbn [assoc]; [reflexivity|].
  destruct (name =? entry)%string; [reflexivity|exact IH].
Qed.

Lemma build_file_tree_or_raise_unfold root es :
  build_file_tree_or_raise utf8_decodable listdir_error cwd root spec es
  = match listdir_error root with
    | Some e => Raise e
    | None =>
        fold_left
          (build_step_or_raise cwd spec root
             (stat_of_or_raise utf8_decodable listdir_error cwd spec root es))
          (sorted (listdir es)) (Ok [])
    end.
Proof.
  unfold build_file_tree_or_raise. rewrite entry_value_or_raise_dir.
  destruct (listdir_error root); [reflexivity|].
  now destruct (fold_left _ _ _).
Qed.

Lemma fold_or_raise_Raise root stat l e :
  fold_left (build_step_or_raise cwd spec root stat) l (Raise e) = Raise e.
Proof. induction l as [|x l IH]; [reflexivity|exact IH]. Qed.

Lemma build_step_or_raise_eq root stat tree e :
  build_step_or_raise cwd spec root stat (Ok tree) e
  = if keep_name cwd spec root (fun x => (fst (stat x), BINARY)) e
    then match snd (stat e) with
         | Raise err => Raise err
         | Ok v => Ok (dict_set tree e v)
         end
    else Ok tree.
Proof.
  unfold build_step_or_raise, keep_name. destruct (stat e) as [is_dir value].
  cbn [fst snd].
  destruct (existsb (String.eqb e) skip_dirs && is_dir); [reflexivity|].
  destruct (is_ignored cwd (os_path.join root e) spec); reflexivity.
Qed.

Lemma keep_name_fst root stat stat' e :
  fst (stat e) = fst (stat' e) ->
  keep_name cwd spec root stat e = keep_name cwd spec root stat' e.
Proof. intros E. unfold keep_name. now rewrite E. Qed.

(** When the loop ends without an exception, it has built what the loop
    that cannot raise builds. *)
Lemma fold_or_raise_Ok root stat_r stat l :
  (forall e, In e l ->
     fst (stat_r e) = fst (stat e)
     /\ forall v, snd (stat_r e) = Ok v -> v = snd (stat e)) ->
  forall acc tree,
    fold_left (build_step_or_raise cwd spec root stat_r) l (Ok acc) = Ok tree ->
    tree = fold_left (build_step cwd spec root stat) l acc.
Proof.
  induction l as [|x l IH]; intros Hstat acc tree Hfold.
  - cbn in Hfold. now injection Hfold as <-.
  - cbn [fold_left] in *. rewrite build_step_or_raise_eq in Hfold.
    rewrite build_step_eq.
    destruct (Hstat x (or_introl eq_refl)) as [Hfst Hsnd].
    rewrite (keep_name_fst root _ stat x) in Hfold by exact Hfst.
    assert (Hrest : forall e, In e l ->
              fst (stat_r e) = fst (stat e)
              /\ forall v, snd (stat_r e) = Ok v -> v = snd (stat e))
      by (intros e He; apply Hstat; now right).
    destruct (keep_name cwd spec root stat x).
    + destruct (snd (stat_r x)) as [v|err] eqn:Ev.
      * rewrite <- (Hsnd v eq_refl). now apply IH.
      * now rewrite fold_or_raise_Raise in Hfold.
    + now apply IH.
Qed.



Lemma stat_of_or_raise_fst root es e :
  fst (stat_of_or_raise utf8_decodable listdir_error cwd spec root es e)
  = fst (stat_of utf8_decodable cwd spec root es e).
Proof. unfold stat_of_or_raise, stat_of. now destruct (assoc e es). Qed.

(** What the walk returns is what the walk that cannot raise returns. *)
Lemma entry_value_or_raise_Ok n :
  forall path v,
    entry_value_or_raise utf8_decodable listdir_error cwd spec path n = Ok v ->
    v = entry_value utf8_decodable cwd spec path n.
Proof.
  induction n as [f|es IH] using fsnode_induction; intros path v Hv.
  - cbn in Hv. now injection Hv as <-.
  - rewrite entry_value_or_raise_dir in Hv.
    destruct (listdir_error path); [discriminate|].
    destruct (fold_left _ _ _) as [tree|err] eqn:Efold; [|discriminate].
    injection Hv as <-. rewrite entry_value_dir, build_file_tree_unfold.
    f_equal. revert Efold. apply fold_or_raise_Ok.
    intros e _. split; [apply stat_of_or_raise_fst|].
    intros v. unfold stat_of_or_raise, stat_of.
    destruct (assoc e es) as [child|] eqn:Ea; cbn [snd].
    + apply assoc_Some_In in Ea. rewrite Forall_forall in IH.
      apply (IH (e, child) Ea).
    + intros H. now injection H as <-.
Qed.

Lemma build_file_tree_or_raise_Ok root es tree :
  build_file_tree_or_raise utf8_decodable listdir_error cwd root spec es
  = Ok tree ->
  tree = build_file_tree utf8_decodable cwd root spec es.
Proof.
  unfold build_file_tree_or_raise, build_file_tree. intros H.
  destruct (entry_value_or_raise utf8_decodable listdir_error cwd spec root
              (FDir es)) as [v|err] eqn:Ev; [|discriminate].
  apply entry_value_or_raise_Ok in Ev. rewrite <- Ev.
  destruct v; now injection H as <-.
Qed.





End BuildOrRaise.

(** ** Strings and joins *)

Lemma str_app_assoc (a b c : string) : ((a ++ b) ++ c = a ++ (b ++ c))%string.
Proof. induction a as [|x a IH]; simpl; [reflexivity|now rewrite IH]. Qed.

Lemma str_app_nil_r (a : string) : (a ++ "")%string = a.
Proof. induction a as [|x a IH]; simpl; [reflexivity|now rewrite IH]. Qed.

Lemma join_cons2 sep x y l :
  pystr.join sep (x :: y :: l) = (x ++ sep ++ pystr.join sep (y :: l))%string.
Proof. reflexivity. Qed.

Lemma join_app sep l1 l2 :
  l1 <> [] -> l2 <> [] ->
  pystr.join sep (l1 ++ l2)
  = (pystr.join sep l1 ++ sep ++ pystr.join sep l2)%string.
Proof.
  intros H1 H2. induction l1 as [|x l1 IH]; [contradiction|].
  destruct l1 as [|y l1].
  - destruct l2 as [|z l2]; [contradiction|reflexivity].
  - change ((x :: y :: l1) ++ l2) with (x :: y :: (l1 ++ l2)).
    rewrite !join_cons2.
    change (y :: l1 ++ l2) with ((y :: l1) ++ l2).
    rewrite IH by discriminate.
    now rewrite !str_app_assoc.
Qed.

Lemma same_join_refl a : same_join a a.
Proof. intros pre post. reflexivity. Qed.

Lemma same_join_app a a' b b' :
  same_join a a' -> same_join b b' -> same_join (a ++ b) (a' ++ b').
Proof.
  intros Ha Hb pre post.
  rewrite <- !app_assoc. rewrite (Ha pre (b ++ post)).
  rewrite !(app_assoc pre). rewrite (Hb (pre ++ a') post).
  reflexivity.
Qed.

Lemma same_join_eq a b : same_join a b -> pystr.join LF a = pystr.join LF b.
Proof. intros H. specialize (H [] []). now rewrite !app_nil_r in H. Qed.

Lemma same_join_flat_map {A} (f g : A -> list string) l :
  (forall x, In x l -> same_join (f x) (g x)) ->
  same_join (flat_map f l) (flat_map g l).
Proof.
  induction l as [|x l IH]; intros H; simpl; [apply same_join_refl|].
  apply same_join_app; [apply H; now left|].
  apply IH. intros; apply H; now right.
Qed.

Lemma join_mid sep pre mid post :
  mid <> [] ->
  pystr.join sep (pre ++ mid ++ post)
  = ((match pre with [] => "" | _ => pystr.join sep pre ++ sep end)
     ++ pystr.join sep mid
     ++ (match post with [] => "" | _ => sep ++ pystr.join sep post end))%string.
Proof.
  intros Hmid.
  assert (Hpost : pystr.join sep (mid ++ post)
                  = (pystr.join sep mid
                     ++ match post with [] => "" | _ => sep ++ pystr.join sep post end)%string).
  { destruct post as [|q post].
    - now rewrite app_nil_r, str_app_nil_r.
    - now rewrite join_app by (assumption || discriminate). }
  destruct pre as [|p pre].
  - exact Hpost.
  - rewrite join_app.
    + now rewrite Hpost, !str_app_assoc.
    + discriminate.
    + destruct mid; [contradiction|discriminate].
Qed.

(** A joined block inside a join counts for its lines. *)
Lemma same_join_nested l : same_join [pystr.join LF l] (or_blank l).
Proof.
  destruct l as [|x l]; [apply same_join_refl|].
  intros pre post. cbn [or_blank].
  now rewrite !join_mid by discriminate.
Qed.

Lemma flat_map_ext_in {A B} (f g : A -> list B) l :
  (forall x, In x l -> f x = g x) -> flat_map f l = flat_map g l.
Proof.
  induction l as [|x l IH]; intros H; simpl; [reflexivity|].
  rewrite H by now left. f_equal. apply IH. intros; apply H; now right.
Qed.

Lemma filter_flat_map {A B} (p : B -> bool) (f : A -> list B) l :
  filter p (flat_map f l) = flat_map (fun x => filter p (f x)) l.
Proof.
  induction l as [|x l IH]; simpl; [reflexivity|].
  now rewrite filter_app, IH.
Qed.

Lemma map_flat_map' {A B C} (h : B -> C) (f : A -> list B) l :
  map h (flat_map f l) = flat_map (fun x => map h (f x)) l.
Proof.
  induction l as [|x l IH]; simpl; [reflexivity|].
  now rewrite map_app, IH.
Qed.

Lemma flat_map_filter {A B} (p : A -> bool) (f : A -> list B) l :
  flat_map f (filter p l) = flat_map (fun x => if p x then f x else []) l.
Proof.
  induction l as [|x l IH]; simpl; [reflexivity|].
  destruct (p x); simpl; now rewrite IH.
Qed.

Lemma flat_map_map' {A B C} (g : A -> B) (f : B -> list C) l :
  flat_map f (map g l) = flat_map (fun x => f (g x)) l.
Proof.
  induction l as [|x l IH]; simpl; [reflexivity|now rewrite IH].
Qed.

Lemma Permutation_flat_map_in {A B} (f g : A -> list B) l :
  (forall x, In x l -> Permutation (f x) (g x)) ->
  Permutation (flat_map f l) (flat_map g l).
Proof.
  induction l as [|x l IH]; intros H; simpl; [constructor|].
  apply Permutation_app; [apply H; now left|].
  apply IH. intros; apply H; now right.
Qed.

Lemma filter_or_blank l : filter nonblank (or_blank l) = filter nonblank l.
Proof. destruct l; reflexivity. Qed.

Lemma nonblank_app a b : nonblank b = true -> nonblank (a ++ b)%string = true.
Proof. destruct a, b; simpl; auto. Qed.

(** ** The rendering, line by line *)

Lemma render_item_same_join v :
  forall prefix name,
    same_join (render_item prefix name v) (item_lines prefix name v).
Proof.
  induction v as [| |items IH] using pyvalue_induction; intros prefix name;
    try apply same_join_refl.
  cbn [render_item item_lines].
  rewrite Forall_forall in IH.
  rewrite (same_join_eq _
             (flat_map (fun '(k, c) => item_lines (prefix ++ "  ")%string k c) items)).
  - apply (same_join_app [_] [_] [_]); [apply same_join_refl|].
    apply same_join_nested.
  - apply same_join_flat_map. intros [k c] Hin. apply (IH (k, c) Hin).
Qed.

Lemma render_tree_markdown_lines tree prefix :
  render_tree_markdown tree prefix = pystr.join LF (tree_lines tree prefix).
Proof.
  unfold render_tree_markdown, tree_lines. apply same_join_eq.
  apply same_join_flat_map. intros [k c] _. apply render_item_same_join.
Qed.

Lemma item_lines_entries v :
  forall root prefix name,
    filter nonblank (item_lines prefix name v)
    = map line_of (value_entries root prefix name v).
Proof.
  induction v as [| |items IH] using pyvalue_induction;
    intros root prefix name.
  - cbn. now rewrite nonblank_app.
  - cbn. now rewrite nonblank_app.
  - cbn [item_lines value_entries filter map].
    rewrite nonblank_app by reflexivity.
    unfold line_of at 1. cbn [e_isdir e_prefix e_name is_dict]. f_equal.
    rewrite filter_or_blank, filter_flat_map, map_flat_map'.
    apply flat_map_ext_in. intros [k c] Hin.
    rewrite Forall_forall in IH. apply (IH (k, c) Hin).
Qed.

Lemma tree_lines_entries tree root prefix :
  filter nonblank (tree_lines tree prefix)
  = map line_of (tree_entries root prefix tree).
Proof.
  unfold tree_lines, tree_entries.
  rewrite filter_flat_map, map_flat_map'.
  apply flat_map_ext_in. intros [k c] _. apply item_lines_entries.
Qed.

(** ** The built tree against the filesystem *)

Section Walk.

Variable utf8_decodable : list byte -> bool.
Variable cwd : string.
Variable spec : option PathSpec.

Lemma In_listdir (es : listing) k : In k (listdir es) -> exists c, In (k, c) es.
Proof.
  unfold listdir. rewrite in_map_iff. intros [[k' c] [E Hin]].
  simpl in E. subst. now exists c.
Qed.

(** The items of the built tree are the kept entries of the directory. *)
Lemma In_build_file_tree root es k v :
  NoDup (listdir es) ->
  In (k, v) (build_file_tree utf8_decodable cwd root spec es)
  <-> exists c, In (k, c) es /\ kept cwd spec root k c = true
                /\ v = entry_value utf8_decodable cwd spec (os_path.join root k) c.
Proof.
  intros Hnd. rewrite build_file_tree_filter by exact Hnd.
  rewrite in_map_iff. split.
  - intros [e [E Hin]]. inversion E; subst. clear E.
    apply filter_In in Hin. destruct Hin as [Hin Hkeep].
    apply (Permutation_in _ (Permutation_sym (sorted_perm _))) in Hin.
    destruct (In_listdir es k Hin) as [c Hc]. exists c.
    rewrite (keep_name_In _ _ _ _ _ _ _ Hnd Hc) in Hkeep.
    rewrite (stat_of_In _ _ _ _ _ _ _ Hnd Hc). auto.
  - intros [c [Hc [Hkeep ->]]]. exists k. split.
    + now rewrite (stat_of_In _ _ _ _ _ _ _ Hnd Hc).
    + apply filter_In. split.
      * apply (Permutation_in _ (sorted_perm _)).
        unfold listdir. apply (in_map fst) in Hc. exact Hc.
      * now rewrite (keep_name_In _ _ _ _ _ _ _ Hnd Hc).
Qed.

Lemma tree_entries_build root prefix es :
  NoDup (listdir es) ->
  (forall k c, In (k, c) es ->
     Permutation
       (value_entries root prefix k
          (entry_value utf8_decodable cwd spec (os_path.join root k) c))
       (node_entries cwd spec root prefix k c)) ->
  Permutation
    (tree_entries root prefix (build_file_tree utf8_decodable cwd root spec es))
    (surviving_entries cwd spec root prefix es).
Proof.
  intros Hnd IH.
  rewrite build_file_tree_filter by exact Hnd.
  unfold tree_entries. rewrite flat_map_map', flat_map_filter.
  etransitivity.
  - apply Permutation_flat_map. apply Permutation_sym, sorted_perm.
  - unfold listdir, surviving_entries. rewrite flat_map_map'.
    apply Permutation_flat_map_in. intros [k c] Hin. cbn [fst].
    rewrite (keep_name_In _ _ _ _ _ _ _ Hnd Hin).
    rewrite (stat_of_In _ _ _ _ _ _ _ Hnd Hin). cbn [snd].
    destruct (kept cwd spec root k c); [now apply IH|constructor].
Qed.

Lemma value_entries_entry_value n :
  wf_node n = true ->
  forall root prefix name,
    Permutation
      (value_entries root prefix name
         (entry_value utf8_decodable cwd spec (os_path.join root name) n))
      (node_entries cwd spec root prefix name n).
Proof.
  induction n as [f|es IH] using fsnode_induction; intros Hwf root prefix name.
  - cbn. destruct (is_binary_file utf8_decodable f 1024); apply Permutation_refl.
  - rewrite entry_value_dir. cbn [value_entries node_entries is_dict isdir].
    apply perm_skip.
    apply (tree_entries_build (os_path.join root name) (prefix ++ "  ")%string es).
    + now apply wf_listing_NoDup.
    + intros k c Hin. rewrite Forall_forall in IH.
      apply (IH (k, c) Hin). exact (proj2 (wf_listing_In es k c Hwf Hin)).
Qed.

Lemma tree_entries_surviving root prefix es :
  wf_listing es ->
  Permutation
    (tree_entries root prefix (build_file_tree utf8_decodable cwd root spec es))
    (surviving_entries cwd spec root prefix es).
Proof.
  intros Hwf. apply tree_entries_build; [now apply wf_listing_NoDup|].
  intros k c Hin. apply value_entries_entry_value.
  exact (proj2 (wf_listing_In es k c Hwf Hin)).
Qed.

Lemma levels_sorted_entry_value n :
  wf_node n = true ->
  forall path d,
    entry_value utf8_decodable cwd spec path n = Dict d -> levels_sorted d.
Proof.
  induction n as [f|es IH] using fsnode_induction; intros Hwf path d.
  - cbn. destruct (is_binary_file utf8_decodable f 1024); discriminate.
  - rewrite entry_value_dir. intros [= <-].
    assert (Hnd : NoDup (listdir es)) by now apply wf_listing_NoDup.
    constructor.
    + rewrite keys_build_file_tree by exact Hnd.
      apply StronglySorted_filter. now apply sorted_lt.
    + intros name sub Hin.
      apply In_build_file_tree in Hin; [|exact Hnd].
      destruct Hin as [c [Hc [_ Hv]]].
      rewrite Forall_forall in IH.
      apply (IH (name, c) Hc) with (path := os_path.join path name); [|auto].
      exact (proj2 (wf_listing_In es name c Hwf Hc)).
Qed.

Lemma levels_sorted_build root es :
  wf_listing es ->
  levels_sorted (build_file_tree utf8_decodable cwd root spec es).
Proof.
  intros Hwf.
  apply (levels_sorted_entry_value (FDir es) Hwf root). apply entry_value_dir.
Qed.

End Walk.

(** ** The two names that are skipped *)

Section Skip.

Variable utf8_decodable : list byte -> bool.
Variable cwd : string.
Variable spec : option PathSpec.

Lemma In_dict_set (d : dict) e x k v :
  In (k, v) (dict_set d e x) -> In (k, v) d \/ (k, v) = (e, x).
Proof.
  induction d as [|[k' v'] d IH]; simpl.
  - intros [E|[]]. right. now symmetry.
  - destruct (String.eqb_spec k' e) as [->|_].
    + intros [E|Hin]; [right; now symmetry|left; now right].
    + intros [E|Hin]; [left; now left|].
      destruct (IH Hin) as [H|H]; [left; now right|now right].
Qed.

(** Whatever the listing, an item of the tree was put there by a pass of
    the loop whose tests it passed. *)
Lemma In_fold_build_step root stat l acc k v :
  In (k, v) (fold_left (build_step cwd spec root stat) l acc) ->
  In (k, v) acc
  \/ (In k l /\ keep_name cwd spec root stat k = true /\ v = snd (stat k)).
Proof.
  revert acc. induction l as [|e l IH]; intros acc; cbn [fold_left].
  - now left.
  - intros Hin. apply IH in Hin. destruct Hin as [Hin|[Hin H]].
    + rewrite build_step_eq in Hin.
      destruct (keep_name cwd spec root stat e) eqn:Hkeep; [|now left].
      apply In_dict_set in Hin. destruct Hin as [Hin|[= -> ->]]; [now left|].
      right. split; [now left|]. split; [exact Hkeep|reflexivity].
    + right. split; [now right|exact H].
Qed.

Lemma is_dict_entry_value path n :
  is_dict (entry_value utf8_decodable cwd spec path n) = isdir n.
Proof.
  destruct n as [f|es]; [|reflexivity].
  cbn. now destruct (is_binary_file utf8_decodable f 1024).
Qed.

Lemma In_build_file_tree_any root es k v :
  In (k, v) (build_file_tree utf8_decodable cwd root spec es) ->
  keep_name cwd spec root (stat_of utf8_decodable cwd spec root es) k = true
  /\ v = snd (stat_of utf8_decodable cwd spec root es k).
Proof.
  rewrite build_file_tree_unfold. intros Hin.
  apply In_fold_build_step in Hin. destruct Hin as [[]|[_ H]]. exact H.
Qed.

Lemma skipped_name_is_leaf n :
  forall path d,
    entry_value utf8_decodable cwd spec path n = Dict d ->
    forall name v,
      tree_node d name v -> In name skip_dirs -> is_dict v = false.
Proof.
  induction n as [f|es IH] using fsnode_induction; intros path d.
  - cbn. destruct (is_binary_file utf8_decodable f 1024); discriminate.
  - rewrite entry_value_dir. intros [= <-] name v Hnode Hskip.
    inversion Hnode as [d' k' v' Hin|d' k sub k' v' Hin Hbelow]; subst.
    + apply In_build_file_tree_any in Hin. destruct Hin as [Hkeep ->].
      unfold keep_name in Hkeep. apply andb_true_iff in Hkeep.
      destruct Hkeep as [Hkeep _]. apply negb_true_iff in Hkeep.
      assert (existsb (String.eqb name) skip_dirs = true) as Hex.
      { apply existsb_exists. exists name. split; [exact Hskip|].
        apply String.eqb_refl. }
      rewrite Hex in Hkeep. cbn [andb] in Hkeep.
      unfold stat_of in *. destruct (assoc name es) as [c|]; [|reflexivity].
      cbn [fst snd] in *. now rewrite is_dict_entry_value.
    + apply In_build_file_tree_any in Hin. destruct Hin as [_ Hv].
      unfold stat_of in Hv. destruct (assoc k es) as [c|] eqn:Hc;
        [|discriminate].
      cbn [snd] in Hv. apply assoc_Some_In in Hc.
      rewrite Forall_forall in IH.
      exact (IH (k, c) Hc (os_path.join path k) sub (eq_sym Hv)
                name v Hbelow Hskip).
Qed.

End Skip.

(** ** Paths made of file names *)

Lemma valid_name_spec n :
  valid_name n = true ->
  n <> EmptyString /\ n <> "."%string /\ n <> ".."%string /\ noslash n.
Proof.
  unfold valid_name. rewrite !andb_true_iff, !negb_true_iff.
  intros [[[H1 H2] H3] H4]. repeat split; try exact H4;
    intros ->; discriminate.
Qed.

Lemma contains_cons_false c x s :
  pystr.contains c (String x s) = false ->
  Ascii.eqb x c = false /\ pystr.contains c s = false.
Proof. simpl. now rewrite orb_false_iff. Qed.

Lemma contains_app c a b :
  pystr.contains c (a ++ b) = pystr.contains c a || pystr.contains c b.
Proof.
  induction a as [|x a IH]; [reflexivity|].
  cbn [String.append pystr.contains]. now rewrite IH, orb_assoc.
Qed.

Lemma split_without c s : pystr.contains c s = false -> pystr.split c s = [s].
Proof.
  induction s as [|x s IH]; [reflexivity|].
  intros H. apply contains_cons_false in H. destruct H as [Hx Hs].
  simpl. now rewrite Hx, IH.
Qed.

Lemma split_app_char c a b :
  pystr.contains c a = false ->
  pystr.split c (a ++ String c b) = a :: pystr.split c b.
Proof.
  induction a as [|x a IH].
  - intros _. cbn [String.append pystr.split]. now rewrite Ascii.eqb_refl.
  - intros H. apply contains_cons_false in H. destruct H as [Hx Ha].
    cbn [String.append pystr.split]. now rewrite Hx, IH.
Qed.

(** [split] undoes [join] on strings without the separator. *)
Lemma split_join_char c ls :
  Forall (fun s => pystr.contains c s = false) ls -> ls <> [] ->
  pystr.split c (pystr.join (String c EmptyString) ls) = ls.
Proof.
  induction 1 as [|x l Hx Hl IH]; [contradiction|]. intros _.
  destruct l as [|y l].
  - now apply split_without.
  - rewrite join_cons2.
    change (x ++ String c "" ++ pystr.join (String c "") (y :: l))%string
      with (x ++ String c (pystr.join (String c "") (y :: l)))%string.
    rewrite split_app_char by exact Hx.
    now rewrite IH.
Qed.

Lemma noslash_cons c s :
  noslash (String c s) -> Ascii.eqb c os_path.sep = false /\ noslash s.
Proof. apply contains_cons_false. Qed.

Lemma split_join comps :
  Forall noslash comps -> comps <> [] ->
  pystr.split os_path.sep (pystr.join "/" comps) = comps.
Proof. apply (split_join_char os_path.sep). Qed.

Lemma startswith_sep_false s :
  s <> EmptyString -> noslash s -> pystr.startswith s "/" = false.
Proof.
  destruct s as [|c s]; [contradiction|]. intros _ H.
  apply noslash_cons in H. destruct H as [Hc _].
  unfold pystr.startswith. cbn [String.prefix].
  destruct (ascii_dec "/" c) as [<-|_]; [discriminate|reflexivity].
Qed.

Lemma startswith_app s t :
  s <> EmptyString ->
  pystr.startswith (s ++ t)%string "/" = pystr.startswith s "/".
Proof.
  destruct s as [|c s]; [contradiction|]. intros _.
  unfold pystr.startswith. cbn [String.prefix String.append].
  destruct (ascii_dec "/" c); [|reflexivity].
  now destruct s as [|d s]; [destruct t|].
Qed.

Lemma endswith_app a n :
  n <> EmptyString -> pystr.endswith (a ++ n)%string os_path.sep
                      = pystr.endswith n os_path.sep.
Proof.
  intros Hn. induction a as [|c a IH]; [reflexivity|].
  cbn [String.append]. rewrite <- IH.
  destruct (a ++ n)%string eqn:E; [|reflexivity].
  destruct a, n; try discriminate. contradiction.
Qed.

Lemma endswith_noslash n : noslash n -> pystr.endswith n os_path.sep = false.
Proof.
  induction n as [|c n IH]; [reflexivity|].
  intros H. apply noslash_cons in H. destruct H as [Hc Hn].
  destruct n as [|d n]; [exact Hc|]. exact (IH Hn).
Qed.

Lemma str_app_nonempty a b : b <> EmptyString -> (a ++ b)%string <> EmptyString.
Proof. destruct a, b; simpl; congruence. Qed.

Lemma str_app_inv_head a b c : (a ++ b = a ++ c)%string -> b = c.
Proof.
  induction a as [|x a IH]; simpl; [auto|]. intros [= H]. auto.
Qed.

Lemma join_relative parent rel :
  pystr.startswith rel "/" = false ->
  os_path.join parent rel = (dir_prefix parent ++ rel)%string.
Proof.
  intros H. unfold os_path.join, dir_prefix. rewrite H.
  destruct ((parent =? "")%string || pystr.endswith parent os_path.sep);
    [reflexivity|].
  now rewrite str_app_assoc.
Qed.

Lemma dir_prefix_name p n :
  n <> EmptyString -> noslash n ->
  dir_prefix (p ++ n)%string = (p ++ n ++ "/")%string.
Proof.
  intros Hn Hs. unfold dir_prefix.
  rewrite endswith_app, endswith_noslash by assumption.
  destruct (String.eqb_spec (p ++ n)%string EmptyString) as [E|_].
  - exfalso. revert E. now apply str_app_nonempty.
  - cbn [orb]. now rewrite str_app_assoc.
Qed.

Lemma join_names_relative comps :
  names_valid comps -> comps <> [] ->
  pystr.startswith (pystr.join "/" comps) "/" = false
  /\ pystr.join "/" comps <> EmptyString.
Proof.
  intros H Hne. destruct H as [|x l Hx Hl]; [contradiction|].
  apply valid_name_spec in Hx. destruct Hx as [Hx [_ [_ Hs]]].
  destruct l as [|y l].
  - split; [now apply startswith_sep_false|exact Hx].
  - rewrite join_cons2. split.
    + rewrite startswith_app by exact Hx. now apply startswith_sep_false.
    + destruct x; [contradiction|discriminate].
Qed.

(** The path that successive calls of [os.path.join] build along the
    names [comps]. *)
Lemma fold_join_names comps :
  names_valid comps -> comps <> [] ->
  forall parent,
    fold_left os_path.join comps parent
    = os_path.join parent (pystr.join "/" comps).
Proof.
  induction 1 as [|x l Hx Hl IH]; [contradiction|]. intros _ parent.
  cbn [fold_left].
  destruct l as [|y l]; [reflexivity|].
  rewrite IH by discriminate.
  pose proof (valid_name_spec x Hx) as [Hx1 [_ [_ Hx2]]].
  destruct (join_names_relative (y :: l) Hl) as [Hrel _]; [discriminate|].
  destruct (join_names_relative (x :: y :: l)) as [Hrel' _];
    [now constructor|discriminate|].
  rewrite (join_relative parent x) by now apply startswith_sep_false.
  rewrite (join_relative _ _ Hrel), (join_relative _ _ Hrel').
  rewrite dir_prefix_name by assumption.
  rewrite join_cons2. now rewrite !str_app_assoc.
Qed.

Lemma join_names_inj comps1 comps2 :
  names_valid comps1 -> names_valid comps2 ->
  comps1 <> [] -> comps2 <> [] ->
  pystr.join "/" comps1 = pystr.join "/" comps2 -> comps1 = comps2.
Proof.
  intros H1 H2 N1 N2 E.
  rewrite <- (split_join comps1), <- (split_join comps2); try assumption.
  - now rewrite E.
  - eapply Forall_impl; [|exact H2]. intros n Hn. now apply valid_name_spec.
  - eapply Forall_impl; [|exact H1]. intros n Hn. now apply valid_name_spec.
Qed.

Lemma fold_join_inj parent comps1 comps2 :
  names_valid comps1 -> names_valid comps2 ->
  comps1 <> [] -> comps2 <> [] ->
  fold_left os_path.join comps1 parent = fold_left os_path.join comps2 parent ->
  comps1 = comps2.
Proof.
  intros H1 H2 N1 N2.
  rewrite !fold_join_names by assumption.
  rewrite !join_relative by now apply join_names_relative.
  intros E. apply str_app_inv_head in E. now apply join_names_inj.
Qed.

(** ** Directories without a kept entry *)

Lemma build_file_tree_nothing_kept utf8_decodable cwd spec root es :
  NoDup (listdir es) ->
  (forall k c, In (k, c) es -> kept cwd spec root k c = false) ->
  build_file_tree utf8_decodable cwd root spec es = [].
Proof.
  intros Hnd Hnone.
  destruct (build_file_tree utf8_decodable cwd root spec es) as [|[k v] d] eqn:E;
    [reflexivity|].
  assert (Hin : In (k, v) (build_file_tree utf8_decodable cwd root spec es))
    by (rewrite E; now left).
  apply In_build_file_tree in Hin; [|exact Hnd].
  destruct Hin as [c [Hc [Hkept _]]]. rewrite (Hnone k c Hc) in Hkept.
  discriminate.
Qed.

(** ** The gathering, block by block *)

Section GatherProps.

Variable open_read : string -> result string.

Lemma join_mid_contains pre mid post :
  mid <> [] ->
  exists a b,
    pystr.join LF (pre ++ mid ++ post) = (a ++ pystr.join LF mid ++ b)%string.
Proof.
  intros H. rewrite (join_mid LF pre mid post H). eauto.
Qed.

Lemma gather_item_leaf parent_path name v :
  is_dict v = false ->
  gather_item open_read parent_path name v <> []
  /\ pystr.join LF (gather_item open_read parent_path name v)
     = block_of open_read (os_path.join parent_path name) name v.
Proof.
  destruct v; [| |discriminate]; intros _; (split; [discriminate|reflexivity]).
Qed.

Lemma leaf_at_nonempty tree comps v : leaf_at tree comps v -> comps <> [].
Proof. destruct 1; discriminate. Qed.

Lemma last_cons_nonempty {A} (k : A) l d : l <> [] -> last (k :: l) d = last l d.
Proof. destruct l; [contradiction|reflexivity]. Qed.

(** Every leaf has its block in the output, whatever the other reads
    return. *)
Lemma gather_contains_block tree comps v :
  leaf_at tree comps v ->
  forall parent_path,
  exists a b,
    gather_file_contents open_read tree parent_path
    = (a ++ block_of open_read (join_all parent_path comps) (last comps "") v
         ++ b)%string.
Proof.
  induction 1 as [tree name v Hin Hleaf|tree k sub comps v Hin Hsub IH];
    intros parent_path.
  - apply in_split in Hin. destruct Hin as [l1 [l2 ->]].
    unfold gather_file_contents. rewrite flat_map_app. cbn [flat_map].
    destruct (gather_item_leaf parent_path name v Hleaf) as [Hne Hblock].
    destruct (join_mid_contains
                (flat_map (fun '(n, v0) => gather_item open_read parent_path n v0) l1)
                (gather_item open_read parent_path name v)
                (flat_map (fun '(n, v0) => gather_item open_read parent_path n v0) l2)
                Hne) as [a [b E]].
    exists a, b. rewrite E, Hblock. reflexivity.
  - apply in_split in Hin. destruct Hin as [l1 [l2 ->]].
    unfold gather_file_contents. rewrite flat_map_app. cbn [flat_map].
    destruct (IH (os_path.join parent_path k)) as [a' [b' E']].
    destruct (join_mid_contains
                (flat_map (fun '(n, v0) => gather_item open_read parent_path n v0) l1)
                (gather_item open_read parent_path k (Dict sub))
                (flat_map (fun '(n, v0) => gather_item open_read parent_path n v0) l2))
      as [a [b E]]; [discriminate|].
    rewrite E.
    change (pystr.join LF (gather_item open_read parent_path k (Dict sub)))
      with (gather_file_contents open_read sub (os_path.join parent_path k)).
    rewrite E'.
    rewrite (last_cons_nonempty k comps) by (eapply leaf_at_nonempty; eauto).
    exists (a ++ a')%string, (b' ++ b)%string.
    unfold join_all. cbn [fold_left]. now rewrite !str_app_assoc.
Qed.

(** The path of a leaf is its path relative to the root of the tree,
    joined to [parent_path]. *)
Lemma join_all_relative parent_path comps :
  names_valid comps -> comps <> [] ->
  join_all parent_path comps
  = os_path.join parent_path (pystr.join "/" comps)
  /\ os_path.join parent_path (pystr.join "/" comps)
     = (dir_prefix parent_path ++ pystr.join "/" comps)%string.
Proof.
  intros Hv Hne. split.
  - now apply fold_join_names.
  - apply join_relative. now apply join_names_relative.
Qed.

End GatherProps.

(** ** The gathering, part by part *)

Section Parts.

Variable open_read : string -> result string.

Lemma map_render_or_blank ps :
  map render_part (or_blank_part ps) = or_blank (map render_part ps).
Proof. destruct ps; reflexivity. Qed.

Lemma gather_item_same_join v :
  forall parent_path name,
    same_join (gather_item open_read parent_path name v)
              (map render_part (item_parts open_read parent_path name v)).
Proof.
  induction v as [| |items IH] using pyvalue_induction;
    intros parent_path name; try apply same_join_refl.
  cbn [gather_item item_parts].
  rewrite map_render_or_blank, map_flat_map'.
  rewrite Forall_forall in IH.
  rewrite (same_join_eq _
             (flat_map (fun x => map render_part
                          ((fun '(k, c) =>
                              item_parts open_read
                                (os_path.join parent_path name) k c) x)) items)).
  - apply same_join_nested.
  - apply same_join_flat_map. intros [k c] Hin. apply (IH (k, c) Hin).
Qed.

Lemma gather_file_contents_parts tree parent_path :
  gather_file_contents open_read tree parent_path
  = pystr.join LF (map render_part (tree_parts open_read tree parent_path)).
Proof.
  unfold gather_file_contents, tree_parts. rewrite map_flat_map'.
  apply same_join_eq. apply same_join_flat_map.
  intros [k c] _. apply gather_item_same_join.
Qed.

Lemma headings_or_blank ps : headings (or_blank_part ps) = headings ps.
Proof. destruct ps; reflexivity. Qed.

Lemma headings_flat_map {A} (f : A -> list part) l :
  headings (flat_map f l) = flat_map (fun x => headings (f x)) l.
Proof.
  unfold headings. induction l as [|x l IH]; simpl; [reflexivity|].
  now rewrite flat_map_app, IH.
Qed.

Lemma headings_item_parts v :
  forall parent_path name,
    headings (item_parts open_read parent_path name v)
    = map (join_all parent_path) (value_leaves name v).
Proof.
  induction v as [| |items IH] using pyvalue_induction;
    intros parent_path name; try reflexivity.
  cbn [item_parts value_leaves].
  rewrite headings_or_blank, headings_flat_map, map_map, map_flat_map'.
  apply flat_map_ext_in. intros [k c] Hin.
  rewrite Forall_forall in IH. apply (IH (k, c) Hin).
Qed.

Lemma headings_tree_parts tree parent_path :
  headings (tree_parts open_read tree parent_path)
  = map (join_all parent_path) (leaves tree).
Proof.
  unfold tree_parts, leaves. rewrite headings_flat_map, map_flat_map'.
  apply flat_map_ext_in. intros [k c] _. apply headings_item_parts.
Qed.

End Parts.

(** ** The leaves of a tree *)

Lemma value_leaves_head name v comps :
  In comps (value_leaves name v) -> exists t, comps = name :: t.
Proof.
  destruct v; cbn [value_leaves].
  - intros [<-|[]]. now exists [].
  - intros [<-|[]]. now exists [].
  - rewrite in_map_iff. intros [t [<- _]]. now exists t.
Qed.

Lemma In_value_leaves v :
  forall name comps,
    In comps (value_leaves name v)
    <-> (is_dict v = false /\ comps = [name])
        \/ exists sub t w, v = Dict sub /\ comps = name :: t /\ leaf_at sub t w.
Proof.
  induction v as [| |items IH] using pyvalue_induction; intros name comps.
  - cbn. split.
    + intros [<-|[]]. now left.
    + intros [[_ ->]|[sub [t [w [E _]]]]]; [now left|discriminate].
  - cbn. split.
    + intros [<-|[]]. now left.
    + intros [[_ ->]|[sub [t [w [E _]]]]]; [now left|discriminate].
  - cbn [value_leaves is_dict]. rewrite in_map_iff.
    rewrite Forall_forall in IH. split.
    + intros [t [<- Ht]]. right. apply in_flat_map in Ht.
      destruct Ht as [[k c] [Hin Ht]].
      apply (IH (k, c) Hin) in Ht. cbn [snd] in Ht.
      destruct Ht as [[Hleaf ->]|[sub [t' [w [-> [-> Hsub]]]]]].
      * exists items, [k], c. repeat split. now apply leaf_here.
      * exists items, (k :: t'), w. repeat split.
        eapply leaf_below; eauto.
    + intros [[H _]|[sub [t [w [[= <-] [-> Hleaf]]]]]]; [discriminate|].
      exists t. split; [reflexivity|]. apply in_flat_map.
      inversion Hleaf as [? k w' Hin Hw|? k sub' t' w' Hin Hsub]; subst.
      * exists (k, w). split; [exact Hin|].
        apply (IH (k, w) Hin). left. now split.
      * exists (k, Dict sub'). split; [exact Hin|].
        apply (IH (k, Dict sub') Hin). right.
        exists sub', t', w. now repeat split.
Qed.

(** The list [leaves] enumerates the leaves. *)
Lemma In_leaves tree comps :
  In comps (leaves tree) <-> exists v, leaf_at tree comps v.
Proof.
  unfold leaves. rewrite in_flat_map. split.
  - intros [[k c] [Hin H]]. apply In_value_leaves in H.
    destruct H as [[Hleaf ->]|[sub [t [w [-> [-> Hsub]]]]]].
    + exists c. now apply leaf_here.
    + exists w. eapply leaf_below; eauto.
  - intros [v H].
    inversion H as [? k w Hin Hw|? k sub t w Hin Hsub]; subst.
    + exists (k, v). split; [exact Hin|]. apply In_value_leaves. left. now split.
    + exists (k, Dict sub). split; [exact Hin|]. apply In_value_leaves. right.
      exists sub, t, v. now repeat split.
Qed.

Lemma NoDup_flat_map_value_leaves (items : dict) :
  NoDup (keys items) ->
  (forall k c, In (k, c) items -> NoDup (value_leaves k c)) ->
  NoDup (flat_map (fun '(k, c) => value_leaves k c) items).
Proof.
  induction items as [|[k c] items IH]; intros Hnd Hall; [constructor|].
  cbn [flat_map]. inversion Hnd as [|? ? Hnotin Hnd']; subst.
  apply NoDup_app.
  - apply Hall. now left.
  - apply IH; [exact Hnd'|]. intros; apply Hall; now right.
  - intros comps H1 H2. apply value_leaves_head in H1. destruct H1 as [t ->].
    apply in_flat_map in H2. destruct H2 as [[k' c'] [Hin H2]].
    apply value_leaves_head in H2. destruct H2 as [t' [= <- _]].
    apply Hnotin. apply (in_map fst) in Hin. exact Hin.
Qed.

Lemma StronglySorted_lt_NoDup l : StronglySorted str_lt l -> NoDup l.
Proof.
  induction 1 as [|a l Hs IH Ha]; constructor; [|exact IH].
  intros Hin. rewrite Forall_forall in Ha.
  exact (str_lt_irrefl a (Ha a Hin)).
Qed.

Lemma NoDup_value_leaves v :
  (forall d, v = Dict d -> levels_sorted d) ->
  forall name, NoDup (value_leaves name v).
Proof.
  induction v as [| |items IH] using pyvalue_induction; intros Hs name.
  - repeat constructor. intros [].
  - repeat constructor. intros [].
  - cbn [value_leaves]. specialize (Hs items eq_refl).
    inversion Hs as [d Hkeys Hsub]; subst.
    apply NoDup_map_NoDup_ForallPairs.
    + intros x y _ _ [= E]. exact E.
    + apply NoDup_flat_map_value_leaves.
      * now apply StronglySorted_lt_NoDup.
      * intros k c Hin. rewrite Forall_forall in IH.
        apply (IH (k, c) Hin). cbn [snd]. intros d ->. exact (Hsub k d Hin).
Qed.

Lemma NoDup_leaves tree : levels_sorted tree -> NoDup (leaves tree).
Proof.
  intros Hs. inversion Hs as [d Hkeys Hsub]; subst.
  apply NoDup_flat_map_value_leaves.
  - now apply StronglySorted_lt_NoDup.
  - intros k c Hin. apply NoDup_value_leaves. intros d ->. exact (Hsub k d Hin).
Qed.

Lemma leaf_names_valid utf8_decodable cwd spec n :
  wf_node n = true ->
  forall path d,
    entry_value utf8_decodable cwd spec path n = Dict d ->
    forall comps v, leaf_at d comps v -> names_valid comps.
Proof.
  induction n as [f|es IH] using fsnode_induction; intros Hwf path d.
  - cbn. destruct (is_binary_file utf8_decodable f 1024); discriminate.
  - rewrite entry_value_dir. intros [= <-] comps v Hleaf.
    assert (Hnd : NoDup (listdir es)) by now apply wf_listing_NoDup.
    inversion Hleaf as [? k w Hin Hw|? k sub t w Hin Hsub]; subst.
    + apply In_build_file_tree in Hin; [|exact Hnd].
      destruct Hin as [c [Hc _]].
      constructor; [|constructor].
      exact (proj1 (wf_listing_In es k c Hwf Hc)).
    + apply In_build_file_tree in Hin; [|exact Hnd].
      destruct Hin as [c [Hc [_ Hv]]].
      destruct (wf_listing_In es k c Hwf Hc) as [Hk Hwfc].
      constructor; [exact Hk|].
      rewrite Forall_forall in IH.
      exact (IH (k, c) Hc Hwfc (os_path.join path k) sub (eq_sym Hv) t v Hsub).
Qed.

Lemma NoDup_leaf_paths parent_path (ls : list (list string)) :
  NoDup ls ->
  (forall comps, In comps ls -> names_valid comps /\ comps <> []) ->
  NoDup (map (join_all parent_path) ls).
Proof.
  intros Hnd Hvalid. apply NoDup_map_NoDup_ForallPairs; [|exact Hnd].
  intros x y Hx Hy E.
  destruct (Hvalid x Hx) as [Vx Nx]. destruct (Hvalid y Hy) as [Vy Ny].
  exact (fold_join_inj parent_path x y Vx Vy Nx Ny E).
Qed.

Lemma fence_get_listed ext lang :
  In (ext, lang) fence_table -> fence_get ext = lang.
Proof.
  intros H. repeat (destruct H as [[= <- <-]|H]; [reflexivity|]).
  destruct H.
Qed.

Lemma fence_get_unlisted ext :
  ~ In ext (map fst fence_table) -> fence_get ext = EmptyString.
Proof.
  intros H. unfold fence_get.
  destruct (find (fun kv => (fst kv =? ext)%string) fence_table)
    as [[k lang]|] eqn:E; [|reflexivity].
  apply find_some in E. destruct E as [Hin Heq]. cbn [fst] in Heq.
  apply String.eqb_eq in Heq. subst k. exfalso. apply H.
  apply (in_map fst) in Hin. exact Hin.
Qed.

(** ** Relative paths below the working directory *)

Lemma names_valid_noslash comps : names_valid comps -> Forall noslash comps.
Proof.
  intros H. eapply Forall_impl; [|exact H]. intros n Hn.
  now apply valid_name_spec.
Qed.

Lemma normpath_step_name i acc n :
  valid_name n = true -> os_path.normpath_step i acc n = acc ++ [n].
Proof.
  intros Hn. apply valid_name_spec in Hn. destruct Hn as [H1 [H2 [H3 _]]].
  unfold os_path.normpath_step.
  apply String.eqb_neq in H1, H2, H3. now rewrite H1, H2, H3.
Qed.

Lemma fold_normpath_step i comps :
  names_valid comps ->
  forall acc, fold_left (os_path.normpath_step i) comps acc = acc ++ comps.
Proof.
  induction 1 as [|n l Hn Hl IH]; intros acc; cbn [fold_left].
  - now rewrite app_nil_r.
  - rewrite normpath_step_name by exact Hn. rewrite IH.
    now rewrite <- app_assoc.
Qed.

Lemma startswith_cons_sep s :
  pystr.startswith (String "/" s) "/" = true
  /\ pystr.startswith (String "/" s) "//" = pystr.startswith s "/".
Proof.
  unfold pystr.startswith. cbn [String.prefix].
  destruct (ascii_dec "/" "/") as [_|H]; [|contradiction].
  split; [now destruct s|reflexivity].
Qed.

Lemma normpath_abs_path cs :
  names_valid cs -> os_path.normpath (abs_path cs) = abs_path cs.
Proof.
  intros Hv. destruct cs as [|c cs]; [reflexivity|].
  destruct (join_names_relative (c :: cs) Hv) as [Hrel Hne]; [discriminate|].
  assert (Hsplit : pystr.split os_path.sep (pystr.join "/" (c :: cs)) = c :: cs)
    by (apply split_join; [now apply names_valid_noslash|discriminate]).
  remember (c :: cs) as l eqn:El.
  unfold abs_path, os_path.normpath.
  change ("/" ++ pystr.join "/" l)%string with (String "/" (pystr.join "/" l)).
  destruct (startswith_cons_sep (pystr.join "/" l)) as [E1 E2].
  rewrite E1, E2, Hrel. cbn [andb String.eqb].
  change (pystr.split os_path.sep (String "/" (pystr.join "/" l)))
    with (EmptyString :: pystr.split os_path.sep (pystr.join "/" l)).
  rewrite Hsplit. cbn [fold_left].
  change (os_path.normpath_step 1 [] "") with (@nil string).
  rewrite fold_normpath_step by exact Hv.
  reflexivity.
Qed.

Lemma abspath_abs_path cwd cs :
  names_valid cs -> os_path.abspath cwd (abs_path cs) = abs_path cs.
Proof.
  intros Hv. unfold os_path.abspath.
  assert (os_path.isabs (abs_path cs) = true) as ->.
  { unfold os_path.isabs, abs_path.
    exact (proj1 (startswith_cons_sep (pystr.join "/" cs))). }
  now apply normpath_abs_path.
Qed.

Lemma lstrip_relative s :
  pystr.startswith s "/" = false -> pystr.lstrip os_path.sep s = s.
Proof.
  destruct s as [|c s]; [reflexivity|].
  unfold pystr.startswith. cbn [String.prefix pystr.lstrip].
  destruct (ascii_dec "/" c) as [<-|Hne]; [now destruct s|].
  intros _. destruct (Ascii.eqb_spec c os_path.sep) as [->|_];
    [contradiction|reflexivity].
Qed.

Lemma components_abs_path cs :
  names_valid cs -> os_path.components (abs_path cs) = cs.
Proof.
  intros Hv. destruct cs as [|c cs]; [reflexivity|].
  destruct (join_names_relative (c :: cs) Hv) as [Hrel Hne]; [discriminate|].
  unfold os_path.components, abs_path.
  change (pystr.lstrip os_path.sep ("/" ++ pystr.join "/" (c :: cs)))
    with (pystr.lstrip os_path.sep (pystr.join "/" (c :: cs))).
  rewrite lstrip_relative by exact Hrel.
  apply String.eqb_neq in Hne. rewrite Hne.
  apply split_join; [now apply names_valid_noslash|discriminate].
Qed.

Lemma common_prefix_len_app l rest :
  os_path.common_prefix_len l (l ++ rest) = List.length l.
Proof.
  induction l as [|x l IH]; [now destruct rest|].
  cbn. now rewrite String.eqb_refl, IH.
Qed.

Lemma join_names_last cs :
  names_valid cs -> cs <> [] ->
  exists p n, pystr.join "/" cs = (p ++ n)%string
              /\ n <> EmptyString /\ noslash n.
Proof.
  induction 1 as [|c l Hc Hl IH]; [contradiction|]. intros _.
  destruct l as [|d l].
  - exists EmptyString, c. apply valid_name_spec in Hc. tauto.
  - destruct IH as [p [n [E H]]]; [discriminate|].
    exists (c ++ "/" ++ p)%string, n. split; [|exact H].
    rewrite join_cons2, E. now rewrite !str_app_assoc.
Qed.

Lemma dir_prefix_abs_path cs :
  names_valid cs ->
  forall comps, comps <> [] ->
    (dir_prefix (abs_path cs) ++ pystr.join "/" comps)%string
    = abs_path (cs ++ comps).
Proof.
  intros Hv comps Hne. destruct cs as [|c cs]; [reflexivity|].
  destruct (join_names_last (c :: cs) Hv) as [p [n [E [Hn Hs]]]];
    [discriminate|].
  unfold abs_path. rewrite E.
  replace ("/" ++ p ++ n)%string with (("/" ++ p) ++ n)%string
    by now rewrite str_app_assoc.
  rewrite dir_prefix_name by assumption.
  rewrite join_app by (assumption || discriminate).
  rewrite E. now rewrite !str_app_assoc.
Qed.

(** The path built by [os.path.join] from the working directory along
    the names [comps]. *)
Lemma join_all_abs_path cs comps :
  names_valid cs -> names_valid comps ->
  join_all (abs_path cs) comps = abs_path (cs ++ comps).
Proof.
  intros Hcs Hcomps. destruct comps as [|c comps].
  - now rewrite app_nil_r.
  - destruct (join_all_relative (abs_path cs) (c :: comps) Hcomps) as [E1 E2];
      [discriminate|].
    rewrite E1, E2. apply dir_prefix_abs_path; [exact Hcs|discriminate].
Qed.

Lemma rel_list_below cs comps :
  names_valid cs -> names_valid comps ->
  os_path.rel_list (abs_path cs) (join_all (abs_path cs) comps) (abs_path cs)
  = comps.
Proof.
  intros Hcs Hcomps. unfold os_path.rel_list.
  rewrite join_all_abs_path by assumption.
  assert (Hall : names_valid (cs ++ comps)) by now apply Forall_app.
  rewrite !abspath_abs_path, !components_abs_path by assumption.
  rewrite common_prefix_len_app, Nat.sub_diag, skipn_app, skipn_all.
  rewrite Nat.sub_diag. reflexivity.
Qed.

Lemma relpath_below cs comps :
  names_valid cs -> names_valid comps -> comps <> [] ->
  os_path.relpath (abs_path cs) (join_all (abs_path cs) comps) (abs_path cs)
  = pystr.join "/" comps.
Proof.
  intros Hcs Hcomps Hne. unfold os_path.relpath.
  rewrite rel_list_below by assumption.
  destruct comps; [contradiction|reflexivity].
Qed.

Lemma join_all_snoc parent comps name :
  os_path.join (join_all parent comps) name = join_all parent (comps ++ [name]).
Proof. unfold join_all. now rewrite fold_left_app. Qed.

Lemma contains_app_sep a b : pystr.contains os_path.sep (a ++ "/" ++ b) = true.
Proof.
  induction a as [|c a IH]; [reflexivity|].
  change (pystr.contains os_path.sep (String c a ++ "/" ++ b))
    with (Ascii.eqb c os_path.sep || pystr.contains os_path.sep (a ++ "/" ++ b)).
  rewrite IH. apply orb_true_r.
Qed.

Lemma join_names_not_name ds name :
  ds <> [] -> valid_name name = true -> pystr.join "/" (ds ++ [name]) <> name.
Proof.
  intros Hne Hname E. apply valid_name_spec in Hname.
  destruct Hname as [_ [_ [_ Hs]]]. unfold noslash in Hs.
  destruct ds as [|d ds]; [contradiction|].
  rewrite <- E in Hs.
  rewrite (join_app "/" (d :: ds) [name]) in Hs by discriminate.
  rewrite contains_app_sep in Hs. discriminate.
Qed.

(** The relative path that [is_ignored] computes for an entry of any
    directory [abs_path rs]. *)
Lemma rel_list_general cs rs name :
  names_valid cs -> names_valid rs -> valid_name name = true ->
  os_path.rel_list (abs_path cs) (os_path.join (abs_path rs) name) (abs_path cs)
  = repeat ".."%string
      (List.length cs - os_path.common_prefix_len cs (rs ++ [name]))
    ++ skipn (os_path.common_prefix_len cs (rs ++ [name])) (rs ++ [name]).
Proof.
  intros Hcs Hrs Hname. unfold os_path.rel_list.
  assert (Hall : names_valid (rs ++ [name]))
    by (apply Forall_app; split; [exact Hrs|now constructor]).
  change (os_path.join (abs_path rs) name) with (join_all (abs_path rs) [name]).
  rewrite join_all_abs_path by (assumption || now constructor).
  now rewrite !abspath_abs_path, !components_abs_path by assumption.
Qed.

Lemma common_prefix_len_le l1 l2 :
  os_path.common_prefix_len l1 l2 <= List.length l1.
Proof.
  revert l2. induction l1 as [|x l1 IH]; intros [|y l2]; cbn; try lia.
  destruct (x =? y)%string; [|lia]. specialize (IH l2). lia.
Qed.

Lemma common_prefix_len_full l1 l2 :
  os_path.common_prefix_len l1 l2 = List.length l1 ->
  l2 = l1 ++ skipn (List.length l1) l2.
Proof.
  revert l2. induction l1 as [|x l1 IH]; intros l2; [reflexivity|].
  destruct l2 as [|y l2]; cbn; [discriminate|].
  destruct (String.eqb_spec x y) as [->|_]; [|discriminate].
  intros [= H]. f_equal. now apply IH.
Qed.

Lemma join_noslash_singleton (rel : list string) :
  rel <> [] -> noslash (pystr.join "/" rel) -> exists x, rel = [x].
Proof.
  destruct rel as [|x [|y l]]; [contradiction|now exists x|].
  intros _ H. unfold noslash in H.
  rewrite join_cons2, contains_app_sep in H. discriminate.
Qed.

(** The matcher sees the bare name of an entry exactly when the directory
    walked is the working directory. *)
Lemma relpath_is_name_iff cs rs name :
  names_valid cs -> names_valid rs -> valid_name name = true ->
  os_path.relpath (abs_path cs) (os_path.join (abs_path rs) name) (abs_path cs)
  = name
  <-> rs = cs.
Proof.
  intros Hcs Hrs Hname. split.
  - unfold os_path.relpath. rewrite rel_list_general by assumption.
    pose proof (common_prefix_len_le cs (rs ++ [name])) as Hle.
    pose proof (common_prefix_len_full cs (rs ++ [name])) as Hfull.
    pose proof (valid_name_spec name Hname) as [_ [Hdot [Hdotdot Hs]]].
    remember (os_path.common_prefix_len cs (rs ++ [name])) as i eqn:Ei.
    destruct (repeat ".."%string (List.length cs - i) ++ skipn i (rs ++ [name]))
      as [|x l] eqn:Erel; [intros E; now symmetry in E|].
    intros E. rewrite <- E in Hs.
    destruct (join_noslash_singleton (x :: l)) as [y Ey];
      [discriminate|exact Hs|].
    injection Ey as <- ->. cbn in E. subst x.
    destruct (List.length cs - i) as [|k] eqn:Ek.
    + assert (Hi : i = List.length cs) by lia.
      cbn [repeat app] in Erel.
      specialize (Hfull Hi). rewrite <- Hi, Erel in Hfull.
      now apply app_inj_tail in Hfull.
    + cbn in Erel. injection Erel as Ebad _. now symmetry in Ebad.
  - intros ->.
    change (os_path.join (abs_path cs) name) with (join_all (abs_path cs) [name]).
    rewrite relpath_below; [reflexivity|exact Hcs|now constructor|discriminate].
Qed.

(** ** The files that the run opens *)

(** A path built from the working directory along file names resolves
    along these names. *)
Lemma resolve_below st cs comps :
  getcwd st = abs_path cs -> names_valid cs -> names_valid comps ->
  resolve st (join_all (getcwd st) comps) = walk (FDir (cwd_entries st)) comps.
Proof.
  intros Hcwd Hcs Hcomps. unfold resolve. rewrite Hcwd.
  now rewrite rel_list_below.
Qed.

(** A leaf of the built tree is a file of the filesystem, at the same
    place, and its value is the classification of that file. *)
Lemma leaf_is_file utf8_decodable cwd spec n :
  wf_node n = true ->
  forall path d,
    entry_value utf8_decodable cwd spec path n = Dict d ->
    forall comps v,
      leaf_at d comps v ->
      exists f,
        walk n comps = Some (FFile f)
        /\ v = if is_binary_file utf8_decodable f 1024 then BINARY else FILE.
Proof.
  induction n as [f|es IH] using fsnode_induction; intros Hwf path d.
  - cbn. destruct (is_binary_file utf8_decodable f 1024); discriminate.
  - rewrite entry_value_dir. intros [= <-] comps v Hleaf.
    assert (Hnd : NoDup (listdir es)) by now apply wf_listing_NoDup.
    inversion Hleaf as [? k w Hin Hw|? k sub t w Hin Hsub]; subst.
    + apply In_build_file_tree in Hin; [|exact Hnd].
      destruct Hin as [c [Hc [_ ->]]].
      cbn [walk]. rewrite (assoc_In k c es Hnd Hc).
      rewrite is_dict_entry_value in Hw.
      destruct c as [f|sub]; [|discriminate]. now exists f.
    + apply In_build_file_tree in Hin; [|exact Hnd].
      destruct Hin as [c [Hc [_ Hv]]].
      cbn [walk]. rewrite (assoc_In k c es Hnd Hc).
      rewrite Forall_forall in IH.
      exact (IH (k, c) Hc (proj2 (wf_listing_In es k c Hwf Hc))
                (os_path.join path k) sub (eq_sym Hv) t v Hsub).
Qed.

(** In a run, the text read for a text-file leaf is the text of the
    file at that place. *)
Lemma open_text_leaf utf8_decodable read_text spec st cs comps :
  getcwd st = abs_path cs -> names_valid cs ->
  wf_listing (cwd_entries st) ->
  leaf_at (build_file_tree utf8_decodable (getcwd st) (getcwd st) spec
             (cwd_entries st)) comps FILE ->
  exists data,
    walk (FDir (cwd_entries st)) comps = Some (FFile (Readable data))
    /\ open_text read_text st (join_all (getcwd st) comps) = read_text data.
Proof.
  intros Hcwd Hcs Hwf Hleaf.
  destruct (leaf_is_file utf8_decodable (getcwd st) spec (FDir (cwd_entries st))
              Hwf (getcwd st) _
              (entry_value_dir utf8_decodable (getcwd st) spec (getcwd st)
                 (cwd_entries st)) comps FILE Hleaf) as [f [Hwalk Hv]].
  assert (Hvalid : names_valid comps).
  { exact (leaf_names_valid utf8_decodable (getcwd st) spec
             (FDir (cwd_entries st)) Hwf (getcwd st) _
             (entry_value_dir utf8_decodable (getcwd st) spec (getcwd st)
                (cwd_entries st)) comps FILE Hleaf). }
  destruct f as [data|err].
  - exists data. split; [exact Hwalk|].
    unfold open_text. rewrite (resolve_below st cs comps Hcwd Hcs Hvalid).
    now rewrite Hwalk.
  - discriminate.
Qed.

(** ** The document does not depend on the order of the listings *)

Lemma fs_equiv_refl n : wf_node n = true -> fs_equiv n n.
Proof.
  induction n as [f|es IH] using fsnode_induction; intros Hwf;
    constructor; [apply Permutation_refl|].
  intros k c1 c2 H1 H2.
  pose proof (wf_listing_NoDup es Hwf) as Hnd.
  pose proof (assoc_In k c1 es Hnd H1) as E1.
  rewrite (assoc_In k c2 es Hnd H2) in E1. injection E1 as ->.
  rewrite Forall_forall in IH. apply (IH (k, c1) H1).
  exact (proj2 (wf_listing_In es k c1 Hwf H1)).
Qed.

Lemma fs_equiv_isdir n1 n2 : fs_equiv n1 n2 -> isdir n1 = isdir n2.
Proof. now destruct 1. Qed.

Section Order.

Variable utf8_decodable : list byte -> bool.
Variable cwd : string.
Variable spec : option PathSpec.

Lemma entry_value_equiv n1 n2 :
  fs_equiv n1 n2 ->
  wf_node n1 = true -> wf_node n2 = true ->
  forall path,
    entry_value utf8_decodable cwd spec path n1
    = entry_value utf8_decodable cwd spec path n2.
Proof.
  induction 1 as [f|es1 es2 Hperm Hsub IH]; intros Hwf1 Hwf2 path;
    [reflexivity|].
  rewrite !entry_value_dir. f_equal.
  pose proof (wf_listing_NoDup es1 Hwf1) as Hnd1.
  pose proof (wf_listing_NoDup es2 Hwf2) as Hnd2.
  rewrite !build_file_tree_filter by assumption.
  rewrite <- (sorted_Permutation _ _ Hnd1 Hperm).
  assert (Hstat : forall e, In e (sorted (listdir es1)) ->
            stat_of utf8_decodable cwd spec path es1 e
            = stat_of utf8_decodable cwd spec path es2 e).
  { intros e He.
    apply (Permutation_in _ (Permutation_sym (sorted_perm _))) in He.
    destruct (In_listdir es1 e He) as [c1 H1].
    destruct (In_listdir es2 e (Permutation_in _ Hperm He)) as [c2 H2].
    rewrite (stat_of_In _ _ _ _ _ _ _ Hnd1 H1).
    rewrite (stat_of_In _ _ _ _ _ _ _ Hnd2 H2).
    rewrite (fs_equiv_isdir c1 c2 (Hsub e c1 c2 H1 H2)).
    f_equal. apply (IH e c1 c2 H1 H2).
    - exact (proj2 (wf_listing_In es1 e c1 Hwf1 H1)).
    - exact (proj2 (wf_listing_In es2 e c2 Hwf2 H2)). }
  rewrite (filter_ext_in
             (keep_name cwd spec path (stat_of utf8_decodable cwd spec path es1))
             (keep_name cwd spec path (stat_of utf8_decodable cwd spec path es2))).
  - apply map_ext_in. intros e He. apply filter_In in He.
    now rewrite (Hstat e (proj1 He)).
  - intros e He. unfold keep_name. now rewrite (Hstat e He).
Qed.

(** The outcome of the walk that may raise does not depend on the order
    of the listings either. *)
Lemma entry_value_or_raise_equiv (err1 err2 : string -> option string) n1 n2 :
  (forall p, err1 p = err2 p) ->
  fs_equiv n1 n2 ->
  wf_node n1 = true -> wf_node n2 = true ->
  forall path,
    entry_value_or_raise utf8_decodable err1 cwd spec path n1
    = entry_value_or_raise utf8_decodable err2 cwd spec path n2.
Proof.
  intros Herr.
  induction 1 as [f|es1 es2 Hperm Hsub IH]; intros Hwf1 Hwf2 path;
    [reflexivity|].
  rewrite !entry_value_or_raise_dir, Herr.
  destruct (err2 path); [reflexivity|].
  pose proof (wf_listing_NoDup es1 Hwf1) as Hnd1.
  pose proof (wf_listing_NoDup es2 Hwf2) as Hnd2.
  rewrite <- (sorted_Permutation _ _ Hnd1 Hperm).
  assert (Hstat : forall e, In e (sorted (listdir es1)) ->
            stat_of_or_raise utf8_decodable err1 cwd spec path es1 e
            = stat_of_or_raise utf8_decodable err2 cwd spec path es2 e).
  { intros e He.
    apply (Permutation_in _ (Permutation_sym (sorted_perm _))) in He.
    destruct (In_listdir es1 e He) as [c1 H1].
    destruct (In_listdir es2 e (Permutation_in _ Hperm He)) as [c2 H2].
    unfold stat_of_or_raise.
    rewrite (assoc_In e c1 es1 Hnd1 H1), (assoc_In e c2 es2 Hnd2 H2).
    rewrite (fs_equiv_isdir c1 c2 (Hsub e c1 c2 H1 H2)).
    f_equal. apply (IH e c1 c2 H1 H2).
    - exact (proj2 (wf_listing_In es1 e c1 Hwf1 H1)).
    - exact (proj2 (wf_listing_In es2 e c2 Hwf2 H2)). }
  match goal with
  | |- match ?a with _ => _ end = match ?b with _ => _ end =>
      replace a with b; [reflexivity|]
  end.
  symmetry. apply fold_left_ext. intros acc e He.
  unfold build_step_or_raise. destruct acc as [tree|e0]; [|reflexivity].
  now rewrite (Hstat e He).
Qed.

End Order.

Lemma walk_equiv comps :
  forall n1 n2,
    fs_equiv n1 n2 -> wf_node n1 = true -> wf_node n2 = true ->
    walk_agree (walk n1 comps) (walk n2 comps).
Proof.
  induction comps as [|c comps IH]; intros n1 n2 Heq Hwf1 Hwf2;
    [exact Heq|].
  destruct Heq as [f|es1 es2 Hperm Hsub]; [exact I|].
  cbn [walk].
  pose proof (wf_listing_NoDup es1 Hwf1) as Hnd1.
  pose proof (wf_listing_NoDup es2 Hwf2) as Hnd2.
  destruct (assoc c es1) as [a|] eqn:E1, (assoc c es2) as [b|] eqn:E2.
  - apply assoc_Some_In in E1, E2. apply IH.
    + exact (Hsub c a b E1 E2).
    + exact (proj2 (wf_listing_In es1 c a Hwf1 E1)).
    + exact (proj2 (wf_listing_In es2 c b Hwf2 E2)).
  - exfalso. apply assoc_Some_In in E1. apply assoc_None in E2. apply E2.
    apply (Permutation_in _ Hperm). apply (in_map fst) in E1. exact E1.
  - exfalso. apply assoc_Some_In in E2. apply assoc_None in E1. apply E1.
    apply (Permutation_in _ (Permutation_sym Hperm)).
    apply (in_map fst) in E2. exact E2.
  - exact I.
Qed.

Section Runs.

Variable utf8_decodable : list byte -> bool.
Variable read_text : list byte -> result string.
Variable splitlines : string -> list string.
Variable from_lines : list string -> result PathSpec.

Lemma resolve_same st1 st2 path :
  same_directory st1 st2 ->
  wf_listing (cwd_entries st1) -> wf_listing (cwd_entries st2) ->
  walk_agree (resolve st1 path) (resolve st2 path).
Proof.
  intros [Hcwd Heq] Hwf1 Hwf2. unfold resolve. rewrite Hcwd.
  now apply walk_equiv.
Qed.

Lemma open_text_same st1 st2 path :
  same_directory st1 st2 ->
  wf_listing (cwd_entries st1) -> wf_listing (cwd_entries st2) ->
  open_text read_text st1 path = open_text read_text st2 path.
Proof.
  intros Hsame Hwf1 Hwf2.
  pose proof (resolve_same st1 st2 path Hsame Hwf1 Hwf2) as H.
  unfold open_text.
  destruct (resolve st1 path) as [a|], (resolve st2 path) as [b|];
    try contradiction; [|reflexivity].
  cbn in H. now destruct H.
Qed.

Lemma os_path_exists_same st1 st2 path :
  same_directory st1 st2 ->
  wf_listing (cwd_entries st1) -> wf_listing (cwd_entries st2) ->
  os_path_exists st1 path = os_path_exists st2 path.
Proof.
  intros Hsame Hwf1 Hwf2.
  pose proof (resolve_same st1 st2 path Hsame Hwf1 Hwf2) as H.
  unfold os_path_exists.
  destruct (resolve st1 path), (resolve st2 path); try contradiction;
    reflexivity.
Qed.

Lemma gather_item_ext (r1 r2 : string -> result string) v :
  (forall path, r1 path = r2 path) ->
  forall parent_path name,
    gather_item r1 parent_path name v = gather_item r2 parent_path name v.
Proof.
  intros Hr.
  induction v as [| |items IH] using pyvalue_induction;
    intros parent_path name; cbn [gather_item].
  - now rewrite Hr.
  - reflexivity.
  - do 2 f_equal. apply flat_map_ext_in. intros [k c] Hin.
    rewrite Forall_forall in IH. apply (IH (k, c) Hin).
Qed.

Lemma gather_file_contents_ext (r1 r2 : string -> result string) tree parent_path :
  (forall path, r1 path = r2 path) ->
  gather_file_contents r1 tree parent_path
  = gather_file_contents r2 tree parent_path.
Proof.
  intros Hr. unfold gather_file_contents. f_equal.
  apply flat_map_ext_in. intros [k c] _. now apply gather_item_ext.
Qed.

Lemma main_Ok st spec tree :
  load_gitignore_patterns read_text splitlines from_lines st
    (os_path.join (getcwd st) ".gitignore") = Ok spec ->
  build_file_tree_or_raise utf8_decodable (listdir_error st) (getcwd st)
    (getcwd st) spec (cwd_entries st) = Ok tree ->
  main utf8_decodable read_text splitlines from_lines st
  = Ok (document (render_tree_markdown tree "")
          (gather_file_contents (open_text read_text st) tree (getcwd st))).
Proof. intros Hload Hbuild. unfold main. now rewrite Hload, Hbuild. Qed.



Lemma main_same st1 st2 :
  same_directory st1 st2 ->
  wf_listing (cwd_entries st1) -> wf_listing (cwd_entries st2) ->
  main utf8_decodable read_text splitlines from_lines st1
  = main utf8_decodable read_text splitlines from_lines st2.
Proof.
  intros Hsame Hwf1 Hwf2.
  pose proof Hsame as [Hcwd [Heq Herr]].
  unfold main, load_gitignore_patterns.
  rewrite (os_path_exists_same st1 st2 _ Hsame Hwf1 Hwf2).
  rewrite (open_text_same st1 st2 _ Hsame Hwf1 Hwf2).
  rewrite <- !Hcwd.
  assert (Hbuild : forall spec,
            build_file_tree_or_raise utf8_decodable (listdir_error st1)
              (getcwd st1) (getcwd st1) spec (cwd_entries st1)
            = build_file_tree_or_raise utf8_decodable (listdir_error st2)
                (getcwd st1) (getcwd st1) spec (cwd_entries st2)).
  { intros spec. unfold build_file_tree_or_raise.
    now rewrite (entry_value_or_raise_equiv utf8_decodable (getcwd st1) spec
                   _ _ _ _ Herr Heq Hwf1 Hwf2 (getcwd st1)). }
  assert (Hgather : forall tree,
            gather_file_contents (open_text read_text st1) tree (getcwd st1)
            = gather_file_contents (open_text read_text st2) tree (getcwd st1)).
  { intros tree. apply gather_file_contents_ext. intros path.
    now apply open_text_same. }
  destruct (negb (os_path_exists st2 (os_path.join (getcwd st1) ".gitignore"))).
  - rewrite Hbuild. destruct (build_file_tree_or_raise _ _ _ _ _ _);
      [now rewrite Hgather|reflexivity].
  - destruct (open_text read_text st2 (os_path.join (getcwd st1) ".gitignore"))
      as [content|e]; [|reflexivity].
    destruct (from_lines (splitlines content)) as [spec|e]; [|reflexivity].
    rewrite Hbuild. destruct (build_file_tree_or_raise _ _ _ _ _ _);
      [now rewrite Hgather|reflexivity].
Qed.

End Runs.

(** ** No path is listed twice *)

Lemma e_path_value_entries v :
  forall root prefix name,
    map e_path (value_entries root prefix name v)
    = map (join_all root) (value_nodes name v).
Proof.
  induction v as [| |items IH] using pyvalue_induction;
    intros root prefix name; try reflexivity.
  cbn [value_entries value_nodes map e_path]. f_equal.
  rewrite map_map, !map_flat_map'.
  apply flat_map_ext_in. intros [k c] Hin.
  rewrite Forall_forall in IH. apply (IH (k, c) Hin).
Qed.

Lemma e_path_tree_entries tree root prefix :
  map e_path (tree_entries root prefix tree)
  = map (join_all root) (tree_nodes tree).
Proof.
  unfold tree_entries, tree_nodes. rewrite !map_flat_map'.
  apply flat_map_ext_in. intros [k c] _. apply e_path_value_entries.
Qed.

Lemma value_nodes_head name v comps :
  In comps (value_nodes name v) -> exists t, comps = name :: t.
Proof.
  destruct v; cbn [value_nodes]; (intros [<-|H]; [now exists []|]);
    try contradiction.
  apply in_map_iff in H. destruct H as [t [<- _]]. now exists t.
Qed.

Lemma NoDup_flat_map_value_nodes (items : dict) :
  NoDup (keys items) ->
  (forall k c, In (k, c) items -> NoDup (value_nodes k c)) ->
  NoDup (flat_map (fun '(k, c) => value_nodes k c) items).
Proof.
  induction items as [|[k c] items IH]; intros Hnd Hall; [constructor|].
  cbn [flat_map]. inversion Hnd as [|? ? Hnotin Hnd']; subst.
  apply NoDup_app.
  - apply Hall. now left.
  - apply IH; [exact Hnd'|]. intros; apply Hall; now right.
  - intros comps H1 H2. apply value_nodes_head in H1. destruct H1 as [t ->].
    apply in_flat_map in H2. destruct H2 as [[k' c'] [Hin H2]].
    apply value_nodes_head in H2. destruct H2 as [t' [= <- _]].
    apply Hnotin. apply (in_map fst) in Hin. exact Hin.
Qed.

Lemma NoDup_value_nodes v :
  (forall d, v = Dict d -> levels_sorted d) ->
  forall name, NoDup (value_nodes name v).
Proof.
  induction v as [| |items IH] using pyvalue_induction; intros Hs name.
  - repeat constructor. intros [].
  - repeat constructor. intros [].
  - cbn [value_nodes]. specialize (Hs items eq_refl).
    inversion Hs as [d Hkeys Hsub]; subst. constructor.
    + rewrite in_map_iff. intros [t [[= ->] Hin]].
      apply in_flat_map in Hin. destruct Hin as [[k c] [_ Hin]].
      apply value_nodes_head in Hin. destruct Hin as [t' [=]].
    + apply NoDup_map_NoDup_ForallPairs.
      * intros x y _ _ [= E]. exact E.
      * apply NoDup_flat_map_value_nodes.
        -- now apply StronglySorted_lt_NoDup.
        -- intros k c Hin. rewrite Forall_forall in IH.
           apply (IH (k, c) Hin). cbn [snd]. intros d ->.
           exact (Hsub k d Hin).
Qed.

Lemma NoDup_tree_nodes tree : levels_sorted tree -> NoDup (tree_nodes tree).
Proof.
  intros Hs. inversion Hs as [d Hkeys Hsub]; subst.
  apply NoDup_flat_map_value_nodes.
  - now apply StronglySorted_lt_NoDup.
  - intros k c Hin. apply NoDup_value_nodes. intros d ->. exact (Hsub k d Hin).
Qed.

Lemma keys_all_entry_value utf8_decodable cwd spec (p : string -> bool) n :
  wf_node n = true -> fs_names_all p n = true ->
  forall path d,
    entry_value utf8_decodable cwd spec path n = Dict d ->
    keys_all (fun k => p k = true) d.
Proof.
  induction n as [f|es IH] using fsnode_induction; intros Hwf Hp path d.
  - cbn. destruct (is_binary_file utf8_decodable f 1024); discriminate.
  - rewrite entry_value_dir. intros [= <-].
    assert (Hnd : NoDup (listdir es)) by now apply wf_listing_NoDup.
    cbn [fs_names_all] in Hp. rewrite forallb_forall in Hp.
    constructor.
    + apply Forall_forall. intros k Hk. unfold keys in Hk.
      apply in_map_iff in Hk. destruct Hk as [[k' v] [<- Hin]].
      apply In_build_file_tree in Hin; [|exact Hnd].
      destruct Hin as [c [Hc _]].
      specialize (Hp (k', c) Hc). apply andb_true_iff in Hp. exact (proj1 Hp).
    + intros name sub Hin.
      apply In_build_file_tree in Hin; [|exact Hnd].
      destruct Hin as [c [Hc [_ Hv]]].
      rewrite Forall_forall in IH.
      apply (IH (name, c) Hc) with (path := os_path.join path name); [| |auto].
      * exact (proj2 (wf_listing_In es name c Hwf Hc)).
      * specialize (Hp (name, c) Hc). apply andb_true_iff in Hp.
        exact (proj2 Hp).
Qed.

Lemma wf_node_names_valid n : wf_node n = true -> fs_names_all valid_name n = true.
Proof.
  induction n as [f|es IH] using fsnode_induction; intros Hwf; [reflexivity|].
  cbn [fs_names_all]. apply forallb_forall. intros [k c] Hin.
  destruct (wf_listing_In es k c Hwf Hin) as [Hk Hc].
  rewrite Forall_forall in IH. pose proof (IH (k, c) Hin Hc) as H.
  cbn [fst snd] in *. now rewrite Hk, H.
Qed.

Lemma value_nodes_valid v :
  (forall d, v = Dict d -> keys_all (fun k => valid_name k = true) d) ->
  forall name comps,
    valid_name name = true -> In comps (value_nodes name v) ->
    names_valid comps /\ comps <> [].
Proof.
  induction v as [| |items IH] using pyvalue_induction;
    intros Hv name comps Hname; cbn [value_nodes].
  - intros [<-|[]]. split; [now repeat constructor|discriminate].
  - intros [<-|[]]. split; [now repeat constructor|discriminate].
  - intros [<-|Hin]; [split; [now repeat constructor|discriminate]|].
    apply in_map_iff in Hin. destruct Hin as [t [<- Hin]].
    split; [|discriminate]. constructor; [exact Hname|].
    apply in_flat_map in Hin. destruct Hin as [[k c] [Hkc Hin]].
    specialize (Hv items eq_refl). inversion Hv as [d Hkeys Hsub]; subst.
    rewrite Forall_forall in IH.
    apply (IH (k, c) Hkc) with (name := k).
    + cbn [snd]. intros d ->. exact (Hsub k d Hkc).
    + unfold names_valid in Hkeys. rewrite Forall_forall in Hkeys.
      apply Hkeys. apply (in_map fst) in Hkc. exact Hkc.
    + exact Hin.
Qed.

Lemma tree_nodes_valid tree comps :
  keys_all (fun k => valid_name k = true) tree -> In comps (tree_nodes tree) ->
  names_valid comps /\ comps <> [].
Proof.
  intros Hv Hin. inversion Hv as [d Hkeys Hsub]; subst.
  apply in_flat_map in Hin. destruct Hin as [[k c] [Hkc Hin]].
  apply (value_nodes_valid c) with (name := k).
  - intros d ->. exact (Hsub k d Hkc).
  - unfold names_valid in Hkeys. rewrite Forall_forall in Hkeys.
    apply Hkeys. apply (in_map fst) in Hkc. exact Hkc.
  - exact Hin.
Qed.

Lemma NoDup_entry_paths utf8_decodable cwd spec root prefix es :
  wf_listing es ->
  NoDup (map e_path
           (tree_entries root prefix
              (build_file_tree utf8_decodable cwd root spec es))).
Proof.
  intros Hwf. rewrite e_path_tree_entries.
  apply NoDup_leaf_paths.
  - apply NoDup_tree_nodes. now apply levels_sorted_build.
  - intros comps Hin. apply tree_nodes_valid in Hin; [exact Hin|].
    exact (keys_all_entry_value utf8_decodable cwd spec valid_name (FDir es)
             Hwf (wf_node_names_valid (FDir es) Hwf) root _
             (entry_value_dir utf8_decodable cwd spec root es)).
Qed.

(** ** The lines of the rendered text *)

Lemma no_lf_spec s : no_lf s = true <-> pystr.contains (ascii_of_nat 10) s = false.
Proof. unfold no_lf. apply negb_true_iff. Qed.

Lemma item_lines_no_lf v :
  (forall d, v = Dict d -> keys_all (fun k => no_lf k = true) d) ->
  forall prefix name,
    no_lf prefix = true -> no_lf name = true ->
    Forall (fun s => pystr.contains (ascii_of_nat 10) s = false)
           (item_lines prefix name v).
Proof.
  induction v as [| |items IH] using pyvalue_induction;
    intros Hv prefix name Hp Hn; apply no_lf_spec in Hp, Hn.
  - constructor; [|constructor]. now rewrite !contains_app, Hp, Hn.
  - constructor; [|constructor]. now rewrite !contains_app, Hp, Hn.
  - cbn [item_lines]. constructor; [now rewrite !contains_app, Hp, Hn|].
    specialize (Hv items eq_refl). inversion Hv as [d Hkeys Hsub]; subst.
    assert (H : Forall (fun s => pystr.contains (ascii_of_nat 10) s = false)
                  (flat_map (fun '(k, c) =>
                               item_lines (prefix ++ "  ")%string k c) items)).
    { apply Forall_forall. intros s Hs. apply in_flat_map in Hs.
      destruct Hs as [[k c] [Hkc Hs]].
      rewrite Forall_forall in IH.
      assert (Hall : Forall (fun s => pystr.contains (ascii_of_nat 10) s = false)
                       (item_lines (prefix ++ "  ")%string k c)).
      { apply (IH (k, c) Hkc).
        - cbn [snd]. intros d ->. exact (Hsub k d Hkc).
        - apply no_lf_spec. now rewrite contains_app, Hp.
        - rewrite Forall_forall in Hkeys. apply Hkeys.
          apply (in_map fst) in Hkc. exact Hkc. }
      rewrite Forall_forall in Hall. exact (Hall s Hs). }
    destruct (flat_map _ items); [now repeat constructor|exact H].
Qed.

Lemma tree_lines_no_lf tree :
  keys_all (fun k => no_lf k = true) tree ->
  Forall (fun s => pystr.contains (ascii_of_nat 10) s = false)
         (tree_lines tree "").
Proof.
  intros Hv. inversion Hv as [d Hkeys Hsub]; subst.
  apply Forall_forall. intros s Hs. unfold tree_lines in Hs.
  apply in_flat_map in Hs. destruct Hs as [[k c] [Hkc Hs]].
  assert (Hall : Forall (fun s => pystr.contains (ascii_of_nat 10) s = false)
                   (item_lines "" k c)).
  { apply item_lines_no_lf.
    - intros d ->. exact (Hsub k d Hkc).
    - reflexivity.
    - rewrite Forall_forall in Hkeys. apply Hkeys.
      apply (in_map fst) in Hkc. exact Hkc. }
  rewrite Forall_forall in Hall. exact (Hall s Hs).
Qed.

(** When no name has a line feed, the lines of the rendered text are the
    lines that were joined. *)
Lemma render_tree_markdown_split tree :
  keys_all (fun k => no_lf k = true) tree ->
  pystr.split (ascii_of_nat 10) (render_tree_markdown tree "")
  = or_blank (tree_lines tree "").
Proof.
  intros Hv. rewrite render_tree_markdown_lines.
  pose proof (tree_lines_no_lf tree Hv) as Hall.
  destruct (tree_lines tree "") as [|l ls] eqn:E; [reflexivity|].
  apply (split_join_char (ascii_of_nat 10)); [exact Hall|discriminate].
Qed.

(** ** The sample project *)

Example sample_tree :
  sample.tree
  = [("a.py"%string, FILE); ("b.bin"%string, BINARY); ("empty"%string, Dict []);
     ("sub"%string, Dict [("k"%string, BINARY); ("z.JS"%string, FILE)])].
Proof. reflexivity. Qed.

Example sample_render :
  render_tree_markdown sample.tree ""
  = pystr.join LF
      ["- a.py"; "- b.bin"; "- **empty/**"; ""; "- **sub/**"; "  - k";
       "  - z.JS"]%string.
Proof. reflexivity. Qed.

Example sample_gather :
  gather_file_contents (open_text sample.read_text sample.state) sample.tree "/w"
  = pystr.join LF
      [("## /w/a.py" ++ LF)%string; "```python"%string; "print(1)"%string;
       ("```" ++ LF)%string;
       ("## /w/b.bin" ++ LF)%string;
       ("_(binary file, not included)_" ++ LF)%string;
       EmptyString;
       ("## /w/sub/k" ++ LF)%string;
       ("_(binary file, not included)_" ++ LF)%string;
       ("## /w/sub/z.JS" ++ LF)%string; "```javascript"%string; "1"%string;
       ("```" ++ LF)%string].
Proof. reflexivity. Qed.

Example sample_main :
  main sample.utf8_decodable sample.read_text sample.splitlines
    sample.from_lines sample.state
  = Ok ("<project>" ++ LF ++ "# Project Structure" ++ LF ++ LF
        ++ render_tree_markdown sample.tree ""
        ++ LF ++ LF ++ "# File Contents" ++ LF ++ LF
        ++ gather_file_contents (open_text sample.read_text sample.state)
             sample.tree "/w"
        ++ LF ++ "</project>" ++ LF)%string.
Proof. reflexivity. Qed.

Ltac solve_fs_equiv :=
  unfold sample.text;
  lazymatch goal with
  | |- fs_equiv (FFile _) (FFile _) => constructor
  | |- fs_equiv (FDir _) (FDir _) =>
      constructor;
      [ apply NoDup_Permutation;
        [ apply wf_listing_NoDup; reflexivity
        | apply wf_listing_NoDup; reflexivity
        | intros x; simpl; tauto ]
      | let k := fresh "k" in
        let c1 := fresh "c" in
        let c2 := fresh "c" in
        let H1 := fresh "H" in
        let H2 := fresh "H" in
        intros k c1 c2 H1 H2; simpl in H1, H2;
        repeat (destruct H1 as [H1|H1]; [injection H1 as <- <-|]);
        try contradiction;
        repeat (destruct H2 as [H2|H2];
                [try discriminate H2; injection H2 as <-|]);
        try contradiction; solve_fs_equiv ]
  end.

Lemma sample_same_directory : same_directory sample.state sample.state_reordered.
Proof. split; [reflexivity|]. split; [|reflexivity].
  cbn [cwd_entries sample.state sample.state_reordered].
  unfold sample.project, sample.project_reordered. solve_fs_equiv.
Qed.

(** * Further properties *)

(** ** The classification of a file *)

Lemma existsb_nul_false chunk :
  existsb (Byte.eqb x00) chunk = false <-> ~ In x00 chunk.
Proof.
  split.
  - intros H Hin.
    assert (existsb (Byte.eqb x00) chunk = true) as E; [|congruence].
    apply existsb_exists. exists x00. split; [exact Hin|reflexivity].
  - intros H. destruct (existsb (Byte.eqb x00) chunk) eqn:E; [|reflexivity].
    apply existsb_exists in E. destruct E as [b [Hb E]].
    apply Byte.byte_dec_bl in E. subst b. contradiction.
Qed.

Lemma is_binary_file_text utf8_decodable f :
  is_binary_file utf8_decodable f 1024 = false
  <-> exists data,
        f = Readable data
        /\ ~ In x00 (firstn 1024 data)
        /\ utf8_decodable (firstn 1024 data) = true.
Proof.
  split.
  - destruct f as [data|err]; [|discriminate]. unfold is_binary_file.
    destruct (existsb (Byte.eqb x00) (firstn 1024 data)) eqn:E; [discriminate|].
    destruct (utf8_decodable (firstn 1024 data)) eqn:D; [|discriminate].
    intros _. exists data. split; [reflexivity|].
    split; [now apply existsb_nul_false|exact D].
  - intros [data [-> [Hnul Hdec]]]. unfold is_binary_file.
    apply existsb_nul_false in Hnul. now rewrite Hnul, Hdec.
Qed.

Lemma firstn_app_long {A} n (l rest : list A) :
  n <= List.length l -> firstn n (l ++ rest) = firstn n l.
Proof.
  intros H. rewrite firstn_app.
  replace (n - List.length l) with 0 by lia.
  cbn. apply app_nil_r.
Qed.

(** ** Entries that are not kept *)

Lemma assoc_app_other {A} k k' (a : A) l1 l2 :
  k' <> k -> assoc k (l1 ++ (k', a) :: l2) = assoc k (l1 ++ l2).
Proof.
  intros Hne. induction l1 as [|[k1 a1] l1 IH]; simpl.
  - destruct (String.eqb_spec k' k); [contradiction|reflexivity].
  - now rewrite IH.
Qed.

Lemma listdir_replace (es1 es2 : listing) k c c' :
  listdir (es1 ++ (k, c) :: es2) = listdir (es1 ++ (k, c') :: es2).
Proof. unfold listdir. now rewrite !map_app. Qed.

(** The tree does not depend on an entry that is not kept, beyond its
    name and its kind. *)
Lemma build_file_tree_replace utf8_decodable cwd spec root es1 es2 k c c' :
  NoDup (listdir (es1 ++ (k, c) :: es2)) ->
  kept cwd spec root k c = false -> isdir c = isdir c' ->
  build_file_tree utf8_decodable cwd root spec (es1 ++ (k, c) :: es2)
  = build_file_tree utf8_decodable cwd root spec (es1 ++ (k, c') :: es2).
Proof.
  intros Hnd Hkept Hdir.
  assert (Hnd' : NoDup (listdir (es1 ++ (k, c') :: es2)))
    by now rewrite (listdir_replace es1 es2 k c' c).
  assert (Hkept' : kept cwd spec root k c' = false)
    by (unfold kept, is_skip_dir in *; now rewrite <- Hdir).
  rewrite !build_file_tree_filter by assumption.
  rewrite (listdir_replace es1 es2 k c c').
  assert (Hother : forall e, e <> k ->
            stat_of utf8_decodable cwd spec root (es1 ++ (k, c) :: es2) e
            = stat_of utf8_decodable cwd spec root (es1 ++ (k, c') :: es2) e).
  { intros e He. unfold stat_of.
    now rewrite !assoc_app_other by congruence. }
  assert (Hk : keep_name cwd spec root
                 (stat_of utf8_decodable cwd spec root (es1 ++ (k, c) :: es2)) k
               = false).
  { rewrite (keep_name_In utf8_decodable cwd spec root _ k c Hnd);
      [exact Hkept|]. apply in_elt. }
  assert (Hk' : keep_name cwd spec root
                  (stat_of utf8_decodable cwd spec root (es1 ++ (k, c') :: es2)) k
                = false).
  { rewrite (keep_name_In utf8_decodable cwd spec root _ k c' Hnd');
      [exact Hkept'|]. apply in_elt. }
  rewrite (filter_ext_in
             (keep_name cwd spec root
                (stat_of utf8_decodable cwd spec root (es1 ++ (k, c) :: es2)))
             (keep_name cwd spec root
                (stat_of utf8_decodable cwd spec root (es1 ++ (k, c') :: es2)))).
  - apply map_ext_in. intros e He. apply filter_In in He.
    destruct He as [_ He]. f_equal. f_equal. apply Hother.
    intros ->. congruence.
  - intros e _. destruct (String.eqb_spec e k) as [->|Hne]; [congruence|].
    unfold keep_name. now rewrite (Hother e Hne).
Qed.

(** ** The indentation of the rendering *)

Lemma indent_snoc d : (indent d ++ "  ")%string = indent (S d).
Proof.
  induction d as [|d IH]; [reflexivity|].
  cbn [indent]. rewrite str_app_assoc, IH. reflexivity.
Qed.

Lemma value_kinds_nonempty name v nk :
  In nk (value_kinds name v) -> fst nk <> [].
Proof.
  destruct v; cbn [value_kinds]; (intros [<-|H]; [discriminate|]);
    try contradiction.
  apply in_map_iff in H. destruct H as [x [<- _]]. discriminate.
Qed.

Lemma item_lines_kinds v :
  forall d name,
    filter nonblank (item_lines (indent d) name v)
    = map (fun nk : list string * bool =>
             (indent (d + (List.length (fst nk) - 1))%nat
                      ++ (if snd nk
                          then "- **" ++ last (fst nk) "" ++ "/**"
                          else "- " ++ last (fst nk) ""))%string)
          (value_kinds name v).
Proof.
  induction v as [| |items IH] using pyvalue_induction; intros d name.
  - cbn. rewrite nonblank_app by reflexivity. now rewrite Nat.add_0_r.
  - cbn. rewrite nonblank_app by reflexivity. now rewrite Nat.add_0_r.
  - cbn [item_lines value_kinds filter map fst snd is_dict last List.length].
    rewrite nonblank_app by reflexivity.
    rewrite Nat.sub_diag, Nat.add_0_r. f_equal.
    rewrite filter_or_blank, filter_flat_map, map_map, map_flat_map'.
    apply flat_map_ext_in. intros [k c] Hin.
    rewrite Forall_forall in IH.
    pose proof (IH (k, c) Hin (S d) k) as E. cbn [snd] in E.
    rewrite indent_snoc, E.
    apply map_ext_in. intros [comps b] Hnk. cbn [fst snd].
    pose proof (value_kinds_nonempty k c (comps, b) Hnk) as Hne.
    cbn [fst] in Hne. destruct comps as [|x comps]; [contradiction|].
    cbn [List.length].
    replace (S d + (S (List.length comps) - 1))
      with (d + (S (S (List.length comps)) - 1)) by lia.
    reflexivity.
Qed.

Lemma tree_lines_kinds tree :
  filter nonblank (tree_lines tree "") = map node_line (tree_kinds tree).
Proof.
  unfold tree_lines, tree_kinds. rewrite filter_flat_map, map_flat_map'.
  apply flat_map_ext_in. intros [k c] _.
  exact (item_lines_kinds c 0 k).
Qed.

(** ** What the gathering reads *)

Lemma gather_item_reads_text_leaves (r1 r2 : string -> result string) v :
  forall parent_path name,
    (is_dict v = false -> v = FILE ->
     r1 (os_path.join parent_path name) = r2 (os_path.join parent_path name)) ->
    (forall sub comps,
       v = Dict sub -> leaf_at sub comps FILE ->
       r1 (join_all (os_path.join parent_path name) comps)
       = r2 (join_all (os_path.join parent_path name) comps)) ->
    gather_item r1 parent_path name v = gather_item r2 parent_path name v.
Proof.
  induction v as [| |items IH] using pyvalue_induction;
    intros parent_path name Hleaf Hsub; cbn [gather_item].
  - now rewrite Hleaf.
  - reflexivity.
  - do 2 f_equal. apply flat_map_ext_in. intros [k c] Hin.
    rewrite Forall_forall in IH. apply (IH (k, c) Hin).
    + cbn [snd]. intros Hc ->.
      exact (Hsub items [k] eq_refl (leaf_here items k FILE Hin eq_refl)).
    + cbn [snd]. intros sub comps -> Hl.
      exact (Hsub items (k :: comps) eq_refl
               (leaf_below items k sub comps FILE Hin Hl)).
Qed.

Lemma gather_reads_text_leaves (r1 r2 : string -> result string) tree parent_path :
  (forall comps, leaf_at tree comps FILE ->
     r1 (join_all parent_path comps) = r2 (join_all parent_path comps)) ->
  gather_file_contents r1 tree parent_path
  = gather_file_contents r2 tree parent_path.
Proof.
  intros H. unfold gather_file_contents. f_equal.
  apply flat_map_ext_in. intros [k c] Hin.
  apply gather_item_reads_text_leaves.
  - intros Hc ->. exact (H [k] (leaf_here tree k FILE Hin eq_refl)).
  - intros sub comps -> Hl.
    exact (H (k :: comps) (leaf_below tree k sub comps FILE Hin Hl)).
Qed.

(** ** The two sections list the same files in the same order *)

Lemma file_paths_value_entries v :
  forall root prefix name,
    map e_path (filter (fun e => negb (e_isdir e))
                       (value_entries root prefix name v))
    = map (join_all root) (value_leaves name v).
Proof.
  induction v as [| |items IH] using pyvalue_induction;
    intros root prefix name; try reflexivity.
  cbn [value_entries value_leaves filter e_isdir is_dict negb].
  rewrite map_map, filter_flat_map, !map_flat_map'.
  apply flat_map_ext_in. intros [k c] Hin.
  rewrite Forall_forall in IH. apply (IH (k, c) Hin).
Qed.

Lemma file_paths_tree_entries tree root prefix :
  map e_path (filter (fun e => negb (e_isdir e)) (tree_entries root prefix tree))
  = map (join_all root) (leaves tree).
Proof.
  unfold tree_entries, leaves. rewrite filter_flat_map, !map_flat_map'.
  apply flat_map_ext_in. intros [k c] _. apply file_paths_value_entries.
Qed.

(** ** The run on a project *)

Lemma resolve_gitignore st cs :
  getcwd st = abs_path cs -> names_valid cs ->
  resolve st (os_path.join (getcwd st) ".gitignore")
  = match assoc ".gitignore" (cwd_entries st) with
    | Some child => Some child
    | None => None
    end.
Proof.
  intros Hcwd Hcs.
  change (os_path.join (getcwd st) ".gitignore")
    with (join_all (getcwd st) [".gitignore"%string]).
  rewrite (resolve_below st cs [".gitignore"%string] Hcwd Hcs)
    by (now repeat constructor).
  reflexivity.
Qed.

Lemma main_contains_gather utf8_decodable read_text splitlines from_lines st spec
    tree a block b :
  load_gitignore_patterns read_text splitlines from_lines st
    (os_path.join (getcwd st) ".gitignore") = Ok spec ->
  build_file_tree_or_raise utf8_decodable (listdir_error st) (getcwd st)
    (getcwd st) spec (cwd_entries st) = Ok tree ->
  gather_file_contents (open_text read_text st) tree (getcwd st)
  = (a ++ block ++ b)%string ->
  exists a' b',
    main utf8_decodable read_text splitlines from_lines st
    = Ok (a' ++ block ++ b')%string.
Proof.
  intros Hload Hbuild Hgather.
  rewrite (main_Ok utf8_decodable read_text splitlines from_lines st spec tree
             Hload Hbuild).
  unfold document. rewrite Hgather.
  exists ("<project>" ++ LF ++ "# Project Structure" ++ LF ++ LF
          ++ render_tree_markdown tree ""
          ++ LF ++ LF ++ "# File Contents" ++ LF ++ LF ++ a)%string,
         (b ++ LF ++ "</project>" ++ LF)%string.
  f_equal. now rewrite !str_app_assoc.
Qed.

(** A leaf marked as text is a readable file whose prefix decodes. *)
Lemma text_leaf_is_decodable_file utf8_decodable cwd spec root es comps :
  wf_listing es ->
  leaf_at (build_file_tree utf8_decodable cwd root spec es) comps FILE ->
  exists data,
    walk (FDir es) comps = Some (FFile (Readable data))
    /\ ~ In x00 (firstn 1024 data)
    /\ utf8_decodable (firstn 1024 data) = true.
Proof.
  intros Hwf Hleaf.
  destruct (leaf_is_file utf8_decodable cwd spec (FDir es) Hwf root _
              (entry_value_dir utf8_decodable cwd spec root es) comps FILE Hleaf)
    as [f [Hwalk Hv]].
  assert (Hb : is_binary_file utf8_decodable f 1024 = false)
    by (destruct (is_binary_file utf8_decodable f 1024);
        [discriminate|reflexivity]).
  apply is_binary_file_text in Hb. destruct Hb as [data [-> H]].
  exists data. split; [exact Hwalk|exact H].
Qed.

Lemma sample_codec_reads d :
  sample.utf8_decodable d = true -> exists t, sample.read_text d = Ok t.
Proof.
  unfold sample.utf8_decodable, sample.read_text. intros ->. eauto.
Qed.

Lemma sample_leaf_a : leaf_at sample.tree ["a.py"]%string FILE.
Proof. apply leaf_here; [left; reflexivity|reflexivity]. Qed.

(** ** The words of a text *)

Example split_ws_ex1 :
  pytext.split_ws ("  a b" ++ LF ++ "c  ")%string = ["a"; "b"; "c"]%string.
Proof. reflexivity. Qed.
Example split_ws_ex2 : pytext.split_ws "   " = [].
Proof. reflexivity. Qed.
Example of_nat_ex1 : pytext.of_nat 0 = "0"%string.
Proof. reflexivity. Qed.
Example of_nat_ex2 : pytext.of_nat 1204 = "1204"%string.
Proof. reflexivity. Qed.
Example split_ws_ex3 :
  pytext.split_ws
    (String "a" (String (ascii_of_nat 194) (String (ascii_of_nat 160) "b")))
  = ["a"; "b"]%string.
Proof. reflexivity. Qed.
Example split_ws_ex4 :
  pytext.split_ws
    (String "a" (String (ascii_of_nat 226) (String (ascii_of_nat 128)
       (String (ascii_of_nat 168) "b"))))
  = ["a"; "b"]%string.
Proof. reflexivity. Qed.

Lemma is_space1_low c : pytext.is_space1 c = true -> nat_of_ascii c <= 32.
Proof.
  unfold pytext.is_space1. intros H.
  apply orb_true_iff in H. destruct H as [H|H];
    apply andb_true_iff in H; destruct H as [_ H];
    apply Nat.leb_le in H; lia.
Qed.

Lemma is_space2_second c1 c2 :
  nat_of_ascii c2 <= 32 -> pytext.is_space2 c1 c2 = false.
Proof.
  intros H. unfold pytext.is_space2.
  destruct (Nat.eqb_spec (nat_of_ascii c2) 133); [lia|].
  destruct (Nat.eqb_spec (nat_of_ascii c2) 160); [lia|].
  apply andb_false_r.
Qed.

Lemma is_space3_second c1 c2 c3 :
  nat_of_ascii c2 <= 32 -> pytext.is_space3 c1 c2 c3 = false.
Proof.
  intros H. unfold pytext.is_space3.
  destruct (Nat.eqb_spec (nat_of_ascii c2) 154); [lia|].
  destruct (Nat.eqb_spec (nat_of_ascii c2) 128); [lia|].
  destruct (Nat.eqb_spec (nat_of_ascii c2) 129); [lia|].
  now rewrite !andb_false_r.
Qed.

Lemma is_space3_third c1 c2 c3 :
  nat_of_ascii c3 <= 32 -> pytext.is_space3 c1 c2 c3 = false.
Proof.
  intros H. unfold pytext.is_space3.
  destruct (Nat.eqb_spec (nat_of_ascii c3) 128); [lia|].
  destruct (Nat.eqb_spec (nat_of_ascii c3) 168); [lia|].
  destruct (Nat.eqb_spec (nat_of_ascii c3) 169); [lia|].
  destruct (Nat.eqb_spec (nat_of_ascii c3) 175); [lia|].
  destruct (Nat.eqb_spec (nat_of_ascii c3) 159); [lia|].
  destruct (Nat.leb_spec 128 (nat_of_ascii c3)); [lia|].
  now rewrite !andb_false_r.
Qed.

Lemma space_len_le s : pytext.space_len s <= String.length s.
Proof.
  destruct s as [|c1 [|c2 [|c3 r]]]; cbn [pytext.space_len String.length];
    repeat match goal with
           | |- context [if ?b then _ else _] => destruct b
           end; lia.
Qed.

(** An ASCII whitespace character behind a string does not make a
    whitespace character start earlier. *)
Lemma space_len_app x a c b :
  pytext.is_space1 c = true ->
  pytext.space_len (String x a ++ String c b)
  = pytext.space_len (String x a).
Proof.
  intros Hc. apply is_space1_low in Hc.
  destruct a as [|c2 [|c3 r]]; cbn [String.append pytext.space_len].
  - destruct (pytext.is_space1 x); [reflexivity|].
    rewrite is_space2_second by exact Hc.
    destruct b; [reflexivity|]. now rewrite is_space3_second.
  - destruct (pytext.is_space1 x); [reflexivity|].
    destruct (pytext.is_space2 x c2); [reflexivity|].
    now rewrite is_space3_third.
  - reflexivity.
Qed.

Lemma split_go_app a c b :
  pytext.is_space1 c = true ->
  forall skip cur,
    skip <= String.length a ->
    pytext.split_go (a ++ String c b) skip cur
    = pytext.split_go a skip cur ++ pytext.split_go b 0 None.
Proof.
  intros Hc. induction a as [|x a IH]; intros skip cur Hskip.
  - cbn [String.length] in Hskip. replace skip with 0 by lia.
    cbn [String.append pytext.split_go pytext.space_len]. now rewrite Hc.
  - destruct skip as [|k].
    + change (pytext.split_go (String x a ++ String c b) 0 cur)
        with (match pytext.space_len (String x a ++ String c b) with
              | 0 => pytext.split_go (a ++ String c b) 0 (pytext.push cur x)
              | S k => pytext.flush cur
                       ++ pytext.split_go (a ++ String c b) k None
              end).
      change (pytext.split_go (String x a) 0 cur)
        with (match pytext.space_len (String x a) with
              | 0 => pytext.split_go a 0 (pytext.push cur x)
              | S k => pytext.flush cur ++ pytext.split_go a k None
              end).
      rewrite (space_len_app x a c b Hc).
      pose proof (space_len_le (String x a)) as Hle.
      destruct (pytext.space_len (String x a)) as [|k].
      * apply IH. lia.
      * rewrite IH by (cbn [String.length] in Hle; lia).
        now rewrite app_assoc.
    + cbn [String.append pytext.split_go]. apply IH.
      cbn [String.length] in Hskip. lia.
Qed.

(** The words of two texts separated by an ASCII whitespace character. *)
Lemma split_ws_app a c b :
  pytext.is_space1 c = true ->
  pytext.split_ws (a ++ String c b)
  = pytext.split_ws a ++ pytext.split_ws b.
Proof. intros Hc. apply split_go_app; [exact Hc|lia]. Qed.

Lemma flush_push_word w :
  forall cur,
    w <> EmptyString -> has_space w = false ->
    pytext.split_go w 0 cur
    = [(match cur with Some p => p | None => EmptyString end ++ w)%string].
Proof.
  induction w as [|x w IH]; intros cur Hne Hs; [contradiction|].
  cbn [has_space] in Hs. apply orb_false_iff in Hs. destruct Hs as [Hx Hw].
  apply negb_false_iff, Nat.eqb_eq in Hx.
  change (pytext.split_go (String x w) 0 cur)
    with (match pytext.space_len (String x w) with
          | 0 => pytext.split_go w 0 (pytext.push cur x)
          | S k => pytext.flush cur ++ pytext.split_go w k None
          end).
  rewrite Hx. destruct w as [|y w].
  - destruct cur; reflexivity.
  - rewrite IH by (discriminate || exact Hw).
    destruct cur as [p|]; cbn [pytext.push]; [|reflexivity].
    now rewrite str_app_assoc.
Qed.

Lemma split_ws_word w : is_word w -> pytext.split_ws w = [w].
Proof. intros [Hne Hs]. exact (flush_push_word w None Hne Hs). Qed.

Lemma split_ws_join_words ws :
  Forall is_word ws -> pytext.split_ws (pystr.join " " ws) = ws.
Proof.
  induction 1 as [|w l Hw Hl IH]; [reflexivity|].
  destruct l as [|y l]; [now apply split_ws_word|].
  rewrite join_cons2.
  change (w ++ " " ++ pystr.join " " (y :: l))%string
    with (w ++ String " " (pystr.join " " (y :: l)))%string.
  rewrite split_ws_app by reflexivity.
  now rewrite IH, split_ws_word.
Qed.

Lemma split_ws_LF a b :
  pytext.split_ws (a ++ LF ++ b) = pytext.split_ws a ++ pytext.split_ws b.
Proof. apply (split_ws_app a (ascii_of_nat 10) b). reflexivity. Qed.

Lemma split_ws_LF_head b : pytext.split_ws (LF ++ b) = pytext.split_ws b.
Proof. exact (split_ws_LF EmptyString b). Qed.

(** The words of the document: those of the wrapper and of the two
    titles, around those of the two sections. *)
Lemma document_words R G :
  pytext.split_ws
    ("<project>" ++ LF
     ++ (("# Project Structure" ++ LF ++ LF ++ R)
         ++ (LF ++ LF ++ "# File Contents" ++ LF ++ LF ++ G))
     ++ LF ++ "</project>" ++ LF)
  = ["<project>"; "#"; "Project"; "Structure"]%string
    ++ pytext.split_ws R
    ++ ["#"; "File"; "Contents"]%string
    ++ pytext.split_ws G
    ++ ["</project>"%string].
Proof.
  rewrite (split_ws_LF "<project>").
  rewrite !str_app_assoc.
  rewrite (split_ws_LF "# Project Structure").
  rewrite split_ws_LF_head.
  rewrite (split_ws_LF R).
  rewrite split_ws_LF_head.
  rewrite (split_ws_LF "# File Contents").
  rewrite split_ws_LF_head.
  rewrite (split_ws_LF G).
  change ("</project>" ++ LF)%string with ("</project>" ++ LF ++ "")%string.
  rewrite (split_ws_LF "</project>").
  reflexivity.
Qed.

Lemma count_tokens_fallback tiktoken_encode text :
  tiktoken_unavailable tiktoken_encode ->
  count_tokens tiktoken_encode text = List.length (pytext.split_ws text).
Proof.
  intros H. unfold count_tokens. destruct (H text) as [e ->]. reflexivity.
Qed.

Lemma sample_no_tiktoken : tiktoken_unavailable sample2.no_tiktoken.
Proof. intros text. now exists "No module named 'tiktoken'"%string. Qed.

Lemma sample_words : Forall is_word ["def"; "f(x):"; "return"; "x"]%string.
Proof. repeat constructor; discriminate. Qed.

(** ** The extension of a file name *)

Lemma rfind_without c s : pystr.contains c s = false -> pystr.rfind c s = None.
Proof.
  induction s as [|x s IH]; [reflexivity|].
  intros H. apply contains_cons_false in H. destruct H as [Hx Hs].
  cbn [pystr.rfind]. now rewrite (IH Hs), Hx.
Qed.

Lemma rfind_last c a b :
  pystr.contains c b = false ->
  pystr.rfind c (a ++ String c b) = Some (String.length a).
Proof.
  intros Hb. induction a as [|x a IH].
  - cbn [String.append pystr.rfind String.length].
    now rewrite (rfind_without c b Hb), Ascii.eqb_refl.
  - cbn [String.append pystr.rfind String.length]. now rewrite IH.
Qed.

Lemma substring_all s : String.substring 0 (String.length s) s = s.
Proof. induction s as [|x s IH]; [reflexivity|]. cbn. now rewrite IH. Qed.

Lemma substring_head a b :
  String.substring 0 (String.length a) (a ++ b) = a.
Proof.
  induction a as [|x a IH]; [now destruct b|]. cbn. now rewrite IH.
Qed.

Lemma substring_tail a b :
  String.substring (String.length a) (String.length b) (a ++ b) = b.
Proof.
  induction a as [|x a IH]; [apply substring_all|]. exact IH.
Qed.

Lemma str_length_app a b :
  String.length (a ++ b) = String.length a + String.length b.
Proof. induction a as [|x a IH]; [reflexivity|]. cbn. now rewrite IH. Qed.

(** [os.path.splitext] on a name with a dot: the extension starts at the
    last dot, unless only dots come before it. *)
Lemma splitext_last_dot stem e :
  noslash stem -> noslash e -> nodot e ->
  os_path.splitext (stem ++ String "." e)
  = if all_dots stem then ((stem ++ String "." e)%string, EmptyString)
    else (stem, String "." e).
Proof.
  intros Hstem He Hdot. unfold os_path.splitext.
  rewrite (rfind_last "."%char stem e Hdot).
  assert (Hslash : pystr.rfind os_path.sep (stem ++ String "." e) = None).
  { apply rfind_without. rewrite contains_app. unfold noslash in *.
    rewrite Hstem. cbn [orb pystr.contains]. exact He. }
  rewrite Hslash. cbn [Nat.ltb Nat.leb]. rewrite Nat.sub_0_r.
  rewrite substring_head. fold (all_dots stem).
  destruct (all_dots stem); [reflexivity|].
  rewrite str_length_app.
  replace (String.length stem + String.length (String "." e)
           - String.length stem) with (String.length (String "." e)) by lia.
  now rewrite substring_tail.
Qed.

Lemma splitext_no_dot name : nodot name -> os_path.splitext name = (name, EmptyString).
Proof.
  intros H. unfold os_path.splitext. now rewrite (rfind_without "."%char name H).
Qed.

(** ** The keys of the built tree *)

Lemma NoDup_map_fst_filter {A} (p : string * A -> bool) (l : list (string * A)) :
  NoDup (map fst l) -> NoDup (map fst (filter p l)).
Proof.
  induction l as [|[k a] l IH]; intros H; [constructor|].
  inversion H as [|? ? Hnotin Hnd]; subst. cbn [filter].
  destruct (p (k, a)); [|now apply IH].
  cbn [map fst]. constructor; [|now apply IH].
  intros Hin. apply Hnotin. apply in_map_iff in Hin.
  destruct Hin as [[k' a'] [E Hin]]. cbn [fst] in E. subst k'.
  apply filter_In in Hin. destruct Hin as [Hin _].
  apply (in_map fst) in Hin. exact Hin.
Qed.

Lemma keys_build_sorted_kept utf8_decodable cwd spec root es :
  NoDup (listdir es) ->
  keys (build_file_tree utf8_decodable cwd root spec es)
  = sorted (map fst (filter (fun e => kept cwd spec root (fst e) (snd e)) es)).
Proof.
  intros Hnd. apply StronglySorted_lt_unique.
  - rewrite keys_build_file_tree by exact Hnd.
    apply StronglySorted_filter. now apply sorted_lt.
  - apply sorted_lt. now apply NoDup_map_fst_filter.
  - intros x. split.
    + intros Hx. unfold keys in Hx. apply in_map_iff in Hx.
      destruct Hx as [[k v] [E Hin]]. cbn [fst] in E. subst k.
      apply In_build_file_tree in Hin; [|exact Hnd].
      destruct Hin as [c [Hc [Hkept _]]].
      apply (Permutation_in _ (sorted_perm _)).
      apply in_map_iff. exists (x, c). split; [reflexivity|].
      apply filter_In. split; [exact Hc|exact Hkept].
    + intros Hx.
      apply (Permutation_in _ (Permutation_sym (sorted_perm _))) in Hx.
      apply in_map_iff in Hx. destruct Hx as [[k c] [E Hin]].
      cbn [fst] in E. subst k. apply filter_In in Hin.
      destruct Hin as [Hc Hkept]. cbn [fst snd] in Hkept.
      unfold keys. apply in_map_iff.
      exists (x, entry_value utf8_decodable cwd spec (os_path.join root x) c).
      split; [reflexivity|].
      apply In_build_file_tree; [exact Hnd|]. exists c. auto.
Qed.

(** ** The tag of a file name *)

Lemma all_dots_noslash dots : all_dots dots = true -> noslash dots.
Proof.
  unfold all_dots, noslash. induction dots as [|c dots IH]; [reflexivity|].
  cbn [list_ascii_of_string forallb pystr.contains]. intros H.
  apply andb_true_iff in H. destruct H as [Hc Hrest].
  apply Ascii.eqb_eq in Hc. subst c. now rewrite (IH Hrest).
Qed.

(** The tag read off the name is the tag that lines 153-161 compute. *)
Lemma tag_of_fence_lang name lang : tag_of name lang -> fence_lang_of name = lang.
Proof.
  unfold fence_lang_of.
  intros [stem e lang' Hstem He Hdot Hdots Hin
         |stem e Hstem He Hdot Hdots Hnot
         |dots e He Hdot Hdots
         |name' Hslash Hdot].
  - rewrite (splitext_last_dot stem e Hstem He Hdot), Hdots. cbn [snd].
    now apply fence_get_listed.
  - rewrite (splitext_last_dot stem e Hstem He Hdot), Hdots. cbn [snd].
    now apply fence_get_unlisted.
  - rewrite (splitext_last_dot dots e (all_dots_noslash dots Hdots) He Hdot),
      Hdots.
    reflexivity.
  - rewrite (splitext_no_dot name' Hdot). reflexivity.
Qed.

Lemma last_dot_split name :
  nodot name
  \/ exists stem e, name = (stem ++ String "." e)%string /\ nodot e.
Proof.
  unfold nodot. induction name as [|c name IH]; [now left|].
  destruct IH as [Hno|[stem [e [-> He]]]].
  - destruct (Ascii.eqb c ".") eqn:Ec.
    + right. apply Ascii.eqb_eq in Ec. subst c.
      exists EmptyString, name. now split.
    + left. cbn [pystr.contains]. now rewrite Ec.
  - right. exists (String c stem), e. now split.
Qed.

(** Every name without a slash has a tag. *)
Lemma tag_of_total name : noslash name -> exists lang, tag_of name lang.
Proof.
  intros Hslash. destruct (last_dot_split name) as [Hno|[stem [e [-> He]]]].
  - exists EmptyString. now apply tag_no_dot.
  - unfold noslash in Hslash. rewrite contains_app in Hslash.
    apply orb_false_iff in Hslash. destruct Hslash as [Hs1 Hs2].
    apply contains_cons_false in Hs2. destruct Hs2 as [_ Hs2].
    destruct (all_dots stem) eqn:Hdots.
    + exists EmptyString. now apply tag_leading_dots.
    + destruct (in_dec string_dec (pystr.lower (String "." e))
                  (map fst fence_table)) as [Hin|Hnot].
      * apply in_map_iff in Hin. destruct Hin as [[ext lang] [Hext Hin]].
        cbn [fst] in Hext. subst ext.
        exists lang. now apply tag_listed.
      * exists EmptyString. now apply tag_unlisted.
Qed.

Lemma text_block_fenced full_path name lang body :
  tag_of name lang ->
  text_block full_path name body = fenced_block full_path lang body.
Proof.
  intros H. unfold text_block, fenced_block.
  now rewrite (tag_of_fence_lang name lang H).
Qed.

(** ** Texts that do not occur *)

Lemma substring_skip a n t :
  String.substring (String.length a) n (a ++ t) = String.substring 0 n t.
Proof. induction a as [|x a IH]; [reflexivity|exact IH]. Qed.

Lemma absent_spec pattern s :
  pattern <> EmptyString -> absent pattern s = true ->
  forall a b, s <> (a ++ pattern ++ b)%string.
Proof.
  intros Hp Habs a b ->. unfold absent in Habs.
  destruct (String.index 0 pattern (a ++ pattern ++ b)) eqn:E; [discriminate|].
  apply (String.index_correct3 0 (String.length a) pattern _ E Hp (Nat.le_0_l _)).
  now rewrite substring_skip, substring_head.
Qed.

Lemma last_In {A} (l : list A) d : l <> [] -> In (last l d) l.
Proof.
  induction l as [|x l IH]; [congruence|]. intros _.
  destruct l as [|y l]; [now left|]. right. apply IH. discriminate.
Qed.

(** The name of a leaf of a built tree has a tag. *)
Lemma leaf_name_has_tag comps :
  names_valid comps -> comps <> [] -> exists lang, tag_of (last comps "") lang.
Proof.
  intros Hvalid Hne. apply tag_of_total.
  pose proof (names_valid_noslash comps Hvalid) as Hall.
  rewrite Forall_forall in Hall. apply Hall. now apply last_In.
Qed.

(** * The claims *)

(** ** C1 *)

(** C1: for every well-formed directory, the rendering of the built tree
    is the join of lines among which the list lines are, in order, the
    lines of the nodes of the tree; these nodes are the non-ignored
    entries of the directory, each once, and no path comes twice; at
    each level of the tree the names increase strictly in the order of
    [sorted]; and when no name has a line feed, the joined lines are the
    lines of the text. *)
Theorem C1_render_lists_each_entry_once_in_order :
  forall utf8_decodable cwd spec root es,
    wf_listing es ->
    let tree := build_file_tree utf8_decodable cwd root spec es in
    render_tree_markdown tree "" = pystr.join LF (tree_lines tree "")
    /\ filter nonblank (tree_lines tree "")
       = map line_of (tree_entries root "" tree)
    /\ Permutation (tree_entries root "" tree)
                   (surviving_entries cwd spec root "" es)
    /\ NoDup (map e_path (tree_entries root "" tree))
    /\ levels_sorted tree
    /\ (fs_names_all no_lf (FDir es) = true ->
        pystr.split (ascii_of_nat 10) (render_tree_markdown tree "")
        = or_blank (tree_lines tree "")).
Proof.
  intros utf8_decodable cwd spec root es Hwf tree.
  split; [apply render_tree_markdown_lines|].
  split; [apply tree_lines_entries|].
  split; [now apply tree_entries_surviving|].
  split; [now apply NoDup_entry_paths|].
  split; [now apply levels_sorted_build|].
  intros Hlf. apply render_tree_markdown_split.
  exact (keys_all_entry_value utf8_decodable cwd spec no_lf (FDir es) Hwf Hlf
           root tree (entry_value_dir utf8_decodable cwd spec root es)).
Qed.

Lemma C1_witness :
  wf_listing sample.project
  /\ let tree := build_file_tree sample.utf8_decodable "/w" "/w" None
                   sample.project in
     render_tree_markdown tree "" = pystr.join LF (tree_lines tree "")
     /\ filter nonblank (tree_lines tree "")
        = map line_of (tree_entries "/w" "" tree)
     /\ Permutation (tree_entries "/w" "" tree)
                    (surviving_entries "/w" None "/w" "" sample.project)
     /\ NoDup (map e_path (tree_entries "/w" "" tree))
     /\ levels_sorted tree
     /\ (fs_names_all no_lf (FDir sample.project) = true ->
         pystr.split (ascii_of_nat 10) (render_tree_markdown tree "")
         = or_blank (tree_lines tree "")).
Proof.
  split; [reflexivity|].
  apply (C1_render_lists_each_entry_once_in_order
           sample.utf8_decodable "/w" None "/w" sample.project).
  reflexivity.
Defined.

(** ** C2 *)

(** C2, as stated, fails: a regular file named [.git] is a node of the
    built tree. *)
Lemma C2_counterexample :
  tree_node (build_file_tree sample.utf8_decodable "/w" "/w" None sample.worktree)
            ".git" FILE.
Proof. apply tree_node_here. left. reflexivity. Qed.

(** C2, amended: whatever the filesystem and the ignore patterns, no node
    of the built tree named [.git] or [__pycache__] is a directory. *)
Theorem C2_skipped_directories_are_not_nodes :
  forall utf8_decodable cwd root spec es name v,
    tree_node (build_file_tree utf8_decodable cwd root spec es) name v ->
    In name skip_dirs ->
    is_dict v = false.
Proof.
  intros utf8_decodable cwd root spec es name v Hnode Hskip.
  exact (skipped_name_is_leaf utf8_decodable cwd spec (FDir es) root _
           (entry_value_dir utf8_decodable cwd spec root es) name v Hnode Hskip).
Qed.

Lemma C2_witness :
  tree_node (build_file_tree sample.utf8_decodable "/w" "/w" None sample.worktree)
            ".git" FILE
  /\ In ".git" skip_dirs
  /\ is_dict FILE = false.
Proof.
  assert (H1 : tree_node (build_file_tree sample.utf8_decodable "/w" "/w" None
                            sample.worktree) ".git" FILE)
    by (apply tree_node_here; left; reflexivity).
  assert (H2 : In ".git" skip_dirs) by (left; reflexivity).
  split; [exact H1|]. split; [exact H2|].
  exact (C2_skipped_directories_are_not_nodes sample.utf8_decodable "/w" "/w"
           None sample.worktree ".git" FILE H1 H2).
Defined.

(** ** C3 *)

(** C3: a file whose first 1024 bytes contain a NUL byte is classified
    as binary, whatever the rest of its content. *)
Theorem C3_nul_in_prefix_is_binary :
  forall utf8_decodable data,
    In x00 (firstn 1024 data) ->
    is_binary_file utf8_decodable (Readable data) 1024 = true.
Proof.
  intros utf8_decodable data Hin. unfold is_binary_file.
  assert (existsb (Byte.eqb x00) (firstn 1024 data) = true) as ->;
    [|reflexivity].
  apply existsb_exists. exists x00. split; [exact Hin|reflexivity].
Qed.

Lemma C3_witness :
  In x00 (firstn 1024 [x61; x00; x62])
  /\ is_binary_file sample.utf8_decodable (Readable [x61; x00; x62]) 1024 = true.
Proof.
  split; [right; left; reflexivity|].
  apply (C3_nul_in_prefix_is_binary sample.utf8_decodable [x61; x00; x62]).
  right; left; reflexivity.
Defined.

(** ** C4 *)




(** ** C5 *)

(** C5, as stated, fails: the heading of a text file is not its path
    relative to the root of the walk.  [main] passes the working
    directory as [parent_path], and line 139 joins every name to it: in
    the sample project, started in [/w], the heading of [a.py] is
    [## /w/a.py], and the line [## a.py] occurs nowhere in what
    [gather_file_contents] returns. *)
Lemma C5_counterexample :
  leaf_at sample.tree ["a.py"]%string FILE
  /\ gather_file_contents (open_text sample.read_text sample.state)
       sample.tree (getcwd sample.state)
     = pystr.join LF
         [("## /w/a.py" ++ LF)%string; "```python"%string; "print(1)"%string;
          ("```" ++ LF)%string;
          ("## /w/b.bin" ++ LF)%string;
          ("_(binary file, not included)_" ++ LF)%string;
          EmptyString;
          ("## /w/sub/k" ++ LF)%string;
          ("_(binary file, not included)_" ++ LF)%string;
          ("## /w/sub/z.JS" ++ LF)%string; "```javascript"%string; "1"%string;
          ("```" ++ LF)%string]
  /\ (forall a b,
        gather_file_contents (open_text sample.read_text sample.state)
          sample.tree (getcwd sample.state)
        <> (a ++ ("## a.py" ++ LF) ++ b)%string)
  /\ (forall doc,
        main sample.utf8_decodable sample.read_text sample.splitlines
          sample.from_lines sample.state = Ok doc ->
        forall a b, doc <> (a ++ ("## a.py" ++ LF) ++ b)%string).
Proof.
  split; [exact sample_leaf_a|]. split; [reflexivity|]. split.
  - apply absent_spec; [discriminate|reflexivity].
  - intros doc Hdoc. rewrite sample_main in Hdoc. injection Hdoc as <-.
    apply absent_spec; [discriminate|reflexivity].
Qed.

(** C5, amended: for every text-file leaf whose read succeeds, the output
    of [gather_file_contents] contains the heading line with
    [parent_path] joined to the names on the way to the leaf, an empty
    line, the opening fence with the tag of the file name, the text that
    was read, unchanged, and the closing fence.  The tag is read off the
    name: the table's entry for the part of the name from its last dot
    on, in lower case, and no tag when the table has no such entry or
    the name has no dot or only leading dots; every name has a tag.  The
    path of the heading is [os.path.join] of [parent_path] and the path
    relative to the root of the tree; in a run, where [parent_path] is
    the working directory, it is the absolute path of the file, and the
    text read is the text of the file found at the place of the leaf. *)
Theorem C5_text_file_block :
  forall open_read tree parent_path comps text,
    leaf_at tree comps FILE ->
    open_read (join_all parent_path comps) = Ok text ->
    (forall lang,
        tag_of (last comps "") lang ->
        exists a b,
          gather_file_contents open_read tree parent_path
          = (a ++ fenced_block (join_all parent_path comps) lang text
               ++ b)%string)
    /\ (noslash (last comps "") -> exists lang, tag_of (last comps "") lang)
    /\ (names_valid comps ->
        join_all parent_path comps
        = os_path.join parent_path (pystr.join "/" comps)
        /\ join_all parent_path comps
           = (dir_prefix parent_path ++ pystr.join "/" comps)%string)
    /\ (forall utf8_decodable read_text spec st cs,
          getcwd st = abs_path cs -> names_valid cs ->
          wf_listing (cwd_entries st) ->
          tree = build_file_tree utf8_decodable (getcwd st) (getcwd st) spec
                   (cwd_entries st) ->
          parent_path = getcwd st ->
          join_all parent_path comps = abs_path (cs ++ comps)
          /\ (exists lang, tag_of (last comps "") lang)
          /\ exists data,
               walk (FDir (cwd_entries st)) comps = Some (FFile (Readable data))
               /\ open_text read_text st (join_all (getcwd st) comps)
                  = read_text data).
Proof.
  intros open_read tree parent_path comps text Hleaf Hread.
  split; [|split; [|split]].
  - intros lang Htag.
    destruct (gather_contains_block open_read tree comps FILE Hleaf parent_path)
      as [a [b E]].
    exists a, b. rewrite E. cbn [block_of]. rewrite Hread. cbn [file_text_of].
    now rewrite (text_block_fenced _ _ lang text Htag).
  - apply tag_of_total.
  - intros Hvalid.
    destruct (join_all_relative parent_path comps Hvalid
                (leaf_at_nonempty tree comps FILE Hleaf)) as [E1 E2].
    split; [exact E1|]. now rewrite E1.
  - intros utf8_decodable read_text spec st cs Hcwd Hcs Hwf -> ->.
    assert (Hvalid : names_valid comps).
    { exact (leaf_names_valid utf8_decodable (getcwd st) spec
               (FDir (cwd_entries st)) Hwf (getcwd st) _
               (entry_value_dir utf8_decodable (getcwd st) spec (getcwd st)
                  (cwd_entries st)) comps FILE Hleaf). }
    split; [rewrite Hcwd; now apply join_all_abs_path|].
    split.
    + exact (leaf_name_has_tag comps Hvalid
               (leaf_at_nonempty _ comps FILE Hleaf)).
    + exact (open_text_leaf utf8_decodable read_text spec st cs _
               Hcwd Hcs Hwf Hleaf).
Qed.

Lemma C5_witness :
  leaf_at sample.tree ["sub"; "z.JS"]%string FILE
  /\ open_text sample.read_text sample.state
       (join_all "/w" ["sub"; "z.JS"]%string) = Ok "1"%string
  /\ tag_of "z.JS" "javascript"
  /\ exists a b,
       gather_file_contents (open_text sample.read_text sample.state)
         sample.tree "/w"
       = (a ++ (("## /w/sub/z.JS" ++ LF) ++ LF ++ "```javascript" ++ LF
                ++ "1" ++ LF ++ ("```" ++ LF))
            ++ b)%string.
Proof.
  assert (H1 : leaf_at sample.tree ["sub"; "z.JS"]%string FILE).
  { apply (leaf_below sample.tree "sub"
             [("k"%string, BINARY); ("z.JS"%string, FILE)]).
    - right; right; right; left; reflexivity.
    - apply leaf_here; [right; left; reflexivity|reflexivity]. }
  assert (H2 : open_text sample.read_text sample.state
                 (join_all "/w" ["sub"; "z.JS"]%string) = Ok "1"%string)
    by reflexivity.
  assert (H3 : tag_of "z.JS" "javascript").
  { apply (tag_listed "z" "JS" "javascript"); try reflexivity.
    right; left; reflexivity. }
  split; [exact H1|]. split; [exact H2|]. split; [exact H3|].
  exact (proj1 (C5_text_file_block (open_text sample.read_text sample.state)
                  sample.tree "/w" ["sub"; "z.JS"]%string "1" H1 H2)
           "javascript"%string H3).
Defined.

(** ** C6 *)

(** C6: when the read of a text-file leaf fails, the output has the
    message in the place of the content, between the same heading and
    fences, and every leaf of the tree still has its block in the
    output.  So it is in a run: when the walk has returned the tree, the
    run ends with a document that has the block with the message and the
    block of every leaf. *)
Theorem C6_read_failure_is_local :
  forall open_read tree parent_path comps err,
    leaf_at tree comps FILE ->
    open_read (join_all parent_path comps) = Raise err ->
    (exists a b,
        gather_file_contents open_read tree parent_path
        = (a ++ text_block (join_all parent_path comps) (last comps "")
                  ("Could not read file: " ++ err)
             ++ b)%string)
    /\ (forall comps' v',
          leaf_at tree comps' v' ->
          exists a b,
            gather_file_contents open_read tree parent_path
            = (a ++ block_of open_read (join_all parent_path comps')
                      (last comps' "") v'
                 ++ b)%string)
    /\ (forall utf8_decodable read_text splitlines from_lines st spec,
          load_gitignore_patterns read_text splitlines from_lines st
            (os_path.join (getcwd st) ".gitignore") = Ok spec ->
          build_file_tree_or_raise utf8_decodable (listdir_error st)
            (getcwd st) (getcwd st) spec (cwd_entries st) = Ok tree ->
          parent_path = getcwd st ->
          (forall path, open_read path = open_text read_text st path) ->
          (exists a b,
              main utf8_decodable read_text splitlines from_lines st
              = Ok (a ++ text_block (join_all parent_path comps)
                           (last comps "") ("Could not read file: " ++ err)
                      ++ b)%string)
          /\ (forall comps' v',
                leaf_at tree comps' v' ->
                exists a b,
                  main utf8_decodable read_text splitlines from_lines st
                  = Ok (a ++ block_of open_read (join_all parent_path comps')
                               (last comps' "") v'
                          ++ b)%string)).
Proof.
  intros open_read tree parent_path comps err Hleaf Hread.
  assert (Hblocks : forall comps' v',
            leaf_at tree comps' v' ->
            exists a b,
              gather_file_contents open_read tree parent_path
              = (a ++ block_of open_read (join_all parent_path comps')
                        (last comps' "") v'
                   ++ b)%string).
  { intros comps' v' Hleaf'.
    exact (gather_contains_block open_read tree comps' v' Hleaf' parent_path). }
  assert (Hblock : exists a b,
            gather_file_contents open_read tree parent_path
            = (a ++ text_block (join_all parent_path comps) (last comps "")
                      ("Could not read file: " ++ err)
                 ++ b)%string).
  { destruct (Hblocks comps FILE Hleaf) as [a [b E]].
    exists a, b. rewrite E. cbn [block_of]. now rewrite Hread. }
  split; [exact Hblock|]. split; [exact Hblocks|].
  intros utf8_decodable read_text splitlines from_lines st spec Hload Hbuild
         -> Hopen.
  assert (Hrun : forall block,
            (exists a b,
                gather_file_contents open_read tree (getcwd st)
                = (a ++ block ++ b)%string) ->
            exists a b,
              main utf8_decodable read_text splitlines from_lines st
              = Ok (a ++ block ++ b)%string).
  { intros block [a [b E]].
    rewrite (gather_file_contents_ext open_read (open_text read_text st) tree
               (getcwd st) Hopen) in E.
    exact (main_contains_gather utf8_decodable read_text splitlines from_lines
             st spec tree a block b Hload Hbuild E). }
  split; [exact (Hrun _ Hblock)|].
  intros comps' v' Hleaf'. exact (Hrun _ (Hblocks comps' v' Hleaf')).
Qed.

Lemma C6_witness :
  leaf_at sample2.late_tree ["big.txt"]%string FILE
  /\ open_text sample.read_text sample2.state_late_byte
       (join_all "/w" ["big.txt"]%string)
     = Raise "'utf-8' codec can't decode bytes"
  /\ build_file_tree_or_raise sample.utf8_decodable
       (listdir_error sample2.state_late_byte) "/w" "/w" None sample2.late_byte
     = Ok sample2.late_tree
  /\ (exists a b,
        gather_file_contents (open_text sample.read_text sample2.state_late_byte)
          sample2.late_tree "/w"
        = (a ++ (("## /w/big.txt" ++ LF) ++ LF ++ "```" ++ LF
                 ++ "Could not read file: 'utf-8' codec can't decode bytes"
                 ++ LF ++ ("```" ++ LF))
             ++ b)%string)
  /\ exists a b,
       main sample.utf8_decodable sample.read_text sample.splitlines
         sample.from_lines sample2.state_late_byte
       = Ok (a ++ (("## /w/big.txt" ++ LF) ++ LF ++ "```" ++ LF
                   ++ "Could not read file: 'utf-8' codec can't decode bytes"
                   ++ LF ++ ("```" ++ LF))
               ++ b)%string.
Proof.
  assert (H1 : leaf_at sample2.late_tree ["big.txt"]%string FILE)
    by (apply leaf_here; [left; reflexivity|reflexivity]).
  assert (H2 : open_text sample.read_text sample2.state_late_byte
                 (join_all "/w" ["big.txt"]%string)
               = Raise "'utf-8' codec can't decode bytes")
    by (vm_compute; reflexivity).
  assert (H3 : build_file_tree_or_raise sample.utf8_decodable
                 (listdir_error sample2.state_late_byte) "/w" "/w" None
                 sample2.late_byte
               = Ok sample2.late_tree)
    by (vm_compute; reflexivity).
  assert (H4 : load_gitignore_patterns sample.read_text sample.splitlines
                 sample.from_lines sample2.state_late_byte
                 (os_path.join (getcwd sample2.state_late_byte) ".gitignore")
               = Ok None) by reflexivity.
  destruct (C6_read_failure_is_local
              (open_text sample.read_text sample2.state_late_byte)
              sample2.late_tree "/w" ["big.txt"]%string _ H1 H2)
    as [Hgather [_ Hrun]].
  split; [exact H1|]. split; [exact H2|]. split; [exact H3|].
  split; [exact Hgather|].
  exact (proj1 (Hrun sample.utf8_decodable sample.read_text sample.splitlines
                  sample.from_lines sample2.state_late_byte None H4 H3 eq_refl
                  (fun _ => eq_refl))).
Defined.

(** ** C7 *)

(** C7: a kept directory none of whose entries is kept is an item of the
    built tree with an empty [dict]; its rendering is its directory line
    followed by the join of no line, and the gathering emits for it the
    join of nothing, hence no heading. *)
Theorem C7_empty_directory :
  forall utf8_decodable cwd spec root es name sub,
    wf_listing es ->
    In (name, FDir sub) es ->
    kept cwd spec root name (FDir sub) = true ->
    (forall k c, In (k, c) sub ->
       kept cwd spec (os_path.join root name) k c = false) ->
    In (name, Dict []) (build_file_tree utf8_decodable cwd root spec es)
    /\ (forall prefix,
          render_item prefix name (Dict [])
          = [(prefix ++ "- **" ++ name ++ "/**")%string; EmptyString]
          /\ render_tree_markdown [(name, Dict [])] prefix
             = (prefix ++ "- **" ++ name ++ "/**" ++ LF)%string)
    /\ (forall open_read parent_path,
          gather_item open_read parent_path name (Dict []) = [EmptyString]
          /\ gather_file_contents open_read [(name, Dict [])] parent_path
             = EmptyString).
Proof.
  intros utf8_decodable cwd spec root es name sub Hwf Hin Hkept Hnone.
  split; [|split].
  - apply In_build_file_tree; [now apply wf_listing_NoDup|].
    exists (FDir sub). split; [exact Hin|]. split; [exact Hkept|].
    rewrite entry_value_dir. f_equal. symmetry.
    apply build_file_tree_nothing_kept; [|exact Hnone].
    apply wf_listing_NoDup.
    exact (proj2 (wf_listing_In es name (FDir sub) Hwf Hin)).
  - intros prefix. split; [reflexivity|].
    change (render_tree_markdown [(name, Dict [])] prefix)
      with ((prefix ++ "- **" ++ name ++ "/**") ++ LF ++ "")%string.
    now rewrite !str_app_assoc.
  - intros open_read parent_path. split; reflexivity.
Qed.

Lemma C7_witness :
  wf_listing sample.project
  /\ In ("empty"%string, FDir []) sample.project
  /\ kept "/w" None "/w" "empty" (FDir []) = true
  /\ In ("empty"%string, Dict [])
        (build_file_tree sample.utf8_decodable "/w" "/w" None sample.project)
  /\ render_tree_markdown [("empty"%string, Dict [])] ""
     = ("- **empty/**" ++ LF)%string
  /\ gather_file_contents sample.read_text_at [("empty"%string, Dict [])] "/w"
     = EmptyString.
Proof.
  assert (H1 : wf_listing sample.project) by reflexivity.
  assert (H2 : In ("empty"%string, FDir []) sample.project)
    by (right; right; left; reflexivity).
  assert (H3 : kept "/w" None "/w" "empty" (FDir []) = true) by reflexivity.
  destruct (C7_empty_directory sample.utf8_decodable "/w" None "/w"
              sample.project "empty" [] H1 H2 H3 (fun k c (H : In (k, c) []) =>
                                                   match H with end))
    as [Hbuild [Hrender Hgather]].
  split; [exact H1|]. split; [exact H2|]. split; [exact H3|].
  split; [exact Hbuild|]. split.
  - exact (proj2 (Hrender EmptyString)).
  - exact (proj2 (Hgather sample.read_text_at "/w"%string)).
Defined.

(** ** C8 *)

(** C8: the output of [gather_file_contents] on a built tree is the join
    of parts whose headings are, in order, the paths of the leaves of the
    tree; the leaves are listed once each, and no two headings are the
    same path. *)
Theorem C8_headings_are_the_leaves :
  forall utf8_decodable cwd spec root es open_read parent_path,
    wf_listing es ->
    let tree := build_file_tree utf8_decodable cwd root spec es in
    let parts := tree_parts open_read tree parent_path in
    gather_file_contents open_read tree parent_path
    = pystr.join LF (map render_part parts)
    /\ headings parts = map (join_all parent_path) (leaves tree)
    /\ (forall comps, In comps (leaves tree) <-> exists v, leaf_at tree comps v)
    /\ NoDup (leaves tree)
    /\ NoDup (headings parts).
Proof.
  intros utf8_decodable cwd spec root es open_read parent_path Hwf tree parts.
  assert (Hleaves : NoDup (leaves tree))
    by (apply NoDup_leaves; now apply levels_sorted_build).
  split; [apply gather_file_contents_parts|].
  split; [apply headings_tree_parts|].
  split; [apply In_leaves|].
  split; [exact Hleaves|].
  unfold parts. rewrite headings_tree_parts.
  apply NoDup_leaf_paths; [exact Hleaves|].
  intros comps Hin. apply In_leaves in Hin. destruct Hin as [v Hleaf].
  split; [|eapply leaf_at_nonempty; eauto].
  exact (leaf_names_valid utf8_decodable cwd spec (FDir es) Hwf root tree
           (entry_value_dir utf8_decodable cwd spec root es) comps v Hleaf).
Qed.

Lemma C8_witness :
  wf_listing sample.project
  /\ headings (tree_parts (open_text sample.read_text sample.state)
                 sample.tree "/w")
     = map (join_all "/w") (leaves sample.tree)
  /\ NoDup (headings (tree_parts (open_text sample.read_text sample.state)
                        sample.tree "/w")).
Proof.
  assert (H : wf_listing sample.project) by reflexivity.
  destruct (C8_headings_are_the_leaves sample.utf8_decodable "/w" None "/w"
              sample.project (open_text sample.read_text sample.state) "/w" H)
    as [_ [Hheadings [_ [_ Hnodup]]]].
  split; [exact H|]. split; [exact Hheadings|exact Hnodup].
Defined.

(** ** C9 *)

(** C9: the document is a function of the working directory and of the
    content of the filesystem below it: two runs on the same directory
    end alike, with the same document or the same exception, even when
    [os.listdir] enumerates the directories in another order. *)
Theorem C9_same_directory_same_document :
  forall utf8_decodable read_text splitlines from_lines st1 st2,
    wf_listing (cwd_entries st1) -> wf_listing (cwd_entries st2) ->
    same_directory st1 st2 ->
    main utf8_decodable read_text splitlines from_lines st1
    = main utf8_decodable read_text splitlines from_lines st2.
Proof.
  intros utf8_decodable read_text splitlines from_lines st1 st2 Hwf1 Hwf2 Hsame.
  now apply main_same.
Qed.

Lemma C9_witness :
  wf_listing (cwd_entries sample.state)
  /\ wf_listing (cwd_entries sample.state_reordered)
  /\ same_directory sample.state sample.state_reordered
  /\ main sample.utf8_decodable sample.read_text sample.splitlines
       sample.from_lines sample.state
     = main sample.utf8_decodable sample.read_text sample.splitlines
         sample.from_lines sample.state_reordered.
Proof.
  assert (H1 : wf_listing (cwd_entries sample.state)) by reflexivity.
  assert (H2 : wf_listing (cwd_entries sample.state_reordered)) by reflexivity.
  split; [exact H1|]. split; [exact H2|].
  split; [exact sample_same_directory|].
  exact (C9_same_directory_same_document sample.utf8_decodable sample.read_text
           sample.splitlines sample.from_lines sample.state
           sample.state_reordered H1 H2 sample_same_directory).
Defined.

(** ** C10 *)

(** C10: [is_ignored] matches the path relative to the working directory.
    When [build_file_tree] runs on the directory reached from the working
    directory along [ds], the matcher sees the name of an entry behind the
    relative path of that directory, and the items of the tree are the
    entries that are not skipped and whose path relative to the working
    directory is not matched.  With [ds] empty, the root is the working
    directory and the matcher sees the path relative to the root.  With
    [ds] not empty, what it sees is never the path relative to the root,
    and some matcher ignores that path while the code keeps the entry.
    For any directory [abs_path rs], below the working directory or not,
    the matcher sees the name of an entry exactly when that directory is
    the working directory. *)
Theorem C10_ignore_paths_are_relative_to_cwd :
  forall utf8_decodable cs ds (m : PathSpec) es,
    names_valid cs -> names_valid ds -> wf_listing es ->
    let cwd := abs_path cs in
    let root := join_all cwd ds in
    (forall name, valid_name name = true ->
       is_ignored cwd (os_path.join root name) (Some m)
       = m (pystr.join "/" (ds ++ [name])))
    /\ (forall k v,
          In (k, v) (build_file_tree utf8_decodable cwd root (Some m) es)
          <-> exists c, In (k, c) es /\ is_skip_dir k c = false
                        /\ m (pystr.join "/" (ds ++ [k])) = false
                        /\ v = entry_value utf8_decodable cwd (Some m)
                                 (os_path.join root k) c)
    /\ (ds = [] ->
        root = cwd
        /\ forall name, valid_name name = true ->
             is_ignored cwd (os_path.join root name) (Some m) = m name)
    /\ (ds <> [] ->
        forall name, valid_name name = true ->
          pystr.join "/" (ds ++ [name]) <> name
          /\ exists m' : PathSpec,
               m' name = true
               /\ is_ignored cwd (os_path.join root name) (Some m') = false)
    /\ (forall rs name,
          names_valid rs -> valid_name name = true ->
          os_path.relpath cwd (os_path.join (abs_path rs) name) cwd = name
          <-> rs = cs).
Proof.
  intros utf8_decodable cs ds m es Hcs Hds Hwf cwd root.
  assert (Hrel : forall (m0 : PathSpec) name, valid_name name = true ->
            is_ignored cwd (os_path.join root name) (Some m0)
            = m0 (pystr.join "/" (ds ++ [name]))).
  { intros m0 name Hname. unfold is_ignored, root, cwd.
    rewrite join_all_snoc, relpath_below; [reflexivity|exact Hcs| |].
    - apply Forall_app. split; [exact Hds|now constructor].
    - now destruct ds. }
  split; [exact (Hrel m)|]. split; [|split; [|split]].
  - intros k v.
    rewrite (In_build_file_tree utf8_decodable cwd (Some m) root es k v
               (wf_listing_NoDup es Hwf)).
    split; intros [c [Hc H]]; exists c; (split; [exact Hc|]);
      pose proof (proj1 (wf_listing_In es k c Hwf Hc)) as Hk;
      unfold kept in *; rewrite (Hrel m k Hk) in *.
    + destruct H as [Hkept Hv]. apply andb_true_iff in Hkept.
      rewrite !negb_true_iff in Hkept. tauto.
    + destruct H as [Hskip [Hm Hv]]. rewrite Hskip, Hm. now split.
  - intros ->. split; [reflexivity|]. intros name Hname.
    exact (Hrel m name Hname).
  - intros Hne name Hname.
    pose proof (join_names_not_name ds name Hne Hname) as Hdiff.
    split; [exact Hdiff|].
    exists (String.eqb name). split; [apply String.eqb_refl|].
    rewrite (Hrel (String.eqb name) name Hname).
    apply String.eqb_neq. congruence.
  - intros rs name Hrs Hname. now apply relpath_is_name_iff.
Qed.

Lemma C10_witness :
  names_valid ["w"%string] /\ names_valid ["sub"%string]
  /\ wf_listing [("a.txt"%string, sample.text "x")]
  /\ is_ignored "/w" "/w/sub/a.txt" (Some (String.eqb "a.txt")) = false
  /\ build_file_tree sample.utf8_decodable "/w" "/w/sub"
       (Some (String.eqb "a.txt")) [("a.txt"%string, sample.text "x")]
     = [("a.txt"%string, FILE)]
  /\ build_file_tree sample.utf8_decodable "/w/sub" "/w/sub"
       (Some (String.eqb "a.txt")) [("a.txt"%string, sample.text "x")]
     = [].
Proof.
  assert (H1 : names_valid ["w"%string]) by (repeat constructor).
  assert (H2 : names_valid ["sub"%string]) by (repeat constructor).
  assert (H3 : wf_listing [("a.txt"%string, sample.text "x")]) by reflexivity.
  destruct (C10_ignore_paths_are_relative_to_cwd sample.utf8_decodable
              ["w"%string] ["sub"%string] (String.eqb "a.txt")
              [("a.txt"%string, sample.text "x")] H1 H2 H3)
    as [Hrel _].
  split; [exact H1|]. split; [exact H2|]. split; [exact H3|].
  split; [exact (Hrel "a.txt"%string eq_refl)|].
  split; reflexivity.
Defined.

(** * Further properties of the script *)

(** ** [is_binary_file] *)

(** X1: a file is classified as text exactly when it can be opened, its
    first 1024 bytes have no NUL byte and they decode as UTF-8; a file
    that cannot be opened and a prefix that does not decode are binary. *)
Theorem X1_text_classification :
  forall utf8_decodable f,
    is_binary_file utf8_decodable f 1024 = false
    <-> exists data,
          f = Readable data
          /\ ~ In x00 (firstn 1024 data)
          /\ utf8_decodable (firstn 1024 data) = true.
Proof. exact is_binary_file_text. Qed.

(** X2: what follows the first 1024 bytes of a file never changes its
    classification; so a NUL byte behind them is not seen. *)
Theorem X2_classification_reads_the_prefix_only :
  forall utf8_decodable data rest,
    1024 <= List.length data ->
    is_binary_file utf8_decodable (Readable (data ++ rest)) 1024
    = is_binary_file utf8_decodable (Readable data) 1024.
Proof.
  intros utf8_decodable data rest Hlen. unfold is_binary_file.
  now rewrite firstn_app_long.
Qed.

Lemma X2_witness :
  1024 <= List.length (repeat x61 1024)
  /\ is_binary_file sample.utf8_decodable
       (Readable (repeat x61 1024 ++ [x00])) 1024
     = is_binary_file sample.utf8_decodable (Readable (repeat x61 1024)) 1024.
Proof.
  assert (H : 1024 <= List.length (repeat x61 1024))
    by (rewrite repeat_length; apply le_n).
  split; [exact H|].
  exact (X2_classification_reads_the_prefix_only sample.utf8_decodable
           (repeat x61 1024) [x00] H).
Defined.

(** ** [build_file_tree] *)

(** X3: an entry that is skipped or ignored is never looked into: the
    built tree is the same whatever a skipped or ignored directory
    contains, and whatever the bytes of an ignored file are. *)
Theorem X3_entries_not_kept_are_not_read :
  forall utf8_decodable cwd spec root es1 es2 k c c',
    wf_listing (es1 ++ (k, c) :: es2) ->
    kept cwd spec root k c = false ->
    isdir c = isdir c' ->
    build_file_tree utf8_decodable cwd root spec (es1 ++ (k, c) :: es2)
    = build_file_tree utf8_decodable cwd root spec (es1 ++ (k, c') :: es2).
Proof.
  intros utf8_decodable cwd spec root es1 es2 k c c' Hwf Hkept Hdir.
  apply build_file_tree_replace; [|exact Hkept|exact Hdir].
  now apply wf_listing_NoDup.
Qed.

Lemma X3_witness :
  wf_listing ([("a.py"%string, sample.text "print(1)")]
              ++ (".git"%string, FDir [("config"%string, sample.text "x")])
              :: [])
  /\ kept "/w" None "/w" ".git" (FDir [("config"%string, sample.text "x")])
     = false
  /\ build_file_tree sample.utf8_decodable "/w" "/w" None
       ([("a.py"%string, sample.text "print(1)")]
        ++ (".git"%string, FDir [("config"%string, sample.text "x")]) :: [])
     = build_file_tree sample.utf8_decodable "/w" "/w" None
         ([("a.py"%string, sample.text "print(1)")]
          ++ (".git"%string, FDir []) :: []).
Proof.
  assert (H1 : wf_listing
                 ([("a.py"%string, sample.text "print(1)")]
                  ++ (".git"%string, FDir [("config"%string, sample.text "x")])
                  :: [])) by reflexivity.
  assert (H2 : kept "/w" None "/w" ".git"
                 (FDir [("config"%string, sample.text "x")]) = false)
    by reflexivity.
  split; [exact H1|]. split; [exact H2|].
  exact (X3_entries_not_kept_are_not_read sample.utf8_decodable "/w" None "/w"
           [("a.py"%string, sample.text "print(1)")] [] ".git"
           (FDir [("config"%string, sample.text "x")]) (FDir [])
           H1 H2 eq_refl).
Defined.

(** ** [render_tree_markdown] *)

(** X4: the list lines of the rendering are, in the order of the tree,
    one per node: the line of a node at depth [d] is [2 * d] spaces, then
    ["- "] and the name for a file, ["- **"], the name and ["/**"] for a
    directory. *)
Theorem X4_lines_are_indented_by_depth :
  forall tree,
    render_tree_markdown tree "" = pystr.join LF (tree_lines tree "")
    /\ filter nonblank (tree_lines tree "") = map node_line (tree_kinds tree)
    /\ forall d, String.length (indent d) = 2 * d.
Proof.
  intros tree.
  split; [apply render_tree_markdown_lines|].
  split; [apply tree_lines_kinds|].
  induction d as [|d IH]; [reflexivity|].
  cbn [indent]. cbn [String.append String.length]. rewrite IH. lia.
Qed.

(** ** [gather_file_contents] *)

(** X5: for every binary leaf, the output contains the heading line with
    the path of the file followed by the note that the file is binary. *)
Theorem X5_binary_file_block :
  forall open_read tree parent_path comps,
    leaf_at tree comps BINARY ->
    exists a b,
      gather_file_contents open_read tree parent_path
      = (a ++ binary_block (join_all parent_path comps) ++ b)%string.
Proof.
  intros open_read tree parent_path comps Hleaf.
  exact (gather_contains_block open_read tree comps BINARY Hleaf parent_path).
Qed.

Lemma X5_witness :
  leaf_at sample.tree ["b.bin"]%string BINARY
  /\ exists a b,
       gather_file_contents (open_text sample.read_text sample.state)
         sample.tree "/w"
       = (a ++ binary_block "/w/b.bin" ++ b)%string.
Proof.
  assert (H : leaf_at sample.tree ["b.bin"]%string BINARY)
    by (apply leaf_here; [right; left; reflexivity|reflexivity]).
  split; [exact H|].
  exact (X5_binary_file_block (open_text sample.read_text sample.state)
           sample.tree "/w" ["b.bin"]%string H).
Defined.

(** X6: the gathering opens the text-file leaves only: its output is the
    same for two filesystems that read alike at the paths of the
    text-file leaves, whatever they hold at the paths of the binary
    leaves and anywhere else. *)
Theorem X6_only_text_leaves_are_read :
  forall (r1 r2 : string -> result string) tree parent_path,
    (forall comps, leaf_at tree comps FILE ->
       r1 (join_all parent_path comps) = r2 (join_all parent_path comps)) ->
    gather_file_contents r1 tree parent_path
    = gather_file_contents r2 tree parent_path.
Proof. exact gather_reads_text_leaves. Qed.

Lemma X6_witness :
  (forall comps, leaf_at sample2.two_files comps FILE ->
     sample2.read_only_a (join_all "/w" comps)
     = open_text sample.read_text sample.state (join_all "/w" comps))
  /\ gather_file_contents sample2.read_only_a sample2.two_files "/w"
     = gather_file_contents (open_text sample.read_text sample.state)
         sample2.two_files "/w".
Proof.
  assert (H : forall comps, leaf_at sample2.two_files comps FILE ->
                sample2.read_only_a (join_all "/w" comps)
                = open_text sample.read_text sample.state (join_all "/w" comps)).
  { intros comps Hleaf.
    inversion Hleaf as [? k w Hin Hw|? k sub t w Hin Hsub]; subst.
    - destruct Hin as [Hin|[Hin|[]]]; [|discriminate Hin].
      injection Hin as <-. reflexivity.
    - destruct Hin as [Hin|[Hin|[]]]; discriminate Hin. }
  split; [exact H|].
  exact (X6_only_text_leaves_are_read sample2.read_only_a
           (open_text sample.read_text sample.state)
           sample2.two_files "/w" H).
Defined.

(** X7: the two sections of the document list the same files in the same
    order.  What [render_tree_markdown] returns is the join of its lines,
    whose non-empty lines are the lines of the entries of the tree; what
    [gather_file_contents] returns is the join of its parts; and the
    paths of the headings among these parts are the paths of the entries
    that are files, in the order of their lines. *)
Theorem X7_sections_list_the_same_files :
  forall open_read tree root,
    render_tree_markdown tree "" = pystr.join LF (tree_lines tree "")
    /\ filter nonblank (tree_lines tree "")
       = map line_of (tree_entries root "" tree)
    /\ gather_file_contents open_read tree root
       = pystr.join LF (map render_part (tree_parts open_read tree root))
    /\ headings (tree_parts open_read tree root)
       = map e_path
           (filter (fun e => negb (e_isdir e)) (tree_entries root "" tree)).
Proof.
  intros open_read tree root.
  split; [apply render_tree_markdown_lines|].
  split; [apply tree_lines_entries|].
  split; [apply gather_file_contents_parts|].
  now rewrite file_paths_tree_entries, headings_tree_parts.
Qed.

(** ** [build_file_tree] and [is_binary_file] together *)

(** X8: every leaf of the built tree is a regular file of the walked
    directory, at the place of the leaf, and its value is the
    classification of that file; a leaf marked as text is a file that can
    be opened, whose first 1024 bytes have no NUL byte and decode. *)
Theorem X8_leaves_are_classified_files :
  forall utf8_decodable cwd spec root es comps v,
    wf_listing es ->
    leaf_at (build_file_tree utf8_decodable cwd root spec es) comps v ->
    exists f,
      walk (FDir es) comps = Some (FFile f)
      /\ v = (if is_binary_file utf8_decodable f 1024 then BINARY else FILE)
      /\ (v = FILE ->
          exists data,
            f = Readable data
            /\ ~ In x00 (firstn 1024 data)
            /\ utf8_decodable (firstn 1024 data) = true).
Proof.
  intros utf8_decodable cwd spec root es comps v Hwf Hleaf.
  destruct (leaf_is_file utf8_decodable cwd spec (FDir es) Hwf root _
              (entry_value_dir utf8_decodable cwd spec root es) comps v Hleaf)
    as [f [Hwalk Hv]].
  exists f. split; [exact Hwalk|]. split; [exact Hv|].
  intros ->. apply is_binary_file_text.
  destruct (is_binary_file utf8_decodable f 1024); [discriminate|reflexivity].
Qed.

Lemma X8_witness :
  wf_listing sample.project
  /\ leaf_at sample.tree ["sub"; "z.JS"]%string FILE
  /\ exists f,
       walk (FDir sample.project) ["sub"; "z.JS"]%string = Some (FFile f)
       /\ FILE = (if is_binary_file sample.utf8_decodable f 1024
                  then BINARY else FILE).
Proof.
  assert (H1 : wf_listing sample.project) by reflexivity.
  assert (H2 : leaf_at sample.tree ["sub"; "z.JS"]%string FILE).
  { apply (leaf_below sample.tree "sub"
             [("k"%string, BINARY); ("z.JS"%string, FILE)]).
    - right; right; right; left; reflexivity.
    - apply leaf_here; [right; left; reflexivity|reflexivity]. }
  split; [exact H1|]. split; [exact H2|].
  destruct (X8_leaves_are_classified_files sample.utf8_decodable "/w" None "/w"
              sample.project ["sub"; "z.JS"]%string FILE H1 H2)
    as [f [Hwalk [Hv _]]].
  exists f. split; [exact Hwalk|exact Hv].
Defined.

(** ** [main] *)

(** X9: in a run, when the codec reads every byte string that it decodes,
    a text-file leaf of at most 1024 bytes is read without error: the
    placeholder of a failed read can only stand for a longer file. *)
Theorem X9_short_text_files_are_read :
  forall utf8_decodable read_text spec st cs comps,
    (forall d, utf8_decodable d = true -> exists t, read_text d = Ok t) ->
    getcwd st = abs_path cs -> names_valid cs ->
    wf_listing (cwd_entries st) ->
    leaf_at (build_file_tree utf8_decodable (getcwd st) (getcwd st) spec
               (cwd_entries st)) comps FILE ->
    exists data,
      walk (FDir (cwd_entries st)) comps = Some (FFile (Readable data))
      /\ (List.length data <= 1024 ->
          exists t,
            open_text read_text st (join_all (getcwd st) comps) = Ok t).
Proof.
  intros utf8_decodable read_text spec st cs comps Hcodec Hcwd Hcs Hwf Hleaf.
  destruct (open_text_leaf utf8_decodable read_text spec st cs comps
              Hcwd Hcs Hwf Hleaf) as [data [Hwalk Hopen]].
  exists data. split; [exact Hwalk|]. intros Hlen.
  destruct (text_leaf_is_decodable_file utf8_decodable (getcwd st) spec
              (getcwd st) (cwd_entries st) comps Hwf Hleaf)
    as [data' [Hwalk' [_ Hdec]]].
  rewrite Hwalk in Hwalk'. injection Hwalk' as <-.
  rewrite firstn_all2 in Hdec by exact Hlen.
  destruct (Hcodec data Hdec) as [t Ht]. exists t. now rewrite Hopen.
Qed.

Lemma X9_witness :
  (forall d, sample.utf8_decodable d = true ->
             exists t, sample.read_text d = Ok t)
  /\ getcwd sample.state = abs_path ["w"%string]
  /\ names_valid ["w"%string]
  /\ wf_listing (cwd_entries sample.state)
  /\ leaf_at (build_file_tree sample.utf8_decodable (getcwd sample.state)
                (getcwd sample.state) None (cwd_entries sample.state))
             ["a.py"]%string FILE
  /\ exists data,
       walk (FDir (cwd_entries sample.state)) ["a.py"]%string
       = Some (FFile (Readable data))
       /\ (List.length data <= 1024 ->
           exists t,
             open_text sample.read_text sample.state
               (join_all (getcwd sample.state) ["a.py"]%string) = Ok t).
Proof.
  assert (H2 : getcwd sample.state = abs_path ["w"%string]) by reflexivity.
  assert (H3 : names_valid ["w"%string]) by (repeat constructor).
  assert (H4 : wf_listing (cwd_entries sample.state)) by reflexivity.
  split; [exact sample_codec_reads|]. split; [exact H2|].
  split; [exact H3|]. split; [exact H4|]. split; [exact sample_leaf_a|].
  exact (X9_short_text_files_are_read sample.utf8_decodable sample.read_text
           None sample.state ["w"%string] ["a.py"]%string
           sample_codec_reads H2 H3 H4 sample_leaf_a).
Defined.

(** X10: in a run, every text-file leaf of the tree that the walk
    returns has its block in the document, under a heading that is the
    absolute path of the file: the working directory followed by the
    path relative to it.  The body is the text read from the file found
    there, or the placeholder. *)
Theorem X10_document_has_absolute_headings :
  forall utf8_decodable read_text splitlines from_lines st cs spec tree comps,
    getcwd st = abs_path cs -> names_valid cs ->
    wf_listing (cwd_entries st) ->
    load_gitignore_patterns read_text splitlines from_lines st
      (os_path.join (getcwd st) ".gitignore") = Ok spec ->
    build_file_tree_or_raise utf8_decodable (listdir_error st) (getcwd st)
      (getcwd st) spec (cwd_entries st) = Ok tree ->
    leaf_at tree comps FILE ->
    exists data a b,
      walk (FDir (cwd_entries st)) comps = Some (FFile (Readable data))
      /\ main utf8_decodable read_text splitlines from_lines st
         = Ok (a ++ text_block (abs_path (cs ++ comps)) (last comps "")
                      (file_text_of (read_text data))
                 ++ b)%string.
Proof.
  intros utf8_decodable read_text splitlines from_lines st cs spec tree comps
         Hcwd Hcs Hwf Hload Hbuild Hleaf.
  pose proof (build_file_tree_or_raise_Ok utf8_decodable (listdir_error st)
                (getcwd st) spec (getcwd st) (cwd_entries st) tree Hbuild)
    as Htree.
  rewrite Htree in Hleaf.
  destruct (open_text_leaf utf8_decodable read_text spec st cs comps
              Hcwd Hcs Hwf Hleaf) as [data [Hwalk Hopen]].
  assert (Hvalid : names_valid comps).
  { exact (leaf_names_valid utf8_decodable (getcwd st) spec
             (FDir (cwd_entries st)) Hwf (getcwd st) _
             (entry_value_dir utf8_decodable (getcwd st) spec (getcwd st)
                (cwd_entries st)) comps FILE Hleaf). }
  destruct (gather_contains_block (open_text read_text st) _ comps FILE Hleaf
              (getcwd st)) as [a [b Hgather]].
  cbn [block_of] in Hgather. rewrite Hopen in Hgather.
  assert (Hpath : join_all (getcwd st) comps = abs_path (cs ++ comps))
    by (rewrite Hcwd; now apply join_all_abs_path).
  rewrite Hpath, <- Htree in Hgather.
  destruct (main_contains_gather utf8_decodable read_text splitlines from_lines
              st spec tree a _ b Hload Hbuild Hgather) as [a' [b' Hmain]].
  exists data, a', b'. split; [exact Hwalk|exact Hmain].
Qed.

Lemma X10_witness :
  getcwd sample.state = abs_path ["w"%string]
  /\ names_valid ["w"%string]
  /\ wf_listing (cwd_entries sample.state)
  /\ load_gitignore_patterns sample.read_text sample.splitlines
       sample.from_lines sample.state
       (os_path.join (getcwd sample.state) ".gitignore") = Ok None
  /\ build_file_tree_or_raise sample.utf8_decodable
       (listdir_error sample.state) (getcwd sample.state)
       (getcwd sample.state) None (cwd_entries sample.state) = Ok sample.tree
  /\ leaf_at sample.tree ["a.py"]%string FILE
  /\ exists data a b,
       walk (FDir (cwd_entries sample.state)) ["a.py"]%string
       = Some (FFile (Readable data))
       /\ main sample.utf8_decodable sample.read_text sample.splitlines
            sample.from_lines sample.state
          = Ok (a ++ text_block "/w/a.py" "a.py"
                       (file_text_of (sample.read_text data))
                  ++ b)%string.
Proof.
  assert (H1 : getcwd sample.state = abs_path ["w"%string]) by reflexivity.
  assert (H2 : names_valid ["w"%string]) by (repeat constructor).
  assert (H3 : wf_listing (cwd_entries sample.state)) by reflexivity.
  assert (H4 : load_gitignore_patterns sample.read_text sample.splitlines
                 sample.from_lines sample.state
                 (os_path.join (getcwd sample.state) ".gitignore") = Ok None)
    by reflexivity.
  assert (H5 : build_file_tree_or_raise sample.utf8_decodable
                 (listdir_error sample.state) (getcwd sample.state)
                 (getcwd sample.state) None (cwd_entries sample.state)
               = Ok sample.tree) by reflexivity.
  split; [exact H1|]. split; [exact H2|]. split; [exact H3|].
  split; [exact H4|]. split; [exact H5|]. split; [exact sample_leaf_a|].
  exact (X10_document_has_absolute_headings sample.utf8_decodable
           sample.read_text sample.splitlines sample.from_lines sample.state
           ["w"%string] None sample.tree ["a.py"]%string H1 H2 H3 H4 H5
           sample_leaf_a).
Defined.

(** ** [load_gitignore_patterns] *)

(** X11: in a process whose working directory is a normalized absolute
    path, what [load_gitignore_patterns] returns depends on the entry
    named [.gitignore] of the working directory only.  Without one there
    is no matcher.  A directory of that name, a file that cannot be
    opened, a content that does not decode and a pattern that
    [from_lines] rejects each end the call with the exception.
    Otherwise the matcher is the one that [from_lines] makes of the lines
    of the file. *)
Theorem X11_ignore_file_outcomes :
  forall read_text splitlines from_lines st cs,
    getcwd st = abs_path cs -> names_valid cs ->
    let gitignore_path := os_path.join (getcwd st) ".gitignore" in
    load_gitignore_patterns read_text splitlines from_lines st gitignore_path
    = match assoc ".gitignore" (cwd_entries st) with
      | None => Ok None
      | Some (FDir _) =>
          Raise ("[Errno 21] Is a directory: '" ++ gitignore_path ++ "'")%string
      | Some (FFile (Unreadable err)) => Raise err
      | Some (FFile (Readable data)) =>
          match read_text data with
          | Raise e => Raise e
          | Ok content =>
              match from_lines (splitlines content) with
              | Raise e => Raise e
              | Ok spec => Ok (Some spec)
              end
          end
      end.
Proof.
  intros read_text splitlines from_lines st cs Hcwd Hcs gitignore_path.
  unfold load_gitignore_patterns, os_path_exists, open_text.
  unfold gitignore_path. rewrite (resolve_gitignore st cs Hcwd Hcs).
  destruct (assoc ".gitignore" (cwd_entries st)) as [[[data|err]|sub]|];
    reflexivity.
Qed.

Lemma X11_witness :
  getcwd {| getcwd := "/w"; cwd_entries := sample.locked;
             listdir_error := fun _ => None |}
  = abs_path ["w"%string]
  /\ names_valid ["w"%string]
  /\ load_gitignore_patterns sample.read_text sample.splitlines
       sample.from_lines {| getcwd := "/w"; cwd_entries := sample.locked;
             listdir_error := fun _ => None |}
       "/w/.gitignore"
     = Raise "[Errno 13] Permission denied: '/w/.gitignore'".
Proof.
  assert (H1 : getcwd {| getcwd := "/w"; cwd_entries := sample.locked;
             listdir_error := fun _ => None |}
               = abs_path ["w"%string]) by reflexivity.
  assert (H2 : names_valid ["w"%string]) by (repeat constructor).
  split; [exact H1|]. split; [exact H2|].
  exact (X11_ignore_file_outcomes sample.read_text sample.splitlines
           sample.from_lines {| getcwd := "/w"; cwd_entries := sample.locked;
             listdir_error := fun _ => None |}
           ["w"%string] H1 H2).
Defined.

(** ** [count_tokens] *)

(** X12: when [tiktoken] cannot be used, the count is the number of
    words, and it adds up over an ASCII whitespace character: the count
    of two texts put together around one is the sum of their counts. *)
Theorem X12_fallback_count_adds_up :
  forall tiktoken_encode a c b,
    tiktoken_unavailable tiktoken_encode ->
    pytext.is_space1 c = true ->
    count_tokens tiktoken_encode (a ++ String c b)
    = count_tokens tiktoken_encode a + count_tokens tiktoken_encode b.
Proof.
  intros tiktoken_encode a c b Hun Hc.
  rewrite !count_tokens_fallback by exact Hun.
  rewrite split_ws_app by exact Hc. apply length_app.
Qed.

(** X13: when [tiktoken] cannot be used, a text made of words separated
    by single spaces counts as many tokens as it has words; the empty
    text counts none. *)
Theorem X13_fallback_counts_words :
  forall tiktoken_encode ws,
    tiktoken_unavailable tiktoken_encode ->
    Forall is_word ws ->
    pytext.split_ws (pystr.join " " ws) = ws
    /\ count_tokens tiktoken_encode (pystr.join " " ws) = List.length ws.
Proof.
  intros tiktoken_encode ws Hun Hws.
  pose proof (split_ws_join_words ws Hws) as E.
  split; [exact E|]. rewrite count_tokens_fallback by exact Hun.
  now rewrite E.
Qed.

Lemma X12_witness :
  tiktoken_unavailable sample2.no_tiktoken
  /\ pytext.is_space1 (ascii_of_nat 10) = true
  /\ count_tokens sample2.no_tiktoken ("a b" ++ LF ++ "c")%string
     = count_tokens sample2.no_tiktoken "a b"
       + count_tokens sample2.no_tiktoken "c".
Proof.
  split; [exact sample_no_tiktoken|]. split; [reflexivity|].
  exact (X12_fallback_count_adds_up sample2.no_tiktoken "a b"
           (ascii_of_nat 10) "c" sample_no_tiktoken eq_refl).
Defined.

Lemma X13_witness :
  tiktoken_unavailable sample2.no_tiktoken
  /\ Forall is_word ["def"; "f(x):"; "return"; "x"]%string
  /\ count_tokens sample2.no_tiktoken "def f(x): return x" = 4.
Proof.
  split; [exact sample_no_tiktoken|]. split; [exact sample_words|].
  exact (proj2 (X13_fallback_counts_words sample2.no_tiktoken
                  ["def"; "f(x):"; "return"; "x"]%string
                  sample_no_tiktoken sample_words)).
Defined.

(** ** [main], to its end *)

(** X14: when the walk has returned the tree, the run has the document
    of that tree.  When [tiktoken] cannot be used, its count is 8, for
    the words of the wrapper and of the two titles, plus the words of the
    tree section and of the contents section.  When [pbcopy] runs, the
    document is handed to it and the two lines are printed, the second
    with that count; when [pbcopy] cannot be started, the run ends with
    its exception and prints nothing. *)
Theorem X14_fallback_count_of_the_document :
  forall utf8_decodable read_text splitlines from_lines tiktoken_encode
         run_pbcopy st spec tree,
    tiktoken_unavailable tiktoken_encode ->
    load_gitignore_patterns read_text splitlines from_lines st
      (os_path.join (getcwd st) ".gitignore") = Ok spec ->
    build_file_tree_or_raise utf8_decodable (listdir_error st) (getcwd st)
      (getcwd st) spec (cwd_entries st) = Ok tree ->
    let words :=
      8 + List.length (pytext.split_ws (render_tree_markdown tree ""))
      + List.length
          (pytext.split_ws
             (gather_file_contents (open_text read_text st) tree (getcwd st))) in
    let doc :=
      document (render_tree_markdown tree "")
        (gather_file_contents (open_text read_text st) tree (getcwd st)) in
    main utf8_decodable read_text splitlines from_lines st = Ok doc
    /\ count_tokens tiktoken_encode doc = words
    /\ (forall u, run_pbcopy doc = Ok u ->
          main_run utf8_decodable read_text splitlines from_lines
            tiktoken_encode run_pbcopy st
          = {| copied := Some doc;
               stdout :=
                 ["Project has been converted to Markdown (wrapped in <project> tags) and copied to your clipboard."%string;
                  ("Total tokens in output: " ++ pytext.of_nat words)%string];
               uncaught := None |})
    /\ (forall e, run_pbcopy doc = Raise e ->
          main_run utf8_decodable read_text splitlines from_lines
            tiktoken_encode run_pbcopy st
          = {| copied := None; stdout := []; uncaught := Some e |}).
Proof.
  intros utf8_decodable read_text splitlines from_lines tiktoken_encode
         run_pbcopy st spec tree Hun Hload Hbuild words doc.
  pose proof (main_Ok utf8_decodable read_text splitlines from_lines st spec
                tree Hload Hbuild) as Hdoc.
  fold doc in Hdoc.
  assert (Hcount : count_tokens tiktoken_encode doc = words).
  { rewrite count_tokens_fallback by exact Hun.
    unfold doc, document. rewrite document_words.
    rewrite !length_app. cbn [List.length]. unfold words. lia. }
  split; [exact Hdoc|]. split; [exact Hcount|]. split.
  - intros u Hu. unfold main_run. now rewrite Hdoc, Hu, Hcount.
  - intros e He. unfold main_run. now rewrite Hdoc, He.
Qed.

Lemma X14_witness :
  tiktoken_unavailable sample2.no_tiktoken
  /\ load_gitignore_patterns sample.read_text sample.splitlines
       sample.from_lines sample.state
       (os_path.join (getcwd sample.state) ".gitignore") = Ok None
  /\ build_file_tree_or_raise sample.utf8_decodable
       (listdir_error sample.state) (getcwd sample.state)
       (getcwd sample.state) None (cwd_entries sample.state) = Ok sample.tree
  /\ main sample.utf8_decodable sample.read_text sample.splitlines
       sample.from_lines sample.state
     = Ok (document (render_tree_markdown sample.tree "")
             (gather_file_contents (open_text sample.read_text sample.state)
                sample.tree "/w"))
  /\ count_tokens sample2.no_tiktoken
       (document (render_tree_markdown sample.tree "")
          (gather_file_contents (open_text sample.read_text sample.state)
             sample.tree "/w"))
     = 8 + List.length
             (pytext.split_ws (render_tree_markdown sample.tree ""))
       + List.length
           (pytext.split_ws
              (gather_file_contents
                 (open_text sample.read_text sample.state) sample.tree
                 "/w")).
Proof.
  assert (H : load_gitignore_patterns sample.read_text sample.splitlines
                sample.from_lines sample.state
                (os_path.join (getcwd sample.state) ".gitignore") = Ok None)
    by reflexivity.
  assert (H' : build_file_tree_or_raise sample.utf8_decodable
                 (listdir_error sample.state) (getcwd sample.state)
                 (getcwd sample.state) None (cwd_entries sample.state)
               = Ok sample.tree) by reflexivity.
  split; [exact sample_no_tiktoken|]. split; [exact H|]. split; [exact H'|].
  destruct (X14_fallback_count_of_the_document sample.utf8_decodable
              sample.read_text sample.splitlines sample.from_lines
              sample2.no_tiktoken sample2.pbcopy sample.state None sample.tree
              sample_no_tiktoken H H') as [Hdoc [Hcount _]].
  split; [exact Hdoc|exact Hcount].
Defined.

(** ** The language tag of a fence *)

(** X15: the tag of a file depends on its last extension, whatever the
    case of its letters: a name whose last dot follows at least one
    character other than a dot gets the tag that the table gives for the
    lower-cased extension, and no tag when the table has none. *)
Theorem X15_tag_of_the_last_extension :
  forall stem e,
    noslash stem -> noslash e -> nodot e -> all_dots stem = false ->
    os_path.splitext (stem ++ String "." e) = (stem, String "." e)
    /\ fence_lang_of (stem ++ String "." e)
       = fence_get (pystr.lower (String "." e))
    /\ (forall lang,
          In (pystr.lower (String "." e), lang) fence_table ->
          fence_lang_of (stem ++ String "." e) = lang)
    /\ (~ In (pystr.lower (String "." e)) (map fst fence_table) ->
        fence_lang_of (stem ++ String "." e) = EmptyString).
Proof.
  intros stem e Hstem He Hdot Hdots.
  pose proof (splitext_last_dot stem e Hstem He Hdot) as E.
  rewrite Hdots in E.
  assert (Hlang : fence_lang_of (stem ++ String "." e)
                  = fence_get (pystr.lower (String "." e)))
    by (unfold fence_lang_of; now rewrite E).
  split; [exact E|]. split; [exact Hlang|]. split.
  - intros lang Hin. rewrite Hlang. now apply fence_get_listed.
  - intros Hnot. rewrite Hlang. now apply fence_get_unlisted.
Qed.

Lemma X15_witness :
  noslash "archive.tar" /\ noslash "JS" /\ nodot "JS"
  /\ all_dots "archive.tar" = false
  /\ os_path.splitext "archive.tar.JS" = ("archive.tar", ".JS")%string
  /\ fence_lang_of "archive.tar.JS" = "javascript"%string.
Proof.
  assert (H1 : noslash "archive.tar") by reflexivity.
  assert (H2 : noslash "JS") by reflexivity.
  assert (H3 : nodot "JS") by reflexivity.
  assert (H4 : all_dots "archive.tar" = false) by reflexivity.
  destruct (X15_tag_of_the_last_extension "archive.tar" "JS" H1 H2 H3 H4)
    as [Hsplit [_ [Hlang _]]].
  split; [exact H1|]. split; [exact H2|]. split; [exact H3|].
  split; [exact H4|]. split; [exact Hsplit|].
  apply Hlang. right; left; reflexivity.
Defined.

(** X16: a name without a dot, and a name whose only dots are leading
    ones, as [.gitignore] or a file named [.py], have no extension and
    get no tag. *)
Theorem X16_no_tag_without_extension :
  forall name,
    noslash name ->
    nodot name \/ (exists dots e, name = (dots ++ String "." e)%string
                                  /\ all_dots dots = true /\ nodot e) ->
    os_path.splitext name = (name, EmptyString)
    /\ fence_lang_of name = EmptyString.
Proof.
  intros name Hslash H.
  assert (E : os_path.splitext name = (name, EmptyString)).
  { destruct H as [H|[dots [e [-> [Hdots He]]]]].
    - now apply splitext_no_dot.
    - unfold noslash in Hslash. rewrite contains_app in Hslash.
      apply orb_false_iff in Hslash. destruct Hslash as [Hs1 Hs2].
      apply contains_cons_false in Hs2. destruct Hs2 as [_ Hs2].
      rewrite (splitext_last_dot dots e Hs1 Hs2 He). now rewrite Hdots. }
  split; [exact E|]. unfold fence_lang_of. now rewrite E.
Qed.

Lemma X16_witness :
  noslash ".py"
  /\ (nodot ".py" \/ (exists dots e, ".py"%string = (dots ++ String "." e)%string
                                     /\ all_dots dots = true /\ nodot e))
  /\ fence_lang_of ".py" = EmptyString.
Proof.
  assert (H1 : noslash ".py") by reflexivity.
  assert (H2 : nodot ".py"
               \/ (exists dots e, ".py"%string = (dots ++ String "." e)%string
                                  /\ all_dots dots = true /\ nodot e)).
  { right. exists EmptyString, "py"%string. repeat split. }
  split; [exact H1|]. split; [exact H2|].
  exact (proj2 (X16_no_tag_without_extension ".py" H1 H2)).
Defined.

(** ** [build_file_tree], level by level *)

(** X17: the keys of the built tree are the names of the entries that
    are neither skipped nor ignored, in the order of [sorted], whatever
    the order in which the directory is listed. *)
Theorem X17_keys_are_the_sorted_kept_names :
  forall utf8_decodable cwd spec root es,
    wf_listing es ->
    keys (build_file_tree utf8_decodable cwd root spec es)
    = sorted (map fst (filter (fun e => kept cwd spec root (fst e) (snd e)) es)).
Proof.
  intros utf8_decodable cwd spec root es Hwf.
  apply keys_build_sorted_kept. now apply wf_listing_NoDup.
Qed.

Lemma X17_witness :
  wf_listing sample.project
  /\ keys (build_file_tree sample.utf8_decodable "/w" "/w" None sample.project)
     = ["a.py"; "b.bin"; "empty"; "sub"]%string.
Proof.
  assert (H : wf_listing sample.project) by reflexivity.
  split; [exact H|].
  exact (X17_keys_are_the_sorted_kept_names sample.utf8_decodable "/w" None
           "/w" sample.project H).
Defined.

(** X18: the items of the built tree are the kept entries of the
    directory: a kept directory is stored with the tree built from it,
    with its joined path as the root, and a kept file with ['BINARY'] or
    ['FILE'], as [is_binary_file] classifies it. *)
Theorem X18_items_of_the_built_tree :
  forall utf8_decodable cwd spec root es k v,
    wf_listing es ->
    In (k, v) (build_file_tree utf8_decodable cwd root spec es)
    <-> exists c,
          In (k, c) es
          /\ is_skip_dir k c = false
          /\ is_ignored cwd (os_path.join root k) spec = false
          /\ v = match c with
                 | FDir sub =>
                     Dict (build_file_tree utf8_decodable cwd
                             (os_path.join root k) spec sub)
                 | FFile f =>
                     if is_binary_file utf8_decodable f 1024 then BINARY
                     else FILE
                 end.
Proof.
  intros utf8_decodable cwd spec root es k v Hwf.
  rewrite (In_build_file_tree utf8_decodable cwd spec root es k v
             (wf_listing_NoDup es Hwf)).
  split; intros [c [Hc H]]; exists c; (split; [exact Hc|]).
  - destruct H as [Hkept ->]. unfold kept in Hkept.
    apply andb_true_iff in Hkept. rewrite !negb_true_iff in Hkept.
    destruct Hkept as [H1 H2]. split; [exact H1|]. split; [exact H2|].
    destruct c; reflexivity.
  - destruct H as [H1 [H2 ->]]. unfold kept. rewrite H1, H2.
    split; [reflexivity|]. destruct c; reflexivity.
Qed.

Lemma X18_witness :
  wf_listing sample.project
  /\ In ("sub"%string, Dict [("k"%string, BINARY); ("z.JS"%string, FILE)])
        (build_file_tree sample.utf8_decodable "/w" "/w" None sample.project).
Proof.
  assert (H : wf_listing sample.project) by reflexivity.
  split; [exact H|].
  apply (X18_items_of_the_built_tree sample.utf8_decodable "/w" None "/w"
           sample.project "sub" _ H).
  exists (FDir [("z.JS"%string, sample.text "1");
                ("k"%string, FFile (Unreadable "[Errno 13] Permission denied"))]).
  split; [right; right; right; right; left; reflexivity|].
  repeat split.
Defined.

(** ** [os.listdir] raises *)




